(** * The OpenAI plugin of genkit-golang-openai-sample, embedded in Rocq

    The development follows [plugins/openai]: the translation of a
    provider-agnostic [GenerateRequest] into a vendor
    [ChatCompletionRequest] ([convertRequest], [convertMessages],
    [convertTools]), the translation of the vendor response back
    ([translateResponse], [translateCandidate]), the role tables, and the
    registry ([Init], [DefineModel], [generate]).

    Conventions of the embedding.
    - A Go function that can return an error or panic returns an
      [outcome]: [Ok v], [Err e] (a returned [error]) or [Panic p].
    - Go [int] is [Z]; [float64] and [float32] are [spec_float] values of
      the Standard Library, with the narrowing [float32(x)] written out.
    - Go strings are [string]; slices are lists (a nil slice is [[]]);
      pointers that may be nil are [option]; the messages, parts and tool
      definitions behind the pointers of a request are values.
    - [map[string]any] and [encoding/json] belong to the Go runtime, not to
      the repository: the type of such maps and the two codec functions are
      parameters of the development. *)

From Stdlib Require Import ZArith Bool Ascii List Lia.
From Stdlib Require Import Floats.SpecFloat.
From stdpp Require Import base option list strings gmap.

Local Open Scope string_scope.
Local Open Scope Z_scope.
Local Open Scope list_scope.

(** ** Errors, panics and outcomes *)

(** The [error] values the plugin builds with [fmt.Errorf]; each
    constructor stands for one format string of the source and carries the
    values that are formatted into it. *)
Inductive error : Type :=
| ErrNoAPIKey (envName : string)
    (* "OpenAI requires setting %s in the environment. ..." *)
| ErrInit (prov : string) (cause : error)
    (* "%s.Init: %w" *)
| ErrUnknownModelNoCaps (prov name : string)
    (* "%s.DefineModel: called with unknown model %q and nil ModelCapabilities" *)
| ErrUnknownPartType
    (* "unknown part type in a request" *)
| ErrUnknownOpenAIRole (role : string)
    (* "Unknown OpenAI Role %s" *)
| ErrMarshalRaw
    (* "failed to marshal map to JSON string: data, %#v %w" *)
| ErrVendor (msg : string).
    (* an error returned by the vendor transport, passed through *)

(** The values the plugin (or the Go runtime on its behalf) panics with. *)
Inductive panic : Type :=
| PanicInitTwice (msg : string)
    (* panic(provider + ".Init not called"), raised by Init when initted *)
| PanicInitNotCalled (msg : string)
    (* panic(provider + ".Init not called"), raised by DefineModel *)
| PanicUnknownAIRole (aiRole : string)
    (* panic(fmt.Sprintf("Unknown ai.Role: %s", aiRole)) *)
| PanicUnknownRole (role : string)
    (* panic(fmt.Sprintf("unknown role: %s", role)) *)
| PanicUnmarshal (jsonString : string)
    (* panic(fmt.Errorf("unmarshal failed to parse json string %s: %w", ...)) *)
| PanicMarshal
    (* panic(fmt.Errorf("failed to marshal map to JSON string: ...")) *)
| PanicIndexOutOfRange (index length : nat)
    (* runtime error: index out of range [index] with length [length] *)
| PanicNilDereference
    (* runtime error: invalid memory address or nil pointer dereference *)
| PanicHost (msg : string).
    (* a panic raised inside the host framework *)

Inductive outcome (A : Type) : Type :=
| Ok (a : A)
| Err (e : error)
| Panic (p : panic).

Arguments Ok {A} a.
Arguments Err {A} e.
Arguments Panic {A} p.

(** Sequencing: an error or a panic of the first step ends the function.
    With these instances [x ← c; k] is the notation for it. *)
#[global] Instance outcome_ret : MRet outcome := fun A a => Ok a.

#[global] Instance outcome_bind : MBind outcome := fun A B k o =>
  match o with
  | Ok a => k a
  | Err e => Err e
  | Panic p => Panic p
  end.

(** A [for] loop over a slice that appends one converted element per
    iteration and leaves the function at the first error or panic. *)
Fixpoint eachM {A B : Type} (f : A -> outcome B) (l : list A) : outcome (list B) :=
  match l with
  | [] => Ok []
  | x :: rest =>
      y ← f x;
      ys ← eachM f rest;
      Ok (y :: ys)
  end.

Definition isOk {A : Type} (o : outcome A) : bool :=
  match o with Ok _ => true | _ => false end.

Definition isPanic {A : Type} (o : outcome A) : bool :=
  match o with Panic _ => true | _ => false end.

(** [s[i]] on a slice: a run-time panic when [i] is out of range. *)
Definition index {A : Type} (s : list A) (i : nat) : outcome A :=
  match nth_error s i with
  | Some x => Ok x
  | None => Panic (PanicIndexOutOfRange i (length s))
  end.

(** ** Floating-point config values

    [Temperature] and [TopP] are [float64] in [ai.GenerationCommonConfig]
    and [float32] in the vendor request. *)
Module Float.

Definition float64 := spec_float.
Definition float32 := spec_float.

Definition prec64 : Z := 53.
Definition emax64 : Z := 1024.
Definition prec32 : Z := 24.
Definition emax32 : Z := 128.

Definition valid64 (x : float64) : bool := valid_binary prec64 emax64 x.
Definition valid32 (x : float32) : bool := valid_binary prec32 emax32 x.

(** The zero value of a Go float variable: [+0]. *)
Definition zero : spec_float := S754_zero false.

(** [x != 0]: false for both zeros, true for NaN. *)
Definition nonzero (x : float64) : bool := negb (SFeqb x zero).

(** The conversion [float32(x)] of a [float64]: rounding to the nearest
    [float32], ties to even; too large a magnitude gives an infinity,
    too small a magnitude gives a zero. *)
Definition to_float32 (x : float64) : float32 :=
  match x with
  | S754_finite s m e => binary_round prec32 emax32 s m e
  | _ => x
  end.

(** Exact comparison of the numbers two floats stand for, whatever their
    formats: [float32(x)] of a [float64] [x] that [float32] can hold has
    another mantissa and exponent than [x], but the same value. *)
Definition same_value (x y : spec_float) : bool :=
  match x, y with
  | S754_zero _, S754_zero _ => true
  | S754_infinity sx, S754_infinity sy => Bool.eqb sx sy
  | S754_nan, S754_nan => true
  | S754_finite sx mx ex, S754_finite sy my ey =>
      Bool.eqb sx sy
      && (Z.shiftl (Zpos mx) (ex - Z.min ex ey) =? Z.shiftl (Zpos my) (ey - Z.min ex ey))
  | _, _ => false
  end.

(** [m * 2^e], for writing literals. *)
Definition lit (m : positive) (e : Z) : float64 :=
  binary_round prec64 emax64 false m e.

End Float.

(** ** Constants of the two libraries the plugin links against *)

(** [github.com/sashabaranov/go-openai] *)
Module goopenai.

Definition GPT4o : string := "gpt-4o".
Definition GPT4oMini : string := "gpt-4o-mini".
Definition GPT4Turbo : string := "gpt-4-turbo".
Definition GPT4 : string := "gpt-4".

Definition ChatMessageRoleSystem : string := "system".
Definition ChatMessageRoleUser : string := "user".
Definition ChatMessageRoleAssistant : string := "assistant".
Definition ChatMessageRoleFunction : string := "function".
Definition ChatMessageRoleTool : string := "tool".

(** [type FinishReason string] *)
Definition FinishReasonStop : string := "stop".
Definition FinishReasonLength : string := "length".
Definition FinishReasonFunctionCall : string := "function_call".
Definition FinishReasonToolCalls : string := "tool_calls".
Definition FinishReasonContentFilter : string := "content_filter".
Definition FinishReasonNull : string := "null".

Definition ChatMessagePartTypeText : string := "text".
Definition ChatMessagePartTypeImageURL : string := "image_url".
Definition ImageURLDetailAuto : string := "auto".
Definition ToolTypeFunction : string := "function".

Definition ChatCompletionResponseFormatTypeJSONObject : string := "json_object".
Definition ChatCompletionResponseFormatTypeText : string := "text".

End goopenai.

(** [github.com/firebase/genkit/go/ai] *)
Module ai.

(** [type Role string] *)
Definition Role := string.
Definition RoleSystem : Role := "system".
Definition RoleUser : Role := "user".
Definition RoleModel : Role := "model".
Definition RoleTool : Role := "tool".

(** [type OutputFormat string] *)
Definition OutputFormatJSON : string := "json".
Definition OutputFormatText : string := "text".

Inductive FinishReason : Type :=
| FinishReasonStop
| FinishReasonLength
| FinishReasonBlocked
| FinishReasonOther
| FinishReasonUnknown.

Record ModelCapabilities : Type := {
  Multiturn : bool;
  Tools : bool;
  SystemRole : bool;
  Media : bool
}.

Record GenerationCommonConfig : Type := {
  MaxOutputTokens : Z;
  StopSequences : list string;
  Temperature : Float.float64;
  TopK : Z;
  TopP : Float.float64;
  Version : string
}.

(** The dynamic value of the [Config any] field of a request. *)
Inductive Config : Type :=
| ConfigNil
| ConfigCommon (c : option GenerationCommonConfig)
    (* a [*GenerationCommonConfig], possibly a nil pointer *)
| ConfigOther.

Record GenerationUsage : Type := {
  InputTokens : Z;
  OutputTokens : Z;
  TotalTokens : Z
}.

End ai.

(** ** Role tables *)

Definition fromAIRoleToOpenAIRole (aiRole : ai.Role) : outcome string :=
  if String.eqb aiRole ai.RoleUser then Ok goopenai.ChatMessageRoleUser
  else if String.eqb aiRole ai.RoleSystem then Ok goopenai.ChatMessageRoleSystem
  else if String.eqb aiRole ai.RoleModel then Ok goopenai.ChatMessageRoleAssistant
  else if String.eqb aiRole ai.RoleTool then Ok goopenai.ChatMessageRoleTool
  else Panic (PanicUnknownAIRole aiRole).

Definition toOpenAIRole (role : string) : outcome ai.Role :=
  if String.eqb role goopenai.ChatMessageRoleUser then Ok ai.RoleUser
  else if String.eqb role goopenai.ChatMessageRoleAssistant then Ok ai.RoleModel
  else if String.eqb role goopenai.ChatMessageRoleSystem then Ok ai.RoleSystem
  else if String.eqb role goopenai.ChatMessageRoleTool
          || String.eqb role goopenai.ChatMessageRoleFunction then Ok ai.RoleTool
  else Panic (PanicUnknownRole role).

(** [slices.Contains] on a slice of strings. *)
Definition slices_Contains (s : list string) (v : string) : bool :=
  existsb (String.eqb v) s.

Definition modelsSupportingResponseFormats : list string :=
  [ goopenai.GPT4o; goopenai.GPT4oMini; goopenai.GPT4Turbo ].

Definition provider : string := "openai".
Definition labelPrefix : string := "OpenAI".
Definition apiKeyEnv : string := "OPENAI_API_KEY".

(** ** The JSON codec of the Go runtime

    [anymap] is the type of Go values of type [map[string]any];
    [json_Marshal] and [json_Unmarshal] are [encoding/json]'s [Marshal] on
    such a map and [Unmarshal] into one, [None] standing for a returned
    error. *)
Class JSONCodec : Type := {
  anymap : Type;
  json_Marshal : anymap -> option string;
  json_Unmarshal : string -> option anymap
}.

(** ** The translators *)
Section Translators.

Context {codec : JSONCodec}.

(** *** The provider-agnostic model (package [ai]) *)

Record ToolRequest : Type := {
  ToolRequest_Name : string;
  ToolRequest_Input : anymap
}.

Record ToolResponse : Type := {
  ToolResponse_Name : string;
  ToolResponse_Output : anymap
}.

(** A [Part] holds exactly one of five variants. *)
Inductive Part : Type :=
| TextPart (text : string)                     (* ai.NewTextPart *)
| MediaPart (contentType : string) (uri : string)  (* ai.NewMediaPart *)
| DataPart (contents : string)                 (* ai.NewDataPart *)
| ToolRequestPart (r : ToolRequest)            (* ai.NewToolRequestPart *)
| ToolResponsePart (r : ToolResponse).         (* ai.NewToolResponsePart *)

Definition IsText (p : Part) : bool :=
  match p with TextPart _ => true | _ => false end.
Definition IsMedia (p : Part) : bool :=
  match p with MediaPart _ _ => true | _ => false end.
Definition IsData (p : Part) : bool :=
  match p with DataPart _ => true | _ => false end.
Definition IsToolRequest (p : Part) : bool :=
  match p with ToolRequestPart _ => true | _ => false end.
Definition IsToolResponse (p : Part) : bool :=
  match p with ToolResponsePart _ => true | _ => false end.

(** The field [Text]: the text, the media reference or the data of the
    part, and the empty string in a tool part. *)
Definition Part_Text (p : Part) : string :=
  match p with
  | TextPart t => t
  | MediaPart _ u => u
  | DataPart d => d
  | _ => EmptyString
  end.

(** The pointer fields [ToolRequest] and [ToolResponse]: nil in a part
    of another variant. *)
Definition Part_ToolRequest (p : Part) : option ToolRequest :=
  match p with ToolRequestPart r => Some r | _ => None end.
Definition Part_ToolResponse (p : Part) : option ToolResponse :=
  match p with ToolResponsePart r => Some r | _ => None end.

(** Reading a field through a pointer. *)
Definition deref {A : Type} (p : option A) : outcome A :=
  match p with
  | Some a => Ok a
  | None => Panic PanicNilDereference
  end.

Record Message : Type := {
  Message_Role : ai.Role;
  Message_Content : list Part
}.

Record ToolDefinition : Type := {
  ToolDefinition_Name : string;
  ToolDefinition_Description : string;
  ToolDefinition_InputSchema : anymap;
  ToolDefinition_OutputSchema : anymap
}.

Record GenerateRequestOutput : Type := {
  Output_Format : string;
  Output_Schema : anymap
}.

Record GenerateRequest : Type := {
  Request_Candidates : Z;
  Request_Config : ai.Config;
  Request_Messages : list Message;
  Request_Output : option GenerateRequestOutput;
  Request_Tools : list ToolDefinition
}.

(** *** The vendor wire model (package [goopenai]) *)

Record ChatMessageImageURL : Type := {
  ImageURL_URL : string;
  ImageURL_Detail : string
}.

Record ChatMessagePart : Type := {
  ChatMessagePart_Type : string;
  ChatMessagePart_Text : string;
  ChatMessagePart_ImageURL : option ChatMessageImageURL
}.

Record FunctionCall : Type := {
  FunctionCall_Name : string;
  FunctionCall_Arguments : string
}.

Record ToolCall : Type := {
  ToolCall_ID : string;
  ToolCall_Type : string;
  ToolCall_Function : FunctionCall
}.

Record ChatCompletionMessage : Type := {
  ChatCompletionMessage_Role : string;
  ChatCompletionMessage_Content : string;
  ChatCompletionMessage_MultiContent : list ChatMessagePart;
  ChatCompletionMessage_Name : string;
  ChatCompletionMessage_ToolCalls : list ToolCall;
  ChatCompletionMessage_ToolCallID : string
}.

Record FunctionDefinition : Type := {
  FunctionDefinition_Name : string;
  FunctionDefinition_Description : string;
  FunctionDefinition_Parameters : string      (* a json.RawMessage *)
}.

Record Tool : Type := {
  Tool_Type : string;
  Tool_Function : option FunctionDefinition
}.

(** The schema is handed to the vendor library as a [json.Marshaler]:
    it is encoded when the request is serialised. *)
Record MapJSONMarshaller : Type := {
  MapJSONMarshaller_Data : anymap
}.

Definition MarshalJSON (m : MapJSONMarshaller) : option string :=
  json_Marshal (MapJSONMarshaller_Data m).

Record ChatCompletionResponseFormatJSONSchema : Type := {
  JSONSchema_Name : string;
  JSONSchema_Description : string;
  JSONSchema_Schema : option MapJSONMarshaller;
  JSONSchema_Strict : bool
}.

Record ChatCompletionResponseFormat : Type := {
  ResponseFormat_Type : string;
  ResponseFormat_JSONSchema : option ChatCompletionResponseFormatJSONSchema
}.

Record ChatCompletionRequest : Type := {
  ChatCompletionRequest_Model : string;
  ChatCompletionRequest_Messages : list ChatCompletionMessage;
  ChatCompletionRequest_MaxTokens : Z;
  ChatCompletionRequest_Temperature : Float.float32;
  ChatCompletionRequest_TopP : Float.float32;
  ChatCompletionRequest_N : Z;
  ChatCompletionRequest_Stop : list string;
  ChatCompletionRequest_ResponseFormat : option ChatCompletionResponseFormat;
  ChatCompletionRequest_Tools : list Tool
}.

Record Usage : Type := {
  Usage_PromptTokens : Z;
  Usage_CompletionTokens : Z;
  Usage_TotalTokens : Z
}.

Record ChatCompletionChoice : Type := {
  Choice_Index : Z;
  Choice_Message : ChatCompletionMessage;
  Choice_FinishReason : string
}.

Record ChatCompletionResponse : Type := {
  ChatCompletionResponse_Choices : list ChatCompletionChoice;
  ChatCompletionResponse_Usage : Usage
}.

(** *** Responses of package [ai] *)

Record Candidate : Type := {
  Candidate_Index : Z;
  Candidate_FinishReason : ai.FinishReason;
  Candidate_Message : Message
}.

Record GenerateResponse : Type := {
  Response_Candidates : list Candidate;
  Response_Usage : ai.GenerationUsage;
  Response_Request : option GenerateRequest;
  Response_Custom : ChatCompletionResponse
}.

(** *** JSON helpers *)

Definition jsonStringToMap (jsonString : string) : outcome anymap :=
  match json_Unmarshal jsonString with
  | Some result => Ok result
  | None => Panic (PanicUnmarshal jsonString)
  end.

Definition mapToJSONString (data : anymap) : outcome string :=
  match json_Marshal data with
  | Some jsonBytes => Ok jsonBytes
  | None => Panic PanicMarshal
  end.

Definition mapToJSONRawMessage (data : anymap) : outcome string :=
  match json_Marshal data with
  | Some jsonBytes => Ok jsonBytes
  | None => Err ErrMarshalRaw
  end.

(** *** Request translation *)

Definition toOpenAiTextAndMedia (part : Part) : outcome ChatMessagePart :=
  if IsText part then
    Ok {| ChatMessagePart_Type := goopenai.ChatMessagePartTypeText;
          ChatMessagePart_Text := Part_Text part;
          ChatMessagePart_ImageURL := None |}
  else if IsMedia part then
    Ok {| ChatMessagePart_Type := goopenai.ChatMessagePartTypeImageURL;
          ChatMessagePart_Text := EmptyString;
          ChatMessagePart_ImageURL :=
            Some {| ImageURL_URL := Part_Text part;
                    ImageURL_Detail := goopenai.ImageURLDetailAuto |} |}
  else Err ErrUnknownPartType.

(** One iteration of the assistant branch on a tool-request part. *)
Definition toolCallOfPart (part : Part) : outcome ToolCall :=
  r ← deref (Part_ToolRequest part);
  arguments ← mapToJSONString (ToolRequest_Input r);
  Ok {| ToolCall_ID := ToolRequest_Name r;
        ToolCall_Type := goopenai.ToolTypeFunction;
        ToolCall_Function :=
          {| FunctionCall_Name := ToolRequest_Name r;
             FunctionCall_Arguments := arguments |} |}.

(** One iteration of the tool branch. *)
Definition toolMessageOfPart (role : string) (part : Part)
  : outcome ChatCompletionMessage :=
  r ← deref (Part_ToolResponse part);
  content ← mapToJSONString (ToolResponse_Output r);
  Ok {| ChatCompletionMessage_Role := role;
        ChatCompletionMessage_Content := content;
        ChatCompletionMessage_MultiContent := [];
        ChatCompletionMessage_Name := ToolResponse_Name r;
        ChatCompletionMessage_ToolCalls := [];
        ChatCompletionMessage_ToolCallID := ToolResponse_Name r |}.

(** A vendor message that carries only a role and a text. *)
Definition textMessage (role content : string) : ChatCompletionMessage :=
  {| ChatCompletionMessage_Role := role;
     ChatCompletionMessage_Content := content;
     ChatCompletionMessage_MultiContent := [];
     ChatCompletionMessage_Name := EmptyString;
     ChatCompletionMessage_ToolCalls := [];
     ChatCompletionMessage_ToolCallID := EmptyString |}.

(** The body of the loop of [convertMessages]: the vendor messages that
    one message appends to [msgs]. *)
Definition convertMessage (m : Message) : outcome (list ChatCompletionMessage) :=
  role ← fromAIRoleToOpenAIRole (Message_Role m);
  if String.eqb role goopenai.ChatMessageRoleUser then
    multiContent ← eachM toOpenAiTextAndMedia (Message_Content m);
    Ok [ {| ChatCompletionMessage_Role := role;
            ChatCompletionMessage_Content := EmptyString;
            ChatCompletionMessage_MultiContent := multiContent;
            ChatCompletionMessage_Name := EmptyString;
            ChatCompletionMessage_ToolCalls := [];
            ChatCompletionMessage_ToolCallID := EmptyString |} ]
  else if String.eqb role goopenai.ChatMessageRoleSystem then
    first ← index (Message_Content m) 0;
    Ok [ textMessage role (Part_Text first) ]
  else if String.eqb role goopenai.ChatMessageRoleAssistant then
    toolCalls ← eachM toolCallOfPart (List.filter IsToolRequest (Message_Content m));
    if (0 <? length toolCalls)%nat then
      Ok [ {| ChatCompletionMessage_Role := role;
              ChatCompletionMessage_Content := EmptyString;
              ChatCompletionMessage_MultiContent := [];
              ChatCompletionMessage_Name := EmptyString;
              ChatCompletionMessage_ToolCalls := toolCalls;
              ChatCompletionMessage_ToolCallID := EmptyString |} ]
    else
      first ← index (Message_Content m) 0;
      Ok [ textMessage role (Part_Text first) ]
  else if String.eqb role goopenai.ChatMessageRoleTool then
    eachM (toolMessageOfPart role) (Message_Content m)
  else Err (ErrUnknownOpenAIRole role).

Fixpoint convertMessages_from (msgs : list ChatCompletionMessage)
    (messages : list Message) : outcome (list ChatCompletionMessage) :=
  match messages with
  | [] => Ok msgs
  | m :: rest =>
      new ← convertMessage m;
      convertMessages_from (msgs ++ new) rest
  end.

Definition convertMessages (messages : list Message)
  : outcome (list ChatCompletionMessage) :=
  convertMessages_from [] messages.

Definition convertTool (t : ToolDefinition) : outcome Tool :=
  parameters ← mapToJSONRawMessage (ToolDefinition_InputSchema t);
  let fd := {| FunctionDefinition_Name := ToolDefinition_Name t;
               FunctionDefinition_Description := ToolDefinition_Description t;
               FunctionDefinition_Parameters := parameters |} in
  Ok {| Tool_Type := goopenai.ToolTypeFunction; Tool_Function := Some fd |}.

Definition convertTools (inTools : list ToolDefinition) : outcome (list Tool) :=
  eachM convertTool inTools.

(** Assignments to single fields of the request under construction. *)
Definition set_MaxTokens (v : Z) (r : ChatCompletionRequest) : ChatCompletionRequest :=
  {| ChatCompletionRequest_Model := ChatCompletionRequest_Model r;
     ChatCompletionRequest_Messages := ChatCompletionRequest_Messages r;
     ChatCompletionRequest_MaxTokens := v;
     ChatCompletionRequest_Temperature := ChatCompletionRequest_Temperature r;
     ChatCompletionRequest_TopP := ChatCompletionRequest_TopP r;
     ChatCompletionRequest_N := ChatCompletionRequest_N r;
     ChatCompletionRequest_Stop := ChatCompletionRequest_Stop r;
     ChatCompletionRequest_ResponseFormat := ChatCompletionRequest_ResponseFormat r;
     ChatCompletionRequest_Tools := ChatCompletionRequest_Tools r |}.

Definition set_Stop (v : list string) (r : ChatCompletionRequest) : ChatCompletionRequest :=
  {| ChatCompletionRequest_Model := ChatCompletionRequest_Model r;
     ChatCompletionRequest_Messages := ChatCompletionRequest_Messages r;
     ChatCompletionRequest_MaxTokens := ChatCompletionRequest_MaxTokens r;
     ChatCompletionRequest_Temperature := ChatCompletionRequest_Temperature r;
     ChatCompletionRequest_TopP := ChatCompletionRequest_TopP r;
     ChatCompletionRequest_N := ChatCompletionRequest_N r;
     ChatCompletionRequest_Stop := v;
     ChatCompletionRequest_ResponseFormat := ChatCompletionRequest_ResponseFormat r;
     ChatCompletionRequest_Tools := ChatCompletionRequest_Tools r |}.

Definition set_Temperature (v : Float.float32) (r : ChatCompletionRequest) : ChatCompletionRequest :=
  {| ChatCompletionRequest_Model := ChatCompletionRequest_Model r;
     ChatCompletionRequest_Messages := ChatCompletionRequest_Messages r;
     ChatCompletionRequest_MaxTokens := ChatCompletionRequest_MaxTokens r;
     ChatCompletionRequest_Temperature := v;
     ChatCompletionRequest_TopP := ChatCompletionRequest_TopP r;
     ChatCompletionRequest_N := ChatCompletionRequest_N r;
     ChatCompletionRequest_Stop := ChatCompletionRequest_Stop r;
     ChatCompletionRequest_ResponseFormat := ChatCompletionRequest_ResponseFormat r;
     ChatCompletionRequest_Tools := ChatCompletionRequest_Tools r |}.

Definition set_TopP (v : Float.float32) (r : ChatCompletionRequest) : ChatCompletionRequest :=
  {| ChatCompletionRequest_Model := ChatCompletionRequest_Model r;
     ChatCompletionRequest_Messages := ChatCompletionRequest_Messages r;
     ChatCompletionRequest_MaxTokens := ChatCompletionRequest_MaxTokens r;
     ChatCompletionRequest_Temperature := ChatCompletionRequest_Temperature r;
     ChatCompletionRequest_TopP := v;
     ChatCompletionRequest_N := ChatCompletionRequest_N r;
     ChatCompletionRequest_Stop := ChatCompletionRequest_Stop r;
     ChatCompletionRequest_ResponseFormat := ChatCompletionRequest_ResponseFormat r;
     ChatCompletionRequest_Tools := ChatCompletionRequest_Tools r |}.

Definition set_ResponseFormat (v : option ChatCompletionResponseFormat)
    (r : ChatCompletionRequest) : ChatCompletionRequest :=
  {| ChatCompletionRequest_Model := ChatCompletionRequest_Model r;
     ChatCompletionRequest_Messages := ChatCompletionRequest_Messages r;
     ChatCompletionRequest_MaxTokens := ChatCompletionRequest_MaxTokens r;
     ChatCompletionRequest_Temperature := ChatCompletionRequest_Temperature r;
     ChatCompletionRequest_TopP := ChatCompletionRequest_TopP r;
     ChatCompletionRequest_N := ChatCompletionRequest_N r;
     ChatCompletionRequest_Stop := ChatCompletionRequest_Stop r;
     ChatCompletionRequest_ResponseFormat := v;
     ChatCompletionRequest_Tools := ChatCompletionRequest_Tools r |}.

(** The block that runs when the dynamic type of [input.Config] is a
    pointer to [ai.GenerationCommonConfig] and the pointer is not nil. *)
Definition applyConfig (config : ai.Config) (r : ChatCompletionRequest)
  : ChatCompletionRequest :=
  match config with
  | ai.ConfigCommon (Some c) =>
      let r := if negb (ai.MaxOutputTokens c =? 0)
               then set_MaxTokens (ai.MaxOutputTokens c) r else r in
      let r := if (0 <? length (ai.StopSequences c))%nat
               then set_Stop (ai.StopSequences c) r else r in
      let r := if Float.nonzero (ai.Temperature c)
               then set_Temperature (Float.to_float32 (ai.Temperature c)) r else r in
      let r := if Float.nonzero (ai.TopP c)
               then set_TopP (Float.to_float32 (ai.TopP c)) r else r in
      r
  | _ => r
  end.

(** The block that runs when [input.Output] is not nil, its [Format] is
    not the empty string and [modelsSupportingResponseFormats] contains
    the model; its [switch] decides between the two formats and the
    error. *)
Definition applyOutput (model : string) (output : option GenerateRequestOutput)
    (r : ChatCompletionRequest) : outcome ChatCompletionRequest :=
  match output with
  | Some out =>
      if negb (String.eqb (Output_Format out) EmptyString)
         && slices_Contains modelsSupportingResponseFormats model
      then
        if String.eqb (Output_Format out) ai.OutputFormatJSON then
          Ok (set_ResponseFormat
                (Some {| ResponseFormat_Type :=
                           goopenai.ChatCompletionResponseFormatTypeJSONObject;
                         ResponseFormat_JSONSchema :=
                           Some {| JSONSchema_Name := EmptyString;
                                   JSONSchema_Description := EmptyString;
                                   JSONSchema_Schema :=
                                     Some {| MapJSONMarshaller_Data := Output_Schema out |};
                                   JSONSchema_Strict := true |} |}) r)
        else if String.eqb (Output_Format out) ai.OutputFormatText then
          Ok (set_ResponseFormat
                (Some {| ResponseFormat_Type :=
                           goopenai.ChatCompletionResponseFormatTypeText;
                         ResponseFormat_JSONSchema := None |}) r)
        else Err ErrUnknownPartType
      else Ok r
  | None => Ok r
  end.

(** The same block in the revision of [convertRequest] that lives in a
    file of its own: the JSON case sets the [Type] only. *)
Definition applyOutput_typeOnly (model : string) (output : option GenerateRequestOutput)
    (r : ChatCompletionRequest) : outcome ChatCompletionRequest :=
  match output with
  | Some out =>
      if negb (String.eqb (Output_Format out) EmptyString)
         && slices_Contains modelsSupportingResponseFormats model
      then
        if String.eqb (Output_Format out) ai.OutputFormatJSON then
          Ok (set_ResponseFormat
                (Some {| ResponseFormat_Type :=
                           goopenai.ChatCompletionResponseFormatTypeJSONObject;
                         ResponseFormat_JSONSchema := None |}) r)
        else if String.eqb (Output_Format out) ai.OutputFormatText then
          Ok (set_ResponseFormat
                (Some {| ResponseFormat_Type :=
                           goopenai.ChatCompletionResponseFormatTypeText;
                         ResponseFormat_JSONSchema := None |}) r)
        else Err ErrUnknownPartType
      else Ok r
  | None => Ok r
  end.

(** The composite literal that [convertRequest] starts from: four
    fields are given, the others have their zero value. *)
Definition baseRequest (model : string) (input : GenerateRequest)
    (messages : list ChatCompletionMessage) (tools : list Tool)
  : ChatCompletionRequest :=
  {| ChatCompletionRequest_Model := model;
     ChatCompletionRequest_Messages := messages;
     ChatCompletionRequest_MaxTokens := 0;
     ChatCompletionRequest_Temperature := Float.zero;
     ChatCompletionRequest_TopP := Float.zero;
     ChatCompletionRequest_N := Request_Candidates input;
     ChatCompletionRequest_Stop := [];
     ChatCompletionRequest_ResponseFormat := None;
     ChatCompletionRequest_Tools := tools |}.

Definition convertRequest (model : string) (input : GenerateRequest)
  : outcome ChatCompletionRequest :=
  messages ← convertMessages (Request_Messages input);
  tools ← convertTools (Request_Tools input);
  let chatCompletionRequest := baseRequest model input messages tools in
  applyOutput model (Request_Output input)
    (applyConfig (Request_Config input) chatCompletionRequest).

(** [convertRequest] of the revision that sets the [Type] only. *)
Definition convertRequest_typeOnly (model : string) (input : GenerateRequest)
  : outcome ChatCompletionRequest :=
  messages ← convertMessages (Request_Messages input);
  tools ← convertTools (Request_Tools input);
  let chatCompletionRequest := baseRequest model input messages tools in
  applyOutput_typeOnly model (Request_Output input)
    (applyConfig (Request_Config input) chatCompletionRequest).

(** *** Response translation *)

(** The [switch choice.FinishReason] of [translateCandidate]. *)
Definition translateFinishReason (finishReason : string) : ai.FinishReason :=
  if String.eqb finishReason goopenai.FinishReasonStop
     || String.eqb finishReason goopenai.FinishReasonToolCalls then ai.FinishReasonStop
  else if String.eqb finishReason goopenai.FinishReasonLength then ai.FinishReasonLength
  else if String.eqb finishReason goopenai.FinishReasonContentFilter then ai.FinishReasonBlocked
  else if String.eqb finishReason goopenai.FinishReasonFunctionCall then ai.FinishReasonOther
  else if String.eqb finishReason goopenai.FinishReasonNull then ai.FinishReasonUnknown
  else ai.FinishReasonUnknown.

(** One iteration of the tool-call loop of [translateCandidate]. *)
Definition toolRequestPartOfCall (toolCall : ToolCall) : outcome Part :=
  input ← jsonStringToMap (FunctionCall_Arguments (ToolCall_Function toolCall));
  Ok (ToolRequestPart
        {| ToolRequest_Name := FunctionCall_Name (ToolCall_Function toolCall);
           ToolRequest_Input := input |}).

Definition translateCandidate (choice : ChatCompletionChoice) (jsonMode : bool)
  : outcome Candidate :=
  let finishReason := translateFinishReason (Choice_FinishReason choice) in
  toolRequestParts ←
    eachM toolRequestPartOfCall
      (ChatCompletionMessage_ToolCalls (Choice_Message choice));
  if (0 <? length toolRequestParts)%nat then
    Ok {| Candidate_Index := Choice_Index choice;
          Candidate_FinishReason := finishReason;
          Candidate_Message :=
            {| Message_Role := ai.RoleModel;
               Message_Content := toolRequestParts |} |}
  else
    let content :=
      if jsonMode
      then [ DataPart (ChatCompletionMessage_Content (Choice_Message choice)) ]
      else [ TextPart (ChatCompletionMessage_Content (Choice_Message choice)) ] in
    Ok {| Candidate_Index := Choice_Index choice;
          Candidate_FinishReason := finishReason;
          Candidate_Message :=
            {| Message_Role := ai.RoleModel; Message_Content := content |} |}.

Definition translateResponse (resp : ChatCompletionResponse) (jsonMode : bool)
  : outcome GenerateResponse :=
  candidates ←
    eachM (fun c => translateCandidate c jsonMode) (ChatCompletionResponse_Choices resp);
  Ok {| Response_Candidates := candidates;
        Response_Usage :=
          {| ai.InputTokens := Usage_PromptTokens (ChatCompletionResponse_Usage resp);
             ai.OutputTokens := Usage_CompletionTokens (ChatCompletionResponse_Usage resp);
             ai.TotalTokens := Usage_TotalTokens (ChatCompletionResponse_Usage resp) |};
        Response_Request := None;
        Response_Custom := resp |}.

Definition set_Request (input : GenerateRequest) (r : GenerateResponse)
  : GenerateResponse :=
  {| Response_Candidates := Response_Candidates r;
     Response_Usage := Response_Usage r;
     Response_Request := Some input;
     Response_Custom := Response_Custom r |}.

End Translators.

(** ** The generation entry point

    [generate] talks to two things outside the plugin: the vendor
    transport and the chunk callback it is given. A [Prog] is the tree of
    these interactions: what is called, with which arguments, and how the
    function goes on with each possible answer. *)

(** [context_Context] is [context.Context]; [Callback] is the type of the
    function values that can be passed as the chunk callback, nil
    included. *)
Class Runtime : Type := {
  context_Context : Type;
  Callback : Type
}.

Section Generation.

Context {codec : JSONCodec} {rt : Runtime}.

Record Client : Type := { Client_authToken : string }.

Definition NewClient (authToken : string) : Client :=
  {| Client_authToken := authToken |}.

Record GenerateResponseChunk : Type := {
  Chunk_Index : Z;
  Chunk_Content : list Part
}.

Inductive Prog (A : Type) : Type :=
| Return (a : A)
| CreateChatCompletion (client : option Client) (ctx : context_Context)
    (req : ChatCompletionRequest)
    (k : outcome ChatCompletionResponse -> Prog A)
| InvokeCallback (cb : Callback) (ctx : context_Context) (chunk : GenerateResponseChunk)
    (k : option error -> Prog A).

Arguments Return {A} a.
Arguments CreateChatCompletion {A} client ctx req k.
Arguments InvokeCallback {A} cb ctx chunk k.

Definition jsonModeOf (input : GenerateRequest) : bool :=
  match Request_Output input with
  | Some out => String.eqb (Output_Format out) ai.OutputFormatJSON
  | None => false
  end.

Definition generate (ctx : context_Context) (client : option Client) (model : string)
    (input : GenerateRequest) (cb : Callback) : Prog (outcome GenerateResponse) :=
  match convertRequest model input with
  | Ok req =>
      CreateChatCompletion client ctx req (fun answer =>
        match answer with
        | Ok resp =>
            let jsonMode := jsonModeOf input in
            Return (r ← translateResponse resp jsonMode;
                    Ok (set_Request input r))
        | Err err => Return (Err err)
        | Panic p => Return (Panic p)
        end)
  | Err err => Return (Err err)
  | Panic p => Return (Panic p)
  end.

(** Running a [Prog] in a world [W]: [vendor] answers the transport
    calls, [call] is what invoking a callback does, and the list records
    every chunk handed to a callback, most recent first. *)
Section Run.

Variable W : Type.
Variable vendor :
  option Client -> context_Context -> ChatCompletionRequest -> W ->
  outcome ChatCompletionResponse * W.
Variable call :
  Callback -> context_Context -> GenerateResponseChunk -> W -> option error * W.

Fixpoint run {A : Type} (p : Prog A) (w : W)
    (delivered : list (Callback * GenerateResponseChunk))
  : A * W * list (Callback * GenerateResponseChunk) :=
  match p with
  | Return a => (a, w, delivered)
  | CreateChatCompletion client ctx req k =>
      let '(answer, w') := vendor client ctx req w in
      run (k answer) w' delivered
  | InvokeCallback cb ctx chunk k =>
      let '(err, w') := call cb ctx chunk w in
      run (k err) w' ((cb, chunk) :: delivered)
  end.

End Run.

(** No path through the program reaches a callback invocation. *)
Inductive CallbackFree {A : Type} : Prog A -> Prop :=
| CallbackFree_Return (a : A) : CallbackFree (Return a)
| CallbackFree_Create client ctx req k :
    (forall answer, CallbackFree (k answer)) ->
    CallbackFree (CreateChatCompletion client ctx req k).

(** [var state struct { mu; initted; client }] *)
Record PluginState : Type := {
  state_initted : bool;
  state_client : option Client
}.

Record ModelMetadata : Type := {
  ModelMetadata_Label : string;
  ModelMetadata_Supports : ai.ModelCapabilities
}.

(** The function value registered for a model; it reads [state.client]
    when it is called. *)
Definition ModelFn : Type :=
  PluginState -> context_Context -> GenerateRequest -> Callback ->
  Prog (outcome GenerateResponse).

End Generation.

Arguments Return {_ _ A} a.
Arguments CreateChatCompletion {_ _ A} client ctx req k.
Arguments InvokeCallback {_ _ A} cb ctx chunk k.

(** ** The registry *)

(** What a call of a Go function without an [error] result can do: return,
    or panic. *)
Inductive returned (A : Type) : Type :=
| Returned (a : A)
| Panicked (p : panic).

Arguments Returned {A} a.
Arguments Panicked {A} p.

Definition outcomeOf {A : Type} (r : returned A) : outcome A :=
  match r with
  | Returned a => Ok a
  | Panicked p => Panic p
  end.

(** The host framework: [Host] is the state of its registry, [ai_Model]
    its model handle, and the three functions are [ai.DefineModel],
    [ai.IsDefinedModel] and [ai.LookupModel]. [ai.DefineModel] has no
    [error] result; what it does with a name (a name registered before, for
    one) is the host's business, so the embedding lets it return or
    panic. *)
Class HostFramework {codec : JSONCodec} {rt : Runtime} : Type := {
  Host : Type;
  ai_Model : Type;
  ai_DefineModel :
    string -> string -> ModelMetadata -> ModelFn -> Host -> returned ai_Model * Host;
  ai_IsDefinedModel : string -> string -> Host -> bool;
  ai_LookupModel : string -> string -> Host -> option ai_Model
}.

(** The two capability descriptors that [knownCaps] names; the package
    declares them outside the files embedded here. *)
Class CapabilityPresets : Type := {
  Multimodal : ai.ModelCapabilities;
  BasicText : ai.ModelCapabilities
}.

Section Registry.

Context {codec : JSONCodec} {rt : Runtime} {host : HostFramework}
        {presets : CapabilityPresets}.

Record Config : Type := { Config_APIKey : string }.

Definition knownCaps : gmap string ai.ModelCapabilities :=
  <[ goopenai.GPT4o := Multimodal ]>
    (<[ goopenai.GPT4oMini := Multimodal ]>
       (<[ goopenai.GPT4Turbo := Multimodal ]>
          (<[ goopenai.GPT4 := BasicText ]> ∅))).

(** The plugin's [state] (the mutex serialises [Init] and
    [DefineModel], which the embedding runs one at a time) together with
    the registry of the host. *)
Record World : Type := {
  world_state : PluginState;
  world_host : Host
}.

Definition defineModel (name : string) (caps : ai.ModelCapabilities) (h : Host)
  : returned ai_Model * Host :=
  let meta := {| ModelMetadata_Label := (labelPrefix ++ " - " ++ name)%string;
                 ModelMetadata_Supports := caps |} in
  ai_DefineModel provider name meta
    (fun st ctx input cb => generate ctx (state_client st) name input cb)
    h.

(** [for model, caps := range entries { defineModel(model, caps) }] *)
Fixpoint defineEach (entries : list (string * ai.ModelCapabilities)) (h : Host)
  : returned unit * Host :=
  match entries with
  | [] => (Returned tt, h)
  | (model, caps) :: rest =>
      match defineModel model caps h with
      | (Returned _, h') => defineEach rest h'
      | (Panicked p, h') => (Panicked p, h')
      end
  end.

(** The loop of [Init] over [knownCaps]; Go leaves the order of the
    iteration open, the embedding takes the order of [map_to_list]. *)
Definition defineKnownModels (h : Host) : returned unit * Host :=
  defineEach (map_to_list knownCaps) h.

Definition Init (getenv : string -> string) (ctx : context_Context) (cfg : option Config)
    (w : World) : outcome unit * World :=
  let cfg := match cfg with Some c => c | None => {| Config_APIKey := EmptyString |} end in
  if state_initted (world_state w) then
    (Panic (PanicInitTwice (provider ++ ".Init not called")%string), w)
  else
    let apiKey := Config_APIKey cfg in
    let apiKey := if String.eqb apiKey EmptyString then getenv apiKeyEnv else apiKey in
    if String.eqb apiKey EmptyString then
      (Err (ErrInit provider (ErrNoAPIKey apiKeyEnv)), w)
    else
      let client := NewClient apiKey in
      let st := {| state_initted := true; state_client := Some client |} in
      let '(r, h) := defineKnownModels (world_host w) in
      (outcomeOf r, {| world_state := st; world_host := h |}).

Definition DefineModel (name : string) (caps : option ai.ModelCapabilities)
    (w : World) : outcome ai_Model * World :=
  if negb (state_initted (world_state w)) then
    (Panic (PanicInitNotCalled (provider ++ ".Init not called")%string), w)
  else
    match caps with
    | None =>
        match knownCaps !! name with
        | Some mc =>
            let '(r, h) := defineModel name mc (world_host w) in
            (outcomeOf r, {| world_state := world_state w; world_host := h |})
        | None => (Err (ErrUnknownModelNoCaps provider name), w)
        end
    | Some mc =>
        let '(r, h) := defineModel name mc (world_host w) in
        (outcomeOf r, {| world_state := world_state w; world_host := h |})
    end.

Definition IsDefinedModel (name : string) (w : World) : bool :=
  ai_IsDefinedModel provider name (world_host w).

Definition Model (name : string) (w : World) : option ai_Model :=
  ai_LookupModel provider name (world_host w).

End Registry.

(** ** Notions used to state further properties *)

Section Notions.

Context {codec : JSONCodec}.

(** The vendor roles that one message contributes, in order: one per part
    for a tool message, one for any other message. *)
Definition expectedRoles (m : Message) : list string :=
  match fromAIRoleToOpenAIRole (Message_Role m) with
  | Ok role =>
      if String.eqb role goopenai.ChatMessageRoleTool
      then repeat role (length (Message_Content m))
      else [role]
  | _ => []
  end.

(** The guard and the [default] branch of the output block taken
    together: the model is listed and the format is none of the empty
    string, JSON and text. *)
Definition formatRefused (model : string) (output : option GenerateRequestOutput) : bool :=
  match output with
  | Some out =>
      negb (String.eqb (Output_Format out) EmptyString)
      && slices_Contains modelsSupportingResponseFormats model
      && negb (String.eqb (Output_Format out) ai.OutputFormatJSON)
      && negb (String.eqb (Output_Format out) ai.OutputFormatText)
  | None => false
  end.

(** A request with the schema taken out of its response format. *)
Definition withoutSchema (r : ChatCompletionRequest) : ChatCompletionRequest :=
  set_ResponseFormat
    (option_map (fun f => {| ResponseFormat_Type := ResponseFormat_Type f;
                             ResponseFormat_JSONSchema := None |})
                (ChatCompletionRequest_ResponseFormat r))
    r.

(** The tool requests among the parts of a message, in order. *)
Definition toolRequestsOf (parts : list Part) : list ToolRequest :=
  omap Part_ToolRequest parts.

End Notions.

(** A caller's use of the registry: calls of [Init] and [DefineModel] one
    after the other, each on the world the one before has left, whether
    that one returned or panicked. *)
Section Calls.

Context {codec : JSONCodec} {rt : Runtime} {host : HostFramework}
        {presets : CapabilityPresets}.

Inductive call : Type :=
| CallInit (getenv : string -> string) (ctx : context_Context) (cfg : option Config)
| CallDefineModel (name : string) (caps : option ai.ModelCapabilities).

Definition afterCall (w : World) (c : call) : World :=
  match c with
  | CallInit getenv ctx cfg => snd (Init getenv ctx cfg w)
  | CallDefineModel name caps => snd (DefineModel name caps w)
  end.

Definition afterCalls (w : World) (calls : list call) : World :=
  fold_left afterCall calls w.

End Calls.

(** ** The first revision of the translation

    The file that holds the plugin also holds its first revision, in which
    a message is translated part by part, whatever its role, and in which
    what cannot be translated is a panic. [Legacy] embeds its
    [convertPart], [convertParts] and [convertTools]. *)
Module Legacy.

(** The values this revision panics with. *)
Inductive panicValue : Type :=
| NotYetImplemented
    (* panic("not yet implemented") *)
| DataPartsUnsupported (prov : string)
    (* panic(fmt.Sprintf("%s does not support Data parts", provider)) *)
| UnknownPartType
    (* panic("unknown part type in a request") *)
| Runtime (p : panic).
    (* a panic of a helper or of the Go runtime *)

Inductive result (A : Type) : Type :=
| Value (a : A)
| Failure (e : error)
| Panics (p : panicValue).

Arguments Value {A} a.
Arguments Failure {A} e.
Arguments Panics {A} p.

#[global] Instance result_ret : MRet result := fun A a => Value a.

#[global] Instance result_bind : MBind result := fun A B k r =>
  match r with
  | Value a => k a
  | Failure e => Failure e
  | Panics p => Panics p
  end.

Definition ofOutcome {A : Type} (o : outcome A) : result A :=
  match o with
  | Ok a => Value a
  | Err e => Failure e
  | Panic p => Panics (Runtime p)
  end.

Fixpoint each {A B : Type} (f : A -> result B) (l : list A) : result (list B) :=
  match l with
  | [] => Value []
  | x :: rest =>
      y ← f x;
      ys ← each f rest;
      Value (y :: ys)
  end.

(** [Parameters] of a [goopenai.FunctionDefinition] has the type [any].
    This revision puts the encoded schema there as a Go [string], the
    later one as a [json.RawMessage]: two values of different dynamic
    types, also when they hold the same text. *)
Inductive parameters : Type :=
| GoString (s : string)
| RawMessage (raw : string).

(** [goopenai.FunctionDefinition] and [goopenai.Tool], with the dynamic
    type of [Parameters] kept. *)
Record StoredFunction : Type := {
  StoredFunction_Name : string;
  StoredFunction_Description : string;
  StoredFunction_Parameters : parameters
}.

Record StoredTool : Type := {
  StoredTool_Type : string;
  StoredTool_Function : option StoredFunction
}.



Section Translation.

Context {codec : JSONCodec}.

(** A vendor message with a role, a text and a name. *)
Definition namedMessage (role content name : string) : ChatCompletionMessage :=
  {| ChatCompletionMessage_Role := role;
     ChatCompletionMessage_Content := content;
     ChatCompletionMessage_MultiContent := [];
     ChatCompletionMessage_Name := name;
     ChatCompletionMessage_ToolCalls := [];
     ChatCompletionMessage_ToolCallID := EmptyString |}.

Definition convertPart (p : Part) : result ChatCompletionMessage :=
  if IsText p then
    Value (namedMessage goopenai.ChatMessageRoleUser (Part_Text p) EmptyString)
  else if IsMedia p then Panics NotYetImplemented
  else if IsData p then Panics (DataPartsUnsupported provider)
  else if IsToolResponse p then
    r ← ofOutcome (deref (Part_ToolResponse p));
    content ← ofOutcome (mapToJSONString (ToolResponse_Output r));
    Value (namedMessage goopenai.ChatMessageRoleAssistant content (ToolResponse_Name r))
  else if IsToolRequest p then
    r ← ofOutcome (deref (Part_ToolRequest p));
    content ← ofOutcome (mapToJSONString (ToolRequest_Input r));
    Value (namedMessage goopenai.ChatMessageRoleAssistant content (ToolRequest_Name r))
  else Panics UnknownPartType.

Definition convertParts (parts : list Part) : result (list ChatCompletionMessage) :=
  each convertPart parts.

(** The map of a tool part encodes; a part of another kind has no map. *)
Definition toolMapEncodes (p : Part) : Prop :=
  match p with
  | ToolRequestPart r => is_Some (json_Marshal (ToolRequest_Input r))
  | ToolResponsePart r => is_Some (json_Marshal (ToolResponse_Output r))
  | _ => True
  end.

Definition convertTool (t : ToolDefinition) : result StoredTool :=
  inputSchema ← ofOutcome (mapToJSONString (ToolDefinition_InputSchema t));
  let fd := {| StoredFunction_Name := ToolDefinition_Name t;
               StoredFunction_Description := ToolDefinition_Description t;
               StoredFunction_Parameters := GoString inputSchema |} in
  Value {| StoredTool_Type := goopenai.ToolTypeFunction;
           StoredTool_Function := Some fd |}.

Definition convertTools (inTools : list ToolDefinition) : result (list StoredTool) :=
  each convertTool inTools.

End Translation.

End Legacy.

(** ** A small instance, for running the definitions

    Maps are kept in their encoded form: a map is the text of a JSON
    object, encoding it returns the text, and decoding accepts the texts
    that start with an opening brace. The host keeps the registered models
    in a list. *)
Module Sample.

Definition looksLikeObject (s : string) : bool :=
  match s with
  | String c _ => Ascii.eqb c "{"%char
  | EmptyString => false
  end.

#[export] Instance textCodec : JSONCodec := {|
  anymap := string;
  json_Marshal := fun m => Some m;
  json_Unmarshal := fun s => if looksLikeObject s then Some s else None
|}.

#[export] Instance unitRuntime : Runtime := {|
  context_Context := unit;
  Callback := option nat
|}.

#[export] Instance listHost : HostFramework := {|
  Host := list (string * string * ModelMetadata);
  ai_Model := string * string;
  ai_DefineModel := fun prov name meta _ h =>
    (Returned (prov, name), (prov, name, meta) :: h);
  ai_IsDefinedModel := fun prov name h =>
    existsb (fun e => String.eqb (fst (fst e)) prov && String.eqb (snd (fst e)) name) h;
  ai_LookupModel := fun prov name h =>
    if existsb (fun e => String.eqb (fst (fst e)) prov && String.eqb (snd (fst e)) name) h
    then Some (prov, name) else None
|}.

#[export] Instance presets : CapabilityPresets := {|
  Multimodal := {| ai.Multiturn := true; ai.Tools := true;
                   ai.SystemRole := true; ai.Media := true |};
  BasicText := {| ai.Multiturn := true; ai.Tools := true;
                  ai.SystemRole := true; ai.Media := false |}
|}.

(** A host that refuses a name it has registered before. *)
Definition strictHost : HostFramework := {|
  Host := list (string * string * ModelMetadata);
  ai_Model := string * string;
  ai_DefineModel := fun prov name meta _ h =>
    if existsb (fun e => String.eqb (fst (fst e)) prov && String.eqb (snd (fst e)) name) h
    then (Panicked (PanicHost "already registered"), h)
    else (Returned (prov, name), (prov, name, meta) :: h);
  ai_IsDefinedModel := fun prov name h =>
    existsb (fun e => String.eqb (fst (fst e)) prov && String.eqb (snd (fst e)) name) h;
  ai_LookupModel := fun prov name h =>
    if existsb (fun e => String.eqb (fst (fst e)) prov && String.eqb (snd (fst e)) name) h
    then Some (prov, name) else None
|}.

Definition hello : Message :=
  {| Message_Role := ai.RoleUser; Message_Content := [TextPart "Hello"] |}.

Definition helpful : Message :=
  {| Message_Role := ai.RoleSystem; Message_Content := [TextPart "You are helpful."] |}.

Definition emptyObject : anymap := "{}".

(** [Temperature: 1, TopP: 0.5, MaxOutputTokens: 256, StopSequences: {"END"}] *)
Definition fullConfig : ai.GenerationCommonConfig :=
  {| ai.MaxOutputTokens := 256;
     ai.StopSequences := ["END"];
     ai.Temperature := Float.lit 1 0;
     ai.TopK := 0;
     ai.TopP := Float.lit 1 (-1);
     ai.Version := EmptyString |}.

(** [Temperature: 0.1]: [float64] holds 0.1 as 3602879701896397 / 2^55. *)
Definition tenthConfig : ai.GenerationCommonConfig :=
  {| ai.MaxOutputTokens := 0;
     ai.StopSequences := [];
     ai.Temperature := Float.lit 3602879701896397 (-55);
     ai.TopK := 0;
     ai.TopP := Float.zero;
     ai.Version := EmptyString |}.

(** [Temperature: 0x1p-200], a positive [float64] below the range of
    [float32]. *)
Definition tinyConfig : ai.GenerationCommonConfig :=
  {| ai.MaxOutputTokens := 0;
     ai.StopSequences := [];
     ai.Temperature := Float.lit 1 (-200);
     ai.TopK := 0;
     ai.TopP := Float.zero;
     ai.Version := EmptyString |}.

Definition requestWith (config : ai.Config) (output : option GenerateRequestOutput)
  : GenerateRequest :=
  {| Request_Candidates := 1;
     Request_Config := config;
     Request_Messages := [helpful; hello];
     Request_Output := output;
     Request_Tools := [] |}.

Definition outputValue (format : string) : GenerateRequestOutput :=
  {| Output_Format := format; Output_Schema := emptyObject |}.

Definition outputOf (format : string) : option GenerateRequestOutput :=
  Some (outputValue format).

Definition lookupCall (arguments : string) : ToolCall :=
  {| ToolCall_ID := "call_1";
     ToolCall_Type := goopenai.ToolTypeFunction;
     ToolCall_Function :=
       {| FunctionCall_Name := "lookup"; FunctionCall_Arguments := arguments |} |}.

Definition choiceWith (content : string) (toolCalls : list ToolCall)
    (finishReason : string) : ChatCompletionChoice :=
  {| Choice_Index := 0;
     Choice_Message :=
       {| ChatCompletionMessage_Role := goopenai.ChatMessageRoleAssistant;
          ChatCompletionMessage_Content := content;
          ChatCompletionMessage_MultiContent := [];
          ChatCompletionMessage_Name := EmptyString;
          ChatCompletionMessage_ToolCalls := toolCalls;
          ChatCompletionMessage_ToolCallID := EmptyString |};
     Choice_FinishReason := finishReason |}.

Definition freshWorld : World :=
  {| world_state := {| state_initted := false; state_client := None |};
     world_host := [] |}.

Definition freshStrictWorld : World (host := strictHost) :=
  Build_World (host := strictHost)
    {| state_initted := false; state_client := None |} [].

Definition noEnvironment : string -> string := fun _ => EmptyString.

(** [context.Background()] *)
Definition background : context_Context := tt.

Definition keyConfig : option Config := Some {| Config_APIKey := "sk-test" |}.

(** A vendor that answers every request with one choice. *)
Definition echoVendor (client : option Client) (ctx : unit)
    (req : ChatCompletionRequest) (calls : nat)
  : outcome ChatCompletionResponse * nat :=
  (Ok {| ChatCompletionResponse_Choices := [choiceWith "France" [] goopenai.FinishReasonStop];
         ChatCompletionResponse_Usage :=
           {| Usage_PromptTokens := 10; Usage_CompletionTokens := 1;
              Usage_TotalTokens := 11 |} |},
   S calls).

(** A callback that refuses every chunk. *)
Definition refusingCallback (cb : option nat) (ctx : unit)
    (chunk : GenerateResponseChunk) (calls : nat) : option error * nat :=
  (Some (ErrVendor "chunk refused"), calls).

(** Further inputs. *)

Definition photo : Message :=
  {| Message_Role := ai.RoleUser;
     Message_Content := [TextPart "Look"; MediaPart "image/png" "https://example.com/cat.png"] |}.

Definition dataFromUser : Message :=
  {| Message_Role := ai.RoleUser; Message_Content := [TextPart "Look"; DataPart "{}"] |}.

Definition lookupRequest : ToolRequest :=
  {| ToolRequest_Name := "lookup"; ToolRequest_Input := emptyObject |}.

Definition lookupResponse : ToolResponse :=
  {| ToolResponse_Name := "lookup"; ToolResponse_Output := emptyObject |}.

Definition askLookup : Message :=
  {| Message_Role := ai.RoleModel;
     Message_Content := [TextPart "Let me look."; ToolRequestPart lookupRequest] |}.

Definition answerLookup : Message :=
  {| Message_Role := ai.RoleTool;
     Message_Content := [ToolResponsePart lookupResponse; ToolResponsePart lookupResponse] |}.

Definition lookupTool : ToolDefinition :=
  {| ToolDefinition_Name := "lookup";
     ToolDefinition_Description := "looks a value up";
     ToolDefinition_InputSchema := emptyObject;
     ToolDefinition_OutputSchema := emptyObject |}.

Definition requestOf (messages : list Message) (output : option GenerateRequestOutput)
  : GenerateRequest :=
  {| Request_Candidates := 2;
     Request_Config := ai.ConfigNil;
     Request_Messages := messages;
     Request_Output := output;
     Request_Tools := [lookupTool] |}.

(** [Temperature: NaN, TopP: -0] *)
Definition oddConfig : ai.GenerationCommonConfig :=
  {| ai.MaxOutputTokens := 0;
     ai.StopSequences := [];
     ai.Temperature := S754_nan;
     ai.TopK := 0;
     ai.TopP := S754_zero true;
     ai.Version := EmptyString |}.

Definition franceResponse : ChatCompletionResponse :=
  {| ChatCompletionResponse_Choices :=
       [choiceWith "France" [] goopenai.FinishReasonStop;
        choiceWith "Gaul" [] goopenai.FinishReasonLength];
     ChatCompletionResponse_Usage :=
       {| Usage_PromptTokens := 10; Usage_CompletionTokens := 2;
          Usage_TotalTokens := 12 |} |}.

Definition brokenResponse : ChatCompletionResponse :=
  {| ChatCompletionResponse_Choices :=
       [choiceWith "France" [] goopenai.FinishReasonStop;
        choiceWith "ignored" [lookupCall "oops"] goopenai.FinishReasonToolCalls];
     ChatCompletionResponse_Usage :=
       {| Usage_PromptTokens := 10; Usage_CompletionTokens := 2;
          Usage_TotalTokens := 12 |} |}.

(** A vendor that answers every request with [franceResponse], and one
    that answers every request with an error; both count their calls. *)
Definition franceVendor (client : option Client) (ctx : context_Context)
    (req : ChatCompletionRequest) (calls : nat)
  : outcome ChatCompletionResponse * nat :=
  (Ok franceResponse, S calls).

Definition failingVendor (client : option Client) (ctx : context_Context)
    (req : ChatCompletionRequest) (calls : nat)
  : outcome ChatCompletionResponse * nat :=
  (Err (ErrVendor "status code: 429"), S calls).

Definition someCallback : Callback := Some 7%nat.

Definition someClient : option Client := Some (NewClient "sk-test").

(** A codec like [textCodec] that also refuses to encode what is no
    object. *)
Definition pickyCodec : JSONCodec := {|
  anymap := string;
  json_Marshal := fun m => if looksLikeObject m then Some m else None;
  json_Unmarshal := fun s => if looksLikeObject s then Some s else None
|}.

Definition unencodableTool : ToolDefinition (codec := pickyCodec) :=
  @Build_ToolDefinition pickyCodec "lookup" "looks a value up" "oops" "{}".

Definition unencodableRequest : ToolRequest (codec := pickyCodec) :=
  @Build_ToolRequest pickyCodec "lookup" "oops".

Definition someCalls : list call :=
  [ CallDefineModel "gpt-5" None;
    CallInit noEnvironment background None;
    CallDefineModel "gpt-5" (Some BasicText);
    CallInit (fun _ => "sk-other") background None;
    CallDefineModel goopenai.GPT4 None ].

End Sample.

(** * Properties *)

(** [listed H] closes a goal whose hypothesis [H] says that a value is not
    in a list in which it occurs. *)
Ltac listed H := exfalso; apply H; simpl; auto 10.

(** ** Narrowing a [float64] to [float32] *)

(** Appending [k] zero bits to a mantissa adds [k] to its number of
    digits, and is what a shift to the left by [k] does. *)
Lemma digits2_pos_iter_xO (m k : positive) :
  digits2_pos (Pos.iter xO m k) = (digits2_pos m + k)%positive.
Proof.
  revert m. induction k using Pos.peano_ind; intros m.
  - simpl. lia.
  - rewrite Pos.iter_succ. simpl. rewrite IHk. lia.
Qed.

Lemma shiftl_pos (m k : positive) :
  Z.shiftl (Zpos m) (Zpos k) = Zpos (Pos.iter xO m k).
Proof.
  unfold Z.shiftl. induction k using Pos.peano_ind.
  - reflexivity.
  - rewrite !Pos.iter_succ. rewrite IHk. reflexivity.
Qed.

(** Shifting such a mantissa back to the right loses nothing: the round
    and sticky bits stay clear. *)
Lemma iter_pos_iter {A : Type} (f : A -> A) (p : positive) (x : A) :
  SpecFloat.iter_pos f p x = Pos.iter f x p.
Proof.
  revert x. induction p as [p IH|p IH|]; intros x; simpl.
  - rewrite !IH. rewrite <- !Pos.iter_swap. reflexivity.
  - rewrite !IH. reflexivity.
  - reflexivity.
Qed.

Lemma shr_exact (m k : positive) :
  SpecFloat.iter_pos shr_1 k {| shr_m := Zpos (Pos.iter xO m k); shr_r := false; shr_s := false |}
  = {| shr_m := Zpos m; shr_r := false; shr_s := false |}.
Proof.
  rewrite iter_pos_iter. induction k using Pos.peano_ind.
  - reflexivity.
  - rewrite !Pos.iter_succ, <- Pos.iter_swap.
    change (shr_1 {| shr_m := Zpos (Pos.iter xO m k)~0; shr_r := false; shr_s := false |})
      with {| shr_m := Zpos (Pos.iter xO m k); shr_r := false; shr_s := false |}.
    exact IHk.
Qed.

(** Rounding a number that the target format holds exactly gives that
    number, in the target format's own mantissa and exponent. *)
Section Rounding.

Variables prec emax : Z.

Lemma shr_fexp_canonical (m : positive) (e : Z) :
  fexp prec emax (Zpos (digits2_pos m) + e) = e ->
  shr_fexp prec emax (Zpos m) e loc_Exact
  = ({| shr_m := Zpos m; shr_r := false; shr_s := false |}, e).
Proof.
  intros Hc. unfold shr_fexp. cbn [Zdigits2 shr_record_of_loc].
  rewrite Hc, Z.sub_diag. reflexivity.
Qed.

Lemma shr_fexp_exact (m : positive) (e e' : Z) (k : positive) :
  fexp prec emax (Zpos (digits2_pos m) + e') = e' ->
  e' - e = Zpos k ->
  shr_fexp prec emax (Zpos (Pos.iter xO m k)) e loc_Exact
  = ({| shr_m := Zpos m; shr_r := false; shr_s := false |}, e').
Proof.
  intros Hc Hk. unfold shr_fexp. cbn [Zdigits2 shr_record_of_loc].
  rewrite digits2_pos_iter_xO.
  replace (Zpos (digits2_pos m + k) + e) with (Zpos (digits2_pos m) + e') by lia.
  rewrite Hc, Hk. unfold shr. rewrite shr_exact. f_equal. lia.
Qed.

Lemma binary_round_aux_canonical (s : bool) (m : positive) (e : Z) :
  bounded prec emax m e = true ->
  binary_round_aux prec emax s (Zpos m) e loc_Exact = S754_finite s m e.
Proof.
  unfold bounded, canonical_mantissa. intros Hb.
  apply andb_prop in Hb. destruct Hb as [Hc He].
  apply Z.eqb_eq in Hc.
  unfold binary_round_aux. rewrite (shr_fexp_canonical m e Hc).
  cbn [shr_m loc_of_shr_record round_nearest_even].
  rewrite (shr_fexp_canonical m e Hc). cbn [shr_m]. rewrite He. reflexivity.
Qed.

Lemma binary_round_exact (s : bool) (m m' : positive) (e e' : Z) :
  bounded prec emax m' e' = true ->
  Z.shiftl (Zpos m) (e - Z.min e e') = Z.shiftl (Zpos m') (e' - Z.min e e') ->
  binary_round prec emax s m e = S754_finite s m' e'.
Proof.
  intros Hb Hv.
  pose proof Hb as Hb'. unfold bounded, canonical_mantissa in Hb'.
  apply andb_prop in Hb'. destruct Hb' as [Hc He]. apply Z.eqb_eq in Hc.
  unfold binary_round.
  destruct (Z.compare_spec e e') as [Heq|Hlt|Hgt].
  - subst e'. rewrite Z.min_id, Z.sub_diag in Hv. simpl in Hv.
    injection Hv as ->. unfold shl_align. rewrite Hc, Z.sub_diag.
    apply binary_round_aux_canonical. exact Hb.
  - rewrite Z.min_l in Hv by lia. rewrite Z.sub_diag in Hv.
    destruct (e' - e) as [|k|k] eqn:Hk; try lia.
    rewrite shiftl_pos in Hv. simpl in Hv. injection Hv as ->.
    assert (Zpos (digits2_pos (Pos.iter xO m' k)) + e = Zpos (digits2_pos m') + e') as Hd.
    { rewrite digits2_pos_iter_xO. lia. }
    unfold shl_align. rewrite Hd, Hc, Hk.
    unfold binary_round_aux. rewrite (shr_fexp_exact m' e e' k Hc Hk).
    cbn [shr_m loc_of_shr_record round_nearest_even].
    rewrite (shr_fexp_canonical m' e' Hc). cbn [shr_m]. rewrite He. reflexivity.
  - rewrite Z.min_r in Hv by lia. rewrite Z.sub_diag in Hv.
    destruct (e - e') as [|k|k] eqn:Hk; try lia.
    rewrite shiftl_pos in Hv. simpl in Hv. injection Hv as <-.
    assert (Zpos (digits2_pos m) + e = Zpos (digits2_pos (Pos.iter xO m k)) + e') as Hd.
    { rewrite digits2_pos_iter_xO. lia. }
    unfold shl_align. rewrite Hd, Hc.
    replace (e' - e) with (Zneg k) by lia.
    apply binary_round_aux_canonical. exact Hb.
Qed.

End Rounding.

(** [float32(x)] has the value of [x] whenever some [float32] has it. *)
Lemma to_float32_exact (x : Float.float64) (y : Float.float32) :
  Float.valid32 y = true ->
  Float.same_value x y = true ->
  Float.same_value (Float.to_float32 x) x = true.
Proof.
  destruct x as [sx|sx| |sx mx ex], y as [sy|sy| |sy my ey]; simpl; try discriminate;
    try reflexivity; intros Hvalid Hsame.
  - destruct sx; reflexivity.
  - apply andb_prop in Hsame. destruct Hsame as [Hs Hv].
    apply Z.eqb_eq in Hv.
    rewrite (binary_round_exact Float.prec32 Float.emax32 sx mx my ex ey Hvalid Hv).
    simpl. rewrite eqb_reflx. simpl. apply Z.eqb_eq. rewrite Z.min_comm. symmetry. exact Hv.
Qed.

(** ** Loops over slices *)
Section Loops.

Context {A B : Type} (f : A -> outcome B).

Lemma eachM_Ok_iff (l : list A) (ys : list B) :
  eachM f l = Ok ys <-> Forall2 (fun x y => f x = Ok y) l ys.
Proof.
  revert ys; induction l as [|x l IH]; intros ys; simpl.
  - split.
    + intros [= <-]. constructor.
    + intros Hf. inversion Hf. reflexivity.
  - split.
    + destruct (f x) as [y| |] eqn:Hx; simpl; try discriminate.
      destruct (eachM f l) as [ys'| |] eqn:Hl; simpl; try discriminate.
      intros [= <-]. constructor; [exact Hx | apply IH; reflexivity].
    + intros Hf. inversion Hf as [|x' y l' ys' Hx Hl]; subst.
      rewrite Hx. simpl. apply IH in Hl. rewrite Hl. reflexivity.
Qed.

Lemma eachM_Ok_length (l : list A) (ys : list B) :
  eachM f l = Ok ys -> length ys = length l.
Proof.
  intros Hl. apply eachM_Ok_iff in Hl.
  induction Hl; simpl; congruence.
Qed.

Lemma eachM_Ok_In (l : list A) (ys : list B) :
  eachM f l = Ok ys -> forall x, In x l -> exists y, f x = Ok y.
Proof.
  revert ys; induction l as [|a l IH]; intros ys; simpl; [tauto|].
  destruct (f a) as [b| |] eqn:Ha; simpl; try discriminate.
  destruct (eachM f l) as [ys'| |]; simpl; try discriminate.
  intros _ x [<-|Hin]; [eauto | exact (IH ys' eq_refl x Hin)].
Qed.

Lemma eachM_Panic (l : list A) (p : panic) :
  eachM f l = Panic p -> exists x, In x l /\ f x = Panic p.
Proof.
  induction l as [|x l IH]; simpl; [discriminate|].
  destruct (f x) as [y| |q] eqn:Hx; simpl; try discriminate.
  - destruct (eachM f l) as [ys| |q] eqn:Hl; simpl; try discriminate.
    intros [= ->]. destruct (IH eq_refl) as (x' & Hin & Hx').
    exists x'. auto.
  - intros [= ->]. exists x. auto.
Qed.

Lemma eachM_Err (l : list A) (e : error) :
  eachM f l = Err e -> exists x, In x l /\ f x = Err e.
Proof.
  induction l as [|x l IH]; simpl; [discriminate|].
  destruct (f x) as [y|e'|] eqn:Hx; simpl; try discriminate.
  - destruct (eachM f l) as [ys|e'|] eqn:Hl; simpl; try discriminate.
    intros [= ->]. destruct (IH eq_refl) as (x' & Hin & Hx').
    exists x'. auto.
  - intros [= ->]. exists x. auto.
Qed.

Lemma eachM_returns (l : list A) :
  (forall x, In x l -> exists y, f x = Ok y) -> exists ys, eachM f l = Ok ys.
Proof.
  induction l as [|x l IH]; simpl; intros Hall.
  - eauto.
  - destruct (Hall x) as [y Hy]; [auto|].
    destruct IH as [ys Hys]; [auto|].
    exists (y :: ys). rewrite Hy. simpl. rewrite Hys. reflexivity.
Qed.

End Loops.

(** ** The role tables and the response translator *)
Section ResponseSide.

Context {codec : JSONCodec}.

Lemma fromAIRoleToOpenAIRole_defined (r : ai.Role) (v : string) :
  fromAIRoleToOpenAIRole r = Ok v ->
  In r [ai.RoleUser; ai.RoleSystem; ai.RoleModel; ai.RoleTool].
Proof.
  unfold fromAIRoleToOpenAIRole.
  destruct (String.eqb_spec r ai.RoleUser); [simpl; auto|].
  destruct (String.eqb_spec r ai.RoleSystem); [simpl; auto|].
  destruct (String.eqb_spec r ai.RoleModel); [simpl; auto|].
  destruct (String.eqb_spec r ai.RoleTool); [simpl; auto|].
  discriminate.
Qed.

(** C6. The four roles [User], [System], [Model] and [Tool] are mapped
    to a vendor role that [toOpenAIRole] maps back to the role one
    started from; on every other role [fromAIRoleToOpenAIRole] panics
    with the "unknown role" value that names the role. *)
Theorem role_mapping_round_trip :
  (forall r : ai.Role,
      In r [ai.RoleUser; ai.RoleSystem; ai.RoleModel; ai.RoleTool] ->
      exists v, fromAIRoleToOpenAIRole r = Ok v /\ toOpenAIRole v = Ok r) /\
  (forall r : ai.Role,
      ~ In r [ai.RoleUser; ai.RoleSystem; ai.RoleModel; ai.RoleTool] ->
      fromAIRoleToOpenAIRole r = Panic (PanicUnknownAIRole r)).
Proof.
  split.
  - intros r Hr. simpl in Hr.
    destruct Hr as [<-|[<-|[<-|[<-|[]]]]]; eexists; split; reflexivity.
  - intros r Hr. unfold fromAIRoleToOpenAIRole.
    destruct (String.eqb_spec r ai.RoleUser) as [->|_]; [listed Hr|].
    destruct (String.eqb_spec r ai.RoleSystem) as [->|_]; [listed Hr|].
    destruct (String.eqb_spec r ai.RoleModel) as [->|_]; [listed Hr|].
    destruct (String.eqb_spec r ai.RoleTool) as [->|_]; [listed Hr|].
    reflexivity.
Qed.

Lemma translateFinishReason_table (fr : string) :
  ((fr = goopenai.FinishReasonStop \/ fr = goopenai.FinishReasonToolCalls) ->
     translateFinishReason fr = ai.FinishReasonStop) /\
  (fr = goopenai.FinishReasonLength ->
     translateFinishReason fr = ai.FinishReasonLength) /\
  (fr = goopenai.FinishReasonContentFilter ->
     translateFinishReason fr = ai.FinishReasonBlocked) /\
  (fr = goopenai.FinishReasonFunctionCall ->
     translateFinishReason fr = ai.FinishReasonOther) /\
  (fr = goopenai.FinishReasonNull ->
     translateFinishReason fr = ai.FinishReasonUnknown) /\
  (~ In fr [goopenai.FinishReasonStop; goopenai.FinishReasonToolCalls;
            goopenai.FinishReasonLength; goopenai.FinishReasonContentFilter;
            goopenai.FinishReasonFunctionCall; goopenai.FinishReasonNull] ->
     translateFinishReason fr = ai.FinishReasonUnknown).
Proof.
  repeat split.
  - intros [->| ->]; reflexivity.
  - intros ->; reflexivity.
  - intros ->; reflexivity.
  - intros ->; reflexivity.
  - intros ->; reflexivity.
  - intros Hfr. unfold translateFinishReason.
    destruct (String.eqb_spec fr goopenai.FinishReasonStop) as [->|_]; [listed Hfr|].
    destruct (String.eqb_spec fr goopenai.FinishReasonToolCalls) as [->|_]; [listed Hfr|].
    destruct (String.eqb_spec fr goopenai.FinishReasonLength) as [->|_]; [listed Hfr|].
    destruct (String.eqb_spec fr goopenai.FinishReasonContentFilter) as [->|_]; [listed Hfr|].
    destruct (String.eqb_spec fr goopenai.FinishReasonFunctionCall) as [->|_]; [listed Hfr|].
    destruct (String.eqb_spec fr goopenai.FinishReasonNull) as [->|_]; [listed Hfr|].
    reflexivity.
Qed.

(** The two JSON helpers add nothing to the codec: encoding a map and
    decoding the result gives the map back exactly when [encoding/json]
    does so for that map. *)
Lemma json_helpers_round_trip (m : anymap) :
  (s ← mapToJSONString m; jsonStringToMap s) = Ok m <->
  exists s, json_Marshal m = Some s /\ json_Unmarshal s = Some m.
Proof.
  unfold mapToJSONString, jsonStringToMap.
  destruct (json_Marshal m) as [s|]; simpl.
  - destruct (json_Unmarshal s) as [m'|] eqn:Hs; split.
    + intros [= ->]. eauto.
    + intros (s' & [= <-] & Hs'). congruence.
    + discriminate.
    + intros (s' & [= <-] & Hs'). congruence.
  - split; [discriminate | intros (s & [=] & _)].
Qed.

Lemma toolRequestPartOfCall_Ok (call : ToolCall) (part : Part) :
  toolRequestPartOfCall call = Ok part <->
  exists input,
    json_Unmarshal (FunctionCall_Arguments (ToolCall_Function call)) = Some input /\
    part = ToolRequestPart
             {| ToolRequest_Name := FunctionCall_Name (ToolCall_Function call);
                ToolRequest_Input := input |}.
Proof.
  unfold toolRequestPartOfCall, jsonStringToMap.
  destruct (json_Unmarshal _) as [input|]; simpl; split.
  - intros [= <-]. eauto.
  - intros (input' & [= <-] & ->). reflexivity.
  - discriminate.
  - intros (input' & [=] & _).
Qed.

Lemma toolRequestPartOfCall_failure (call : ToolCall) :
  json_Unmarshal (FunctionCall_Arguments (ToolCall_Function call)) = None ->
  toolRequestPartOfCall call =
    Panic (PanicUnmarshal (FunctionCall_Arguments (ToolCall_Function call))).
Proof.
  intros Hnone. unfold toolRequestPartOfCall, jsonStringToMap.
  rewrite Hnone. reflexivity.
Qed.

Lemma toolRequestPartOfCall_cases (call : ToolCall) :
  match toolRequestPartOfCall call with
  | Ok _ => True
  | Err _ => False
  | Panic p =>
      json_Unmarshal (FunctionCall_Arguments (ToolCall_Function call)) = None /\
      p = PanicUnmarshal (FunctionCall_Arguments (ToolCall_Function call))
  end.
Proof.
  unfold toolRequestPartOfCall, jsonStringToMap.
  destruct (json_Unmarshal _); simpl; auto.
Qed.

(** C2. The finish reason of a candidate is a total function of the
    vendor's finish reason: stop and tool-calls give Stop, length gives
    Length, content-filter gives Blocked, function-call gives Other, null
    and every other value give Unknown. [translateCandidate] never
    returns an error, and where it panics the cause is a tool call whose
    arguments do not decode, whatever the finish reason is. *)
Theorem translateCandidate_finish_reason_total
    (choice : ChatCompletionChoice) (jsonMode : bool) :
  let fr := Choice_FinishReason choice in
  (((fr = goopenai.FinishReasonStop \/ fr = goopenai.FinishReasonToolCalls) ->
      translateFinishReason fr = ai.FinishReasonStop) /\
   (fr = goopenai.FinishReasonLength ->
      translateFinishReason fr = ai.FinishReasonLength) /\
   (fr = goopenai.FinishReasonContentFilter ->
      translateFinishReason fr = ai.FinishReasonBlocked) /\
   (fr = goopenai.FinishReasonFunctionCall ->
      translateFinishReason fr = ai.FinishReasonOther) /\
   (fr = goopenai.FinishReasonNull ->
      translateFinishReason fr = ai.FinishReasonUnknown) /\
   (~ In fr [goopenai.FinishReasonStop; goopenai.FinishReasonToolCalls;
             goopenai.FinishReasonLength; goopenai.FinishReasonContentFilter;
             goopenai.FinishReasonFunctionCall; goopenai.FinishReasonNull] ->
      translateFinishReason fr = ai.FinishReasonUnknown)) /\
  match translateCandidate choice jsonMode with
  | Ok c => Candidate_FinishReason c = translateFinishReason fr
  | Err _ => False
  | Panic p =>
      exists call,
        In call (ChatCompletionMessage_ToolCalls (Choice_Message choice)) /\
        json_Unmarshal (FunctionCall_Arguments (ToolCall_Function call)) = None /\
        p = PanicUnmarshal (FunctionCall_Arguments (ToolCall_Function call))
  end.
Proof.
  intros fr. split; [apply translateFinishReason_table|].
  unfold translateCandidate.
  destruct (eachM toolRequestPartOfCall _) as [parts|e|p] eqn:Hparts; simpl.
  - destruct (0 <? length parts)%nat; reflexivity.
  - apply eachM_Err in Hparts. destruct Hparts as (call & _ & Hcall).
    pose proof (toolRequestPartOfCall_cases call) as Hc.
    rewrite Hcall in Hc. exact Hc.
  - apply eachM_Panic in Hparts. destruct Hparts as (call & Hin & Hcall).
    pose proof (toolRequestPartOfCall_cases call) as Hc.
    rewrite Hcall in Hc. destruct Hc as [Hnone ->].
    exists call. auto.
Qed.

(** C5. A choice that carries tool calls, each with arguments that
    decode, becomes a message with one [ToolRequest] part per call, in
    order, each with the name of the call and its decoded arguments, and
    with no part for the content text. A choice without tool calls
    becomes a message with one part that carries the content as it is:
    a [Data] part in JSON mode, a [Text] part otherwise. A tool call
    whose arguments do not decode makes [translateCandidate] panic. *)
Theorem translateCandidate_message
    (choice : ChatCompletionChoice) (jsonMode : bool) :
  let msg := Choice_Message choice in
  let calls := ChatCompletionMessage_ToolCalls msg in
  (calls <> [] ->
   Forall (fun call =>
             is_Some (json_Unmarshal (FunctionCall_Arguments (ToolCall_Function call))))
          calls ->
   exists c,
     translateCandidate choice jsonMode = Ok c /\
     Message_Role (Candidate_Message c) = ai.RoleModel /\
     length (Message_Content (Candidate_Message c)) = length calls /\
     Forall2 (fun call part =>
                exists input,
                  json_Unmarshal (FunctionCall_Arguments (ToolCall_Function call))
                    = Some input /\
                  part = ToolRequestPart
                           {| ToolRequest_Name := FunctionCall_Name (ToolCall_Function call);
                              ToolRequest_Input := input |})
             calls (Message_Content (Candidate_Message c))) /\
  (calls = [] ->
   exists c,
     translateCandidate choice jsonMode = Ok c /\
     Message_Role (Candidate_Message c) = ai.RoleModel /\
     Message_Content (Candidate_Message c) =
       [ if jsonMode
         then DataPart (ChatCompletionMessage_Content msg)
         else TextPart (ChatCompletionMessage_Content msg) ]) /\
  (forall call,
     In call calls ->
     json_Unmarshal (FunctionCall_Arguments (ToolCall_Function call)) = None ->
     isPanic (translateCandidate choice jsonMode) = true).
Proof.
  intros msg calls. subst msg calls. unfold translateCandidate.
  split; [|split].
  - intros Hne Hdec.
    destruct (eachM_returns toolRequestPartOfCall
                (ChatCompletionMessage_ToolCalls (Choice_Message choice)))
      as [parts Hparts].
    { intros call Hin. rewrite Forall_forall in Hdec.
      destruct (Hdec call) as [input Hinput]; [apply list_elem_of_In; exact Hin|].
      eexists. apply toolRequestPartOfCall_Ok. eauto. }
    rewrite Hparts. simpl.
    pose proof (eachM_Ok_length _ _ _ Hparts) as Hlen.
    destruct (ChatCompletionMessage_ToolCalls (Choice_Message choice))
      as [|call calls] eqn:Hcalls; [congruence|].
    destruct parts as [|part parts]; [discriminate|]. simpl.
    eexists. split; [reflexivity|]. simpl.
    split; [reflexivity|]. split; [exact Hlen|].
    apply eachM_Ok_iff in Hparts.
    eapply Forall2_impl; [exact Hparts|].
    intros call' part' Hc. apply toolRequestPartOfCall_Ok. exact Hc.
  - intros ->. simpl. eexists. split; [reflexivity|].
    destruct jsonMode; simpl; auto.
  - intros call Hin Hnone.
    destruct (eachM toolRequestPartOfCall _) as [parts|e|p] eqn:Hparts; simpl.
    + destruct (eachM_Ok_In _ _ _ Hparts call Hin) as [part Hpart].
      exfalso. apply toolRequestPartOfCall_Ok in Hpart.
      destruct Hpart as (input & Hinput & _). congruence.
    + apply eachM_Err in Hparts. destruct Hparts as (call' & _ & Hcall).
      pose proof (toolRequestPartOfCall_cases call') as Hc.
      rewrite Hcall in Hc. destruct Hc.
    + reflexivity.
Qed.

End ResponseSide.

(** ** The request translator *)
Section RequestSide.

Context {codec : JSONCodec}.

Lemma convertRequest_steps (model : string) (input : GenerateRequest)
    (messages : list ChatCompletionMessage) (tools : list Tool) :
  convertMessages (Request_Messages input) = Ok messages ->
  convertTools (Request_Tools input) = Ok tools ->
  convertRequest model input =
    applyOutput model (Request_Output input)
      (applyConfig (Request_Config input) (baseRequest model input messages tools)).
Proof.
  intros Hm Ht. unfold convertRequest. rewrite Hm. simpl. rewrite Ht. reflexivity.
Qed.

Lemma convertRequest_Ok_steps (model : string) (input : GenerateRequest)
    (req : ChatCompletionRequest) :
  convertRequest model input = Ok req ->
  exists messages tools,
    convertMessages (Request_Messages input) = Ok messages /\
    convertTools (Request_Tools input) = Ok tools /\
    applyOutput model (Request_Output input)
      (applyConfig (Request_Config input) (baseRequest model input messages tools))
    = Ok req.
Proof.
  unfold convertRequest.
  destruct (convertMessages _) as [messages| |]; simpl; try discriminate.
  destruct (convertTools _) as [tools| |]; simpl; try discriminate.
  intros Hreq. exists messages, tools. auto.
Qed.

(** The output block touches the response format only. *)
Lemma applyOutput_keeps (model : string) (output : option GenerateRequestOutput)
    (r r' : ChatCompletionRequest) :
  applyOutput model output r = Ok r' ->
  ChatCompletionRequest_MaxTokens r' = ChatCompletionRequest_MaxTokens r /\
  ChatCompletionRequest_Stop r' = ChatCompletionRequest_Stop r /\
  ChatCompletionRequest_Temperature r' = ChatCompletionRequest_Temperature r /\
  ChatCompletionRequest_TopP r' = ChatCompletionRequest_TopP r.
Proof.
  unfold applyOutput.
  destruct output as [out|]; [|intros [= <-]; auto].
  destruct (negb _ && _); [|intros [= <-]; auto].
  destruct (String.eqb _ ai.OutputFormatJSON); [intros [= <-]; auto|].
  destruct (String.eqb _ ai.OutputFormatText); [intros [= <-]; auto|].
  discriminate.
Qed.

(** The config block touches neither the response format nor the
    messages. *)
Lemma applyConfig_keeps_format (config : ai.Config) (r : ChatCompletionRequest) :
  ChatCompletionRequest_ResponseFormat (applyConfig config r)
  = ChatCompletionRequest_ResponseFormat r.
Proof.
  destruct config as [|[c|]|]; simpl; try reflexivity.
  destruct (negb _), (0 <? _)%nat, (Float.nonzero (ai.Temperature c)),
    (Float.nonzero (ai.TopP c)); reflexivity.
Qed.

(** What the config block leaves in the four fields it can assign. *)
Lemma applyConfig_fields (c : ai.GenerationCommonConfig) (r : ChatCompletionRequest) :
  let r' := applyConfig (ai.ConfigCommon (Some c)) r in
  ChatCompletionRequest_MaxTokens r' =
    (if ai.MaxOutputTokens c =? 0 then ChatCompletionRequest_MaxTokens r
     else ai.MaxOutputTokens c) /\
  ChatCompletionRequest_Stop r' =
    (match ai.StopSequences c with
     | [] => ChatCompletionRequest_Stop r
     | _ :: _ => ai.StopSequences c
     end) /\
  ChatCompletionRequest_Temperature r' =
    (if Float.nonzero (ai.Temperature c)
     then Float.to_float32 (ai.Temperature c)
     else ChatCompletionRequest_Temperature r) /\
  ChatCompletionRequest_TopP r' =
    (if Float.nonzero (ai.TopP c)
     then Float.to_float32 (ai.TopP c)
     else ChatCompletionRequest_TopP r).
Proof.
  simpl.
  destruct (ai.MaxOutputTokens c =? 0), (ai.StopSequences c),
    (Float.nonzero (ai.Temperature c)), (Float.nonzero (ai.TopP c));
    simpl; auto.
Qed.

(** C1, as the code has it. When the config of the request is a
    [GenerationCommonConfig], the request that [convertRequest] returns
    has [MaxTokens = 0] when [MaxOutputTokens = 0] and the same number
    otherwise; an empty [Stop] when [StopSequences] is empty and the same
    list otherwise; [Temperature] and [TopP] at their zero value when the
    config value compares equal to zero, and otherwise the config value
    converted with [float32(.)], that is rounded to the nearest
    [float32]: the same number when [float32] can hold it. *)
Theorem convertRequest_config_forwarding
    (model : string) (input : GenerateRequest)
    (c : ai.GenerationCommonConfig) (req : ChatCompletionRequest) :
  Request_Config input = ai.ConfigCommon (Some c) ->
  convertRequest model input = Ok req ->
  (ai.MaxOutputTokens c = 0 -> ChatCompletionRequest_MaxTokens req = 0) /\
  (ai.MaxOutputTokens c <> 0 ->
     ChatCompletionRequest_MaxTokens req = ai.MaxOutputTokens c) /\
  (ai.StopSequences c = [] -> ChatCompletionRequest_Stop req = []) /\
  (ai.StopSequences c <> [] ->
     ChatCompletionRequest_Stop req = ai.StopSequences c) /\
  (Float.nonzero (ai.Temperature c) = false ->
     ChatCompletionRequest_Temperature req = Float.zero) /\
  (Float.nonzero (ai.Temperature c) = true ->
     ChatCompletionRequest_Temperature req = Float.to_float32 (ai.Temperature c)) /\
  (Float.nonzero (ai.TopP c) = false ->
     ChatCompletionRequest_TopP req = Float.zero) /\
  (Float.nonzero (ai.TopP c) = true ->
     ChatCompletionRequest_TopP req = Float.to_float32 (ai.TopP c)) /\
  (forall y : Float.float32,
     Float.nonzero (ai.Temperature c) = true ->
     Float.valid32 y = true -> Float.same_value (ai.Temperature c) y = true ->
     Float.same_value (ChatCompletionRequest_Temperature req) (ai.Temperature c) = true) /\
  (forall y : Float.float32,
     Float.nonzero (ai.TopP c) = true ->
     Float.valid32 y = true -> Float.same_value (ai.TopP c) y = true ->
     Float.same_value (ChatCompletionRequest_TopP req) (ai.TopP c) = true).
Proof.
  intros Hconfig Hreq.
  apply convertRequest_Ok_steps in Hreq.
  destruct Hreq as (messages & tools & _ & _ & Hout).
  apply applyOutput_keeps in Hout.
  destruct Hout as (-> & -> & -> & ->).
  rewrite Hconfig.
  destruct (applyConfig_fields c (baseRequest model input messages tools))
    as (-> & -> & -> & ->).
  cbn [baseRequest ChatCompletionRequest_MaxTokens ChatCompletionRequest_Stop
       ChatCompletionRequest_Temperature ChatCompletionRequest_TopP].
  repeat apply conj.
  - intros ->. reflexivity.
  - intros Hne. apply Z.eqb_neq in Hne. rewrite Hne. reflexivity.
  - intros ->. reflexivity.
  - intros Hne. destruct (ai.StopSequences c); [congruence | reflexivity].
  - intros ->. reflexivity.
  - intros ->. reflexivity.
  - intros ->. reflexivity.
  - intros ->. reflexivity.
  - intros y -> Hvalid Hsame. exact (to_float32_exact _ y Hvalid Hsame).
  - intros y -> Hvalid Hsame. exact (to_float32_exact _ y Hvalid Hsame).
Qed.

Lemma convertTools_no_panic (inTools : list ToolDefinition) :
  isPanic (convertTools inTools) = false.
Proof.
  unfold convertTools.
  destruct (eachM convertTool inTools) as [ts|e|p] eqn:Heach; try reflexivity.
  apply eachM_Panic in Heach. destruct Heach as (t & _ & Ht).
  unfold convertTool, mapToJSONRawMessage in Ht.
  destruct (json_Marshal _); discriminate.
Qed.

(** C3. For a request that asks for JSON or text output and whose
    messages and tools convert, [convertRequest] returns a request. For
    a model of [modelsSupportingResponseFormats] its response format is
    the JSON-object type together with a marshaller over the output
    schema, which encodes that schema when the request is serialised, or
    the text type; for any other model the response format is left
    unset. *)
Theorem convertRequest_response_format
    (model : string) (input : GenerateRequest) (out : GenerateRequestOutput)
    (messages : list ChatCompletionMessage) (tools : list Tool) :
  Request_Output input = Some out ->
  Output_Format out = ai.OutputFormatJSON \/ Output_Format out = ai.OutputFormatText ->
  convertMessages (Request_Messages input) = Ok messages ->
  convertTools (Request_Tools input) = Ok tools ->
  exists req,
    convertRequest model input = Ok req /\
    (slices_Contains modelsSupportingResponseFormats model = true ->
     Output_Format out = ai.OutputFormatJSON ->
     exists schema,
       ChatCompletionRequest_ResponseFormat req =
         Some {| ResponseFormat_Type :=
                   goopenai.ChatCompletionResponseFormatTypeJSONObject;
                 ResponseFormat_JSONSchema :=
                   Some {| JSONSchema_Name := EmptyString;
                           JSONSchema_Description := EmptyString;
                           JSONSchema_Schema := Some schema;
                           JSONSchema_Strict := true |} |} /\
       MarshalJSON schema = json_Marshal (Output_Schema out)) /\
    (slices_Contains modelsSupportingResponseFormats model = true ->
     Output_Format out = ai.OutputFormatText ->
     ChatCompletionRequest_ResponseFormat req =
       Some {| ResponseFormat_Type := goopenai.ChatCompletionResponseFormatTypeText;
               ResponseFormat_JSONSchema := None |}) /\
    (slices_Contains modelsSupportingResponseFormats model = false ->
     ChatCompletionRequest_ResponseFormat req = None).
Proof.
  intros Hout Hformat Hm Ht.
  rewrite (convertRequest_steps model input messages tools Hm Ht), Hout.
  unfold applyOutput.
  destruct (slices_Contains modelsSupportingResponseFormats model) eqn:Hallow.
  - destruct Hformat as [Hf|Hf]; rewrite Hf; simpl.
    + eexists. split; [reflexivity|]. simpl.
      split; [|split]; try discriminate.
      intros _ _. eexists. split; reflexivity.
    + eexists. split; [reflexivity|]. simpl.
      split; [|split]; try discriminate.
      intros _ _. reflexivity.
  - rewrite andb_false_r. eexists. split; [reflexivity|].
    split; [|split]; try discriminate.
    intros _. rewrite applyConfig_keeps_format. reflexivity.
Qed.

(** The revision that sets the [Type] only gives the same request, with
    the schema left out of a JSON response format. *)
Lemma convertRequest_typeOnly_response_format
    (model : string) (input : GenerateRequest) (out : GenerateRequestOutput)
    (messages : list ChatCompletionMessage) (tools : list Tool) :
  Request_Output input = Some out ->
  Output_Format out = ai.OutputFormatJSON ->
  slices_Contains modelsSupportingResponseFormats model = true ->
  convertMessages (Request_Messages input) = Ok messages ->
  convertTools (Request_Tools input) = Ok tools ->
  exists req,
    convertRequest_typeOnly model input = Ok req /\
    ChatCompletionRequest_ResponseFormat req =
      Some {| ResponseFormat_Type :=
                goopenai.ChatCompletionResponseFormatTypeJSONObject;
              ResponseFormat_JSONSchema := None |}.
Proof.
  intros Hout Hf Hallow Hm Ht. unfold convertRequest_typeOnly.
  rewrite Hm. simpl. rewrite Ht. simpl. rewrite Hout. unfold applyOutput_typeOnly.
  rewrite Hf, Hallow. simpl. eexists. split; reflexivity.
Qed.

(** C4, as the code has it. A format other than JSON, text and the empty
    string is refused when the model is one of
    [modelsSupportingResponseFormats]: unless the conversion of the
    messages panics, [convertRequest] returns an error, and when messages
    and tools convert it is the error of the [switch] on the format. For
    any other model the format is dropped: when messages and tools
    convert, [convertRequest] returns a request without a response
    format. *)
Theorem convertRequest_unknown_format
    (model : string) (input : GenerateRequest) (out : GenerateRequestOutput) :
  Request_Output input = Some out ->
  Output_Format out <> ai.OutputFormatJSON ->
  Output_Format out <> ai.OutputFormatText ->
  Output_Format out <> EmptyString ->
  (slices_Contains modelsSupportingResponseFormats model = true ->
   isPanic (convertMessages (Request_Messages input)) = false ->
   exists e,
     convertRequest model input = Err e /\
     (isOk (convertMessages (Request_Messages input)) = true ->
      isOk (convertTools (Request_Tools input)) = true ->
      e = ErrUnknownPartType)) /\
  (slices_Contains modelsSupportingResponseFormats model = false ->
   forall messages tools,
     convertMessages (Request_Messages input) = Ok messages ->
     convertTools (Request_Tools input) = Ok tools ->
     exists req,
       convertRequest model input = Ok req /\
       ChatCompletionRequest_ResponseFormat req = None).
Proof.
  intros Hout Hjson Htext Hempty. split.
  - intros Hallow Hpanic.
    unfold convertRequest.
    destruct (convertMessages _) as [messages|e|p]; [| |discriminate Hpanic].
    + pose proof (convertTools_no_panic (Request_Tools input)) as Htools.
      destruct (convertTools _) as [tools|e|p]; [| |discriminate Htools].
      * simpl. rewrite Hout. unfold applyOutput. rewrite Hallow.
        apply String.eqb_neq in Hjson, Htext, Hempty.
        rewrite Hjson, Htext, Hempty. simpl. eauto.
      * exists e. split; [reflexivity | discriminate].
    + exists e. split; [reflexivity | discriminate].
  - intros Hallow messages tools Hm Ht.
    rewrite (convertRequest_steps model input messages tools Hm Ht), Hout.
    unfold applyOutput. rewrite Hallow, andb_false_r.
    eexists. split; [reflexivity|].
    rewrite applyConfig_keeps_format. reflexivity.
Qed.

Lemma convertMessages_from_app (msgs : list ChatCompletionMessage)
    (l1 l2 : list Message) :
  convertMessages_from msgs (l1 ++ l2) =
    (msgs' ← convertMessages_from msgs l1; convertMessages_from msgs' l2).
Proof.
  revert msgs; induction l1 as [|m l1 IH]; intros msgs; simpl; [reflexivity|].
  destruct (convertMessage m) as [new| |]; simpl; [apply IH | reflexivity | reflexivity].
Qed.

Lemma filter_IsToolRequest_none (parts : list Part) :
  Forall (fun p => IsToolRequest p = false) parts ->
  List.filter IsToolRequest parts = [].
Proof.
  induction 1 as [|p parts Hp _ IH]; simpl; [reflexivity|].
  rewrite Hp. exact IH.
Qed.

(** What the loop body does with a system message, or with a model
    message without tool requests: it reads [m.Content[0]]. *)
Lemma convertMessage_reads_first (m : Message) :
  Message_Role m = ai.RoleSystem \/
  (Message_Role m = ai.RoleModel /\
   Forall (fun p => IsToolRequest p = false) (Message_Content m)) ->
  exists role,
    fromAIRoleToOpenAIRole (Message_Role m) = Ok role /\
    convertMessage m =
      (first ← index (Message_Content m) 0; Ok [textMessage role (Part_Text first)]).
Proof.
  unfold convertMessage.
  intros [Hrole|[Hrole Hparts]]; rewrite Hrole; simpl.
  - eexists. split; reflexivity.
  - rewrite (filter_IsToolRequest_none _ Hparts). simpl.
    eexists. split; reflexivity.
Qed.

(** C10. A system message, and a model message without a tool-request
    part, is converted by reading the text of the first part of its
    content. With a first part the result is one vendor message with that
    text; with an empty content the read is out of range: once the
    messages before it are converted, [convertMessages] panics with an
    index-out-of-range error, and so does [convertRequest]; no [error] is
    returned. *)
Theorem convertMessages_first_part_required
    (model : string) (input : GenerateRequest)
    (before after : list Message) (m : Message)
    (converted : list ChatCompletionMessage) :
  Request_Messages input = before ++ m :: after ->
  convertMessages before = Ok converted ->
  Message_Role m = ai.RoleSystem \/
  (Message_Role m = ai.RoleModel /\
   Forall (fun p => IsToolRequest p = false) (Message_Content m)) ->
  (Message_Content m = [] ->
     convertMessages (before ++ m :: after) = Panic (PanicIndexOutOfRange 0 0) /\
     convertRequest model input = Panic (PanicIndexOutOfRange 0 0)) /\
  (forall first others,
     Message_Content m = first :: others ->
     exists role,
       fromAIRoleToOpenAIRole (Message_Role m) = Ok role /\
       convertMessage m = Ok [textMessage role (Part_Text first)]).
Proof.
  intros Hmessages Hbefore Hrole.
  destruct (convertMessage_reads_first m Hrole) as (role & Hr & Hm).
  split.
  - intros Hempty.
    assert (convertMessages (before ++ m :: after)
            = Panic (PanicIndexOutOfRange 0 0)) as Hpanic.
    { unfold convertMessages in *. rewrite convertMessages_from_app, Hbefore.
      simpl. rewrite Hm, Hempty. reflexivity. }
    split; [exact Hpanic|].
    unfold convertRequest. rewrite Hmessages, Hpanic. reflexivity.
  - intros first others Hcontent. exists role. split; [exact Hr|].
    rewrite Hm, Hcontent. reflexivity.
Qed.

End RequestSide.

(** ** The generation entry point *)
Section GenerationSide.

Context {codec : JSONCodec} {rt : Runtime}.

Lemma generate_CallbackFree (ctx : context_Context) (client : option Client)
    (model : string) (input : GenerateRequest) (cb : Callback) :
  CallbackFree (generate ctx client model input cb).
Proof.
  unfold generate.
  destruct (convertRequest model input) as [req|e|p]; try constructor.
  intros [resp|e|p]; constructor.
Qed.

(** A program without callback invocations delivers no chunk, and runs
    the same whatever invoking a callback would do. *)
Lemma run_CallbackFree (W A : Type)
    (vendor : option Client -> context_Context -> ChatCompletionRequest -> W ->
              outcome ChatCompletionResponse * W)
    (call call' : Callback -> context_Context -> GenerateResponseChunk -> W ->
                  option error * W)
    (p : Prog A) :
  CallbackFree p ->
  forall (w : W) (delivered : list (Callback * GenerateResponseChunk)),
    snd (run W vendor call p w delivered) = delivered /\
    run W vendor call' p w delivered = run W vendor call p w delivered.
Proof.
  induction 1 as [a|client ctx req k _ IH]; intros w delivered; simpl.
  - auto.
  - destruct (vendor client ctx req w) as [answer w']. apply IH.
Qed.

(** C9. Whatever the vendor answers and whatever the callback would do
    when invoked, a run of [generate] hands no chunk to a callback: the
    record of delivered chunks is after the run what it was before, no
    path of [generate] reaches a callback invocation, and the run is the
    same for every callback and every behaviour of callbacks. *)
Theorem generate_never_invokes_callback (W : Type)
    (vendor : option Client -> context_Context -> ChatCompletionRequest -> W ->
              outcome ChatCompletionResponse * W)
    (call : Callback -> context_Context -> GenerateResponseChunk -> W ->
            option error * W)
    (ctx : context_Context) (client : option Client) (model : string)
    (input : GenerateRequest) (cb : Callback)
    (w : W) (delivered : list (Callback * GenerateResponseChunk)) :
  CallbackFree (generate ctx client model input cb) /\
  snd (run W vendor call (generate ctx client model input cb) w delivered)
    = delivered /\
  (forall (cb' : Callback)
          (call' : Callback -> context_Context -> GenerateResponseChunk -> W ->
                   option error * W),
     run W vendor call' (generate ctx client model input cb') w delivered
     = run W vendor call (generate ctx client model input cb) w delivered).
Proof.
  split; [apply generate_CallbackFree|].
  split.
  - apply run_CallbackFree; [exact call | apply generate_CallbackFree].
  - intros cb' call'.
    transitivity (run W vendor call (generate ctx client model input cb') w delivered).
    + apply run_CallbackFree. apply generate_CallbackFree.
    + reflexivity.
Qed.

End GenerationSide.

(** ** The registry *)
Section RegistrySide.

Context {codec : JSONCodec} {rt : Runtime} {host : HostFramework}
        {presets : CapabilityPresets}.




End RegistrySide.

(** * Further properties of the translators and the registry *)

(** ** Loops, continued *)
Section LoopsMore.

Context {A B : Type} (f : A -> outcome B).

(** When the body of the loop can only return or fail with one error, the
    loop fails with that error as soon as one element does. *)
Lemma eachM_single_error (e : error) (l : list A) :
  (forall x, In x l -> isOk (f x) = true \/ f x = Err e) ->
  Exists (fun x => f x = Err e) l ->
  eachM f l = Err e.
Proof.
  induction l as [|x l IH]; intros Hall Hex; [inversion Hex|].
  simpl. destruct (Hall x (or_introl eq_refl)) as [Hok|Herr].
  - destruct (f x) as [y| |] eqn:Hx; try discriminate. simpl.
    rewrite IH; [reflexivity | intros; apply Hall; right; assumption |].
    inversion Hex as [? ? Hhere|? ? Hlater]; subst; [congruence | exact Hlater].
  - rewrite Herr. reflexivity.
Qed.

Lemma eachM_app (l1 l2 : list A) :
  eachM f (l1 ++ l2) = (ys1 ← eachM f l1; ys2 ← eachM f l2; Ok (ys1 ++ ys2)).
Proof.
  induction l1 as [|x l1 IH]; simpl.
  - destruct (eachM f l2); reflexivity.
  - destruct (f x) as [y| |]; simpl; try reflexivity.
    rewrite IH. destruct (eachM f l1) as [ys1| |]; simpl; try reflexivity.
    destruct (eachM f l2); reflexivity.
Qed.

End LoopsMore.

(** ** The request translator, message by message *)
Section MessagesSide.

Context {codec : JSONCodec}.

Lemma toOpenAiTextAndMedia_cases (part : Part) :
  (IsText part = true /\
   toOpenAiTextAndMedia part =
     Ok {| ChatMessagePart_Type := goopenai.ChatMessagePartTypeText;
           ChatMessagePart_Text := Part_Text part;
           ChatMessagePart_ImageURL := None |}) \/
  (IsMedia part = true /\
   toOpenAiTextAndMedia part =
     Ok {| ChatMessagePart_Type := goopenai.ChatMessagePartTypeImageURL;
           ChatMessagePart_Text := EmptyString;
           ChatMessagePart_ImageURL :=
             Some {| ImageURL_URL := Part_Text part;
                     ImageURL_Detail := goopenai.ImageURLDetailAuto |} |}) \/
  (IsText part = false /\ IsMedia part = false /\
   toOpenAiTextAndMedia part = Err ErrUnknownPartType).
Proof.
  destruct part; simpl; auto.
Qed.

(** X1. A user message whose parts are all text or media becomes one
    vendor message of role user with one content part per part, in order:
    a text part for a text, an image reference with detail auto for a
    media part. A user message with a part of another kind is refused with
    the unknown-part-type error. *)
Theorem convertMessage_user (m : Message) :
  Message_Role m = ai.RoleUser ->
  (Forall (fun p => IsText p = true \/ IsMedia p = true) (Message_Content m) ->
   exists multiContent,
     convertMessage m =
       Ok [ {| ChatCompletionMessage_Role := goopenai.ChatMessageRoleUser;
               ChatCompletionMessage_Content := EmptyString;
               ChatCompletionMessage_MultiContent := multiContent;
               ChatCompletionMessage_Name := EmptyString;
               ChatCompletionMessage_ToolCalls := [];
               ChatCompletionMessage_ToolCallID := EmptyString |} ] /\
     Forall2 (fun p c =>
                (IsText p = true /\
                 c = {| ChatMessagePart_Type := goopenai.ChatMessagePartTypeText;
                        ChatMessagePart_Text := Part_Text p;
                        ChatMessagePart_ImageURL := None |}) \/
                (IsMedia p = true /\
                 c = {| ChatMessagePart_Type := goopenai.ChatMessagePartTypeImageURL;
                        ChatMessagePart_Text := EmptyString;
                        ChatMessagePart_ImageURL :=
                          Some {| ImageURL_URL := Part_Text p;
                                  ImageURL_Detail := goopenai.ImageURLDetailAuto |} |}))
             (Message_Content m) multiContent) /\
  (Exists (fun p => IsText p = false /\ IsMedia p = false) (Message_Content m) ->
   convertMessage m = Err ErrUnknownPartType).
Proof.
  intros Hrole. unfold convertMessage. rewrite Hrole. simpl. split.
  - intros Hparts.
    destruct (eachM_returns toOpenAiTextAndMedia (Message_Content m)) as [mc Hmc].
    { intros p Hin. rewrite Forall_forall in Hparts.
      specialize (Hparts p (proj2 (list_elem_of_In _ _) Hin)).
      destruct (toOpenAiTextAndMedia_cases p) as [[_ ->]|[[_ ->]|(Ht & Hm & _)]]; eauto.
      destruct Hparts; congruence. }
    rewrite Hmc. simpl. exists mc. split; [reflexivity|].
    apply eachM_Ok_iff in Hmc. eapply Forall2_impl; [exact Hmc|].
    intros p c Hc. cbn beta in Hc.
    destruct (toOpenAiTextAndMedia_cases p) as [[Ht Hp]|[[Hm Hp]|(_ & _ & Hp)]];
      rewrite Hp in Hc; [left | right | discriminate];
      split; congruence.
  - intros Hbad.
    rewrite (eachM_single_error toOpenAiTextAndMedia ErrUnknownPartType); [reflexivity| |].
    + intros p _.
      destruct (toOpenAiTextAndMedia_cases p) as [[_ ->]|[[_ ->]|(_ & _ & ->)]]; auto.
    + eapply Exists_impl; [exact Hbad|]. intros p [Ht Hm].
      destruct (toOpenAiTextAndMedia_cases p) as [[Ht' _]|[[Hm' _]|(_ & _ & Hp)]];
        congruence.
Qed.

Lemma toolMessageOfPart_response (role : string) (r : ToolResponse) :
  toolMessageOfPart role (ToolResponsePart r) =
    (content ← mapToJSONString (ToolResponse_Output r);
     Ok {| ChatCompletionMessage_Role := role;
           ChatCompletionMessage_Content := content;
           ChatCompletionMessage_MultiContent := [];
           ChatCompletionMessage_Name := ToolResponse_Name r;
           ChatCompletionMessage_ToolCalls := [];
           ChatCompletionMessage_ToolCallID := ToolResponse_Name r |}).
Proof. reflexivity. Qed.

Lemma eachM_toolMessageOfPart_responses (role : string) (responses : list ToolResponse) :
  Forall (fun r => is_Some (json_Marshal (ToolResponse_Output r))) responses ->
  exists msgs,
    eachM (toolMessageOfPart role) (map ToolResponsePart responses) = Ok msgs /\
    Forall2 (fun r msg =>
               exists content,
                 json_Marshal (ToolResponse_Output r) = Some content /\
                 msg = {| ChatCompletionMessage_Role := role;
                          ChatCompletionMessage_Content := content;
                          ChatCompletionMessage_MultiContent := [];
                          ChatCompletionMessage_Name := ToolResponse_Name r;
                          ChatCompletionMessage_ToolCalls := [];
                          ChatCompletionMessage_ToolCallID := ToolResponse_Name r |})
            responses msgs.
Proof.
  induction 1 as [|r responses [content Hcontent] _ (msgs & Hmsgs & Hrel)].
  - exists []. split; [reflexivity | constructor].
  - cbn [map eachM]. rewrite toolMessageOfPart_response.
    unfold mapToJSONString. rewrite Hcontent. simpl. rewrite Hmsgs. simpl.
    eexists. split; [reflexivity|]. constructor; [eauto | exact Hrel].
Qed.

(** X2. A tool message becomes one vendor message of role tool per part:
    for tool responses whose outputs encode, the message of a response
    carries the encoded output as content and the name of the response as
    name and as tool-call id. A tool message without parts contributes no
    vendor message at all, and a first part that is no tool response is a
    nil dereference. *)
Theorem convertMessage_tool (m : Message) :
  Message_Role m = ai.RoleTool ->
  (Message_Content m = [] -> convertMessage m = Ok []) /\
  (forall responses,
     Message_Content m = map ToolResponsePart responses ->
     Forall (fun r => is_Some (json_Marshal (ToolResponse_Output r))) responses ->
     exists msgs,
       convertMessage m = Ok msgs /\
       Forall2 (fun r msg =>
                  exists content,
                    json_Marshal (ToolResponse_Output r) = Some content /\
                    msg = {| ChatCompletionMessage_Role := goopenai.ChatMessageRoleTool;
                             ChatCompletionMessage_Content := content;
                             ChatCompletionMessage_MultiContent := [];
                             ChatCompletionMessage_Name := ToolResponse_Name r;
                             ChatCompletionMessage_ToolCalls := [];
                             ChatCompletionMessage_ToolCallID := ToolResponse_Name r |})
               responses msgs) /\
  (forall p rest,
     Message_Content m = p :: rest -> IsToolResponse p = false ->
     convertMessage m = Panic PanicNilDereference).
Proof.
  intros Hrole. unfold convertMessage. rewrite Hrole. simpl. split; [|split].
  - intros ->. reflexivity.
  - intros responses -> Hall.
    exact (eachM_toolMessageOfPart_responses goopenai.ChatMessageRoleTool responses Hall).
  - intros p rest -> Hp. destruct p; simpl in *; try reflexivity. discriminate.
Qed.

Lemma toolCalls_of_requests (parts : list Part) :
  eachM toolCallOfPart (List.filter IsToolRequest parts) =
  eachM (fun r =>
           arguments ← mapToJSONString (ToolRequest_Input r);
           Ok {| ToolCall_ID := ToolRequest_Name r;
                 ToolCall_Type := goopenai.ToolTypeFunction;
                 ToolCall_Function :=
                   {| FunctionCall_Name := ToolRequest_Name r;
                      FunctionCall_Arguments := arguments |} |})
        (toolRequestsOf parts).
Proof.
  induction parts as [|p parts IH]; [reflexivity|].
  destruct p as [t|ct u|d|r|r]; try exact IH.
  change (List.filter IsToolRequest (ToolRequestPart r :: parts))
    with (ToolRequestPart r :: List.filter IsToolRequest parts).
  change (toolRequestsOf (ToolRequestPart r :: parts))
    with (r :: toolRequestsOf parts).
  cbn [eachM]. rewrite IH. reflexivity.
Qed.

(** X3. A model message that holds tool requests, each with an input that
    encodes, becomes one vendor message of role assistant without content
    and with one tool call per tool request, in order: the call has the
    name of the request as id and as function name, and the encoded input
    as arguments. The parts that are no tool requests are left out. *)
Theorem convertMessage_model_tool_requests (m : Message) :
  Message_Role m = ai.RoleModel ->
  toolRequestsOf (Message_Content m) <> [] ->
  Forall (fun r => is_Some (json_Marshal (ToolRequest_Input r)))
         (toolRequestsOf (Message_Content m)) ->
  exists toolCalls,
    convertMessage m =
      Ok [ {| ChatCompletionMessage_Role := goopenai.ChatMessageRoleAssistant;
              ChatCompletionMessage_Content := EmptyString;
              ChatCompletionMessage_MultiContent := [];
              ChatCompletionMessage_Name := EmptyString;
              ChatCompletionMessage_ToolCalls := toolCalls;
              ChatCompletionMessage_ToolCallID := EmptyString |} ] /\
    Forall2 (fun r toolCall =>
               exists arguments,
                 json_Marshal (ToolRequest_Input r) = Some arguments /\
                 toolCall = {| ToolCall_ID := ToolRequest_Name r;
                               ToolCall_Type := goopenai.ToolTypeFunction;
                               ToolCall_Function :=
                                 {| FunctionCall_Name := ToolRequest_Name r;
                                    FunctionCall_Arguments := arguments |} |})
            (toolRequestsOf (Message_Content m)) toolCalls.
Proof.
  intros Hrole Hsome Hall. unfold convertMessage. rewrite Hrole. simpl.
  rewrite toolCalls_of_requests.
  match goal with |- context [eachM ?g _] => set (body := g) end.
  destruct (eachM_returns body (toolRequestsOf (Message_Content m))) as [calls Hcalls].
  { intros r Hin. rewrite Forall_forall in Hall.
    destruct (Hall r (proj2 (list_elem_of_In _ _) Hin)) as [arguments Harguments].
    subst body. simpl. unfold mapToJSONString. rewrite Harguments. simpl. eauto. }
  rewrite Hcalls. simpl.
  pose proof (eachM_Ok_length _ _ _ Hcalls) as Hlen.
  destruct calls as [|c calls].
  { destruct (toolRequestsOf (Message_Content m)); [congruence | discriminate]. }
  simpl. eexists. split; [reflexivity|].
  apply eachM_Ok_iff in Hcalls. eapply Forall2_impl; [exact Hcalls|].
  intros r tc Hr. subst body. simpl in Hr. unfold mapToJSONString in Hr.
  destruct (json_Marshal (ToolRequest_Input r)) as [arguments|]; [|discriminate].
  simpl in Hr. injection Hr as <-. eauto.
Qed.

Lemma convertMessages_from_acc (msgs : list ChatCompletionMessage)
    (messages : list Message) :
  convertMessages_from msgs messages =
    (new ← convertMessages messages; Ok (msgs ++ new)).
Proof.
  unfold convertMessages. revert msgs.
  induction messages as [|m messages IH]; intros msgs; simpl.
  - rewrite app_nil_r. reflexivity.
  - destruct (convertMessage m) as [new| |]; simpl; try reflexivity.
    rewrite (IH (msgs ++ new)), (IH new).
    destruct (convertMessages_from [] messages) as [rest| |]; simpl; try reflexivity.
    rewrite app_assoc. reflexivity.
Qed.

(** X4. Converting two lists of messages one after the other is
    converting each and appending the results: the first list is converted
    first, and its failure, if any, is the failure of the whole. *)
Theorem convertMessages_app (l1 l2 : list Message) :
  convertMessages (l1 ++ l2) =
    (msgs1 ← convertMessages l1; msgs2 ← convertMessages l2; Ok (msgs1 ++ msgs2)).
Proof.
  unfold convertMessages at 1. rewrite convertMessages_from_app.
  fold (convertMessages l1).
  destruct (convertMessages l1) as [msgs1| |]; simpl; try reflexivity.
  apply convertMessages_from_acc.
Qed.

Lemma convertMessages_cons (m : Message) (messages : list Message) :
  convertMessages (m :: messages) =
    (new ← convertMessage m; rest ← convertMessages messages; Ok (new ++ rest)).
Proof.
  unfold convertMessages. simpl.
  destruct (convertMessage m) as [new| |]; simpl; try reflexivity.
  apply convertMessages_from_acc.
Qed.

Lemma eachM_toolMessageOfPart_roles (role : string) (parts : list Part)
    (msgs : list ChatCompletionMessage) :
  eachM (toolMessageOfPart role) parts = Ok msgs ->
  map ChatCompletionMessage_Role msgs = repeat role (length parts).
Proof.
  revert msgs; induction parts as [|p parts IH]; intros msgs; simpl.
  - intros [= <-]. reflexivity.
  - destruct (toolMessageOfPart role p) as [msg| |] eqn:Hp; simpl; try discriminate.
    destruct (eachM (toolMessageOfPart role) parts) as [rest| |]; simpl; try discriminate.
    intros [= <-]. simpl. rewrite (IH rest eq_refl). f_equal.
    unfold toolMessageOfPart in Hp.
    destruct (deref (Part_ToolResponse p)) as [r| |]; simpl in Hp; try discriminate.
    destruct (mapToJSONString (ToolResponse_Output r)); simpl in Hp; try discriminate.
    injection Hp as <-. reflexivity.
Qed.

Lemma convertMessage_roles (m : Message) (new : list ChatCompletionMessage) :
  convertMessage m = Ok new ->
  map ChatCompletionMessage_Role new = expectedRoles m.
Proof.
  unfold convertMessage, expectedRoles.
  destruct (fromAIRoleToOpenAIRole (Message_Role m)) as [role| |] eqn:Hrole;
    simpl; try discriminate.
  apply fromAIRoleToOpenAIRole_defined in Hrole as Hin.
  unfold fromAIRoleToOpenAIRole in Hrole. simpl in Hin.
  destruct Hin as [Hr|[Hr|[Hr|[Hr|[]]]]]; rewrite <- Hr in Hrole; simpl in Hrole;
    injection Hrole as <-; simpl.
  - destruct (eachM toOpenAiTextAndMedia _); simpl; try discriminate.
    intros [= <-]. reflexivity.
  - destruct (index _ 0); simpl; try discriminate. intros [= <-]. reflexivity.
  - destruct (eachM toolCallOfPart _) as [calls| |]; simpl; try discriminate.
    destruct (0 <? length calls)%nat.
    + intros [= <-]. reflexivity.
    + destruct (index _ 0); simpl; try discriminate. intros [= <-]. reflexivity.
  - apply eachM_toolMessageOfPart_roles.
Qed.

(** X5. The vendor messages that [convertMessages] returns keep the
    order of the messages: their roles are, message after message, the
    vendor role of the message, once for a user, system or model message
    and once per part for a tool message. *)
Theorem convertMessages_roles_in_order (messages : list Message)
    (msgs : list ChatCompletionMessage) :
  convertMessages messages = Ok msgs ->
  map ChatCompletionMessage_Role msgs = flat_map expectedRoles messages.
Proof.
  revert msgs; induction messages as [|m messages IH]; intros msgs.
  - unfold convertMessages. simpl. intros [= <-]. reflexivity.
  - rewrite convertMessages_cons.
    destruct (convertMessage m) as [new| |] eqn:Hm; simpl; try discriminate.
    destruct (convertMessages messages) as [rest| |]; simpl; try discriminate.
    intros [= <-]. rewrite map_app.
    rewrite (convertMessage_roles m new Hm), (IH rest eq_refl). reflexivity.
Qed.

Lemma toolCallOfPart_no_error (part : Part) (e : error) :
  toolCallOfPart part <> Err e.
Proof.
  unfold toolCallOfPart.
  destruct (deref (Part_ToolRequest part)) as [r| |] eqn:Hd; simpl; try discriminate.
  - unfold mapToJSONString. destruct (json_Marshal _); discriminate.
  - unfold deref in Hd. destruct (Part_ToolRequest part); discriminate.
Qed.

Lemma toolMessageOfPart_no_error (role : string) (part : Part) (e : error) :
  toolMessageOfPart role part <> Err e.
Proof.
  unfold toolMessageOfPart.
  destruct (deref (Part_ToolResponse part)) as [r| |] eqn:Hd; simpl; try discriminate.
  - unfold mapToJSONString. destruct (json_Marshal _); discriminate.
  - unfold deref in Hd. destruct (Part_ToolResponse part); discriminate.
Qed.

Lemma index_no_error {A : Type} (s : list A) (i : nat) (e : error) :
  index s i <> Err e.
Proof. unfold index. destruct (nth_error s i); discriminate. Qed.

Lemma fromAIRoleToOpenAIRole_no_error (aiRole : ai.Role) (e : error) :
  fromAIRoleToOpenAIRole aiRole <> Err e.
Proof.
  unfold fromAIRoleToOpenAIRole.
  repeat match goal with |- context [String.eqb ?a ?b] => destruct (String.eqb a b) end;
    discriminate.
Qed.

Lemma convertMessage_error (m : Message) (e : error) :
  convertMessage m = Err e ->
  e = ErrUnknownPartType /\
  Message_Role m = ai.RoleUser /\
  Exists (fun p => IsText p = false /\ IsMedia p = false) (Message_Content m).
Proof.
  unfold convertMessage.
  destruct (fromAIRoleToOpenAIRole (Message_Role m)) as [role|e'|] eqn:Hrole;
    simpl; try discriminate;
    [|exfalso; exact (fromAIRoleToOpenAIRole_no_error _ _ Hrole)].
  apply fromAIRoleToOpenAIRole_defined in Hrole as Hin.
  unfold fromAIRoleToOpenAIRole in Hrole. simpl in Hin.
  destruct Hin as [Hr|[Hr|[Hr|[Hr|[]]]]]; rewrite <- Hr in Hrole; simpl in Hrole;
    injection Hrole as <-; simpl.
  - destruct (eachM toOpenAiTextAndMedia _) as [mc|e'|] eqn:Hmc; simpl; try discriminate.
    intros [= ->]. apply eachM_Err in Hmc. destruct Hmc as (p & Hin & Hp).
    destruct (toOpenAiTextAndMedia_cases p) as [[_ Hp']|[[_ Hp']|(Ht & Hm & Hp')]];
      rewrite Hp' in Hp; try discriminate.
    injection Hp as <-. split; [reflexivity|]. split; [auto|].
    apply Exists_exists. exists p. split; [apply list_elem_of_In; exact Hin | auto].
  - destruct (index _ 0) eqn:Hi; simpl; try discriminate.
    intros [= ->]. exfalso. exact (index_no_error _ _ _ Hi).
  - destruct (eachM toolCallOfPart _) as [calls|e'|] eqn:Hcalls; simpl; try discriminate.
    + destruct (0 <? length calls)%nat; [discriminate|].
      destruct (index _ 0) eqn:Hi; simpl; try discriminate.
      intros [= ->]. exfalso. exact (index_no_error _ _ _ Hi).
    + intros _. exfalso. apply eachM_Err in Hcalls.
      destruct Hcalls as (p & _ & Hp). exact (toolCallOfPart_no_error _ _ Hp).
  - intros Herr. exfalso. apply eachM_Err in Herr.
    destruct Herr as (p & _ & Hp). exact (toolMessageOfPart_no_error _ _ _ Hp).
Qed.

(** X6. The only error that [convertMessages] returns is the
    unknown-part-type error, and it returns it for a user message that
    holds a part which is neither text nor media. The unknown-role error
    of its [default] branch is never returned: a role without a vendor
    role is a panic of [fromAIRoleToOpenAIRole] before the [switch]. *)
Theorem convertMessages_only_error (messages : list Message) (e : error) :
  convertMessages messages = Err e ->
  e = ErrUnknownPartType /\
  exists m,
    In m messages /\
    Message_Role m = ai.RoleUser /\
    Exists (fun p => IsText p = false /\ IsMedia p = false) (Message_Content m).
Proof.
  induction messages as [|m messages IH]; [discriminate|].
  rewrite convertMessages_cons.
  destruct (convertMessage m) as [new|e'|] eqn:Hm; simpl; try discriminate.
  - destruct (convertMessages messages) as [rest|e'|]; simpl; try discriminate.
    intros [= ->]. destruct (IH eq_refl) as (He & m' & Hin & Hrest).
    split; [exact He|]. exists m'. split; [right; exact Hin | exact Hrest].
  - intros [= ->]. destruct (convertMessage_error m e Hm) as (He & Hrest).
    split; [exact He|]. exists m. split; [left; reflexivity | exact Hrest].
Qed.

End MessagesSide.

(** ** The request translator, as a whole *)
Section RequestMore.

Context {codec : JSONCodec}.

Lemma convertTool_cases (t : ToolDefinition) :
  (exists parameters,
      json_Marshal (ToolDefinition_InputSchema t) = Some parameters /\
      convertTool t =
        Ok {| Tool_Type := goopenai.ToolTypeFunction;
              Tool_Function :=
                Some {| FunctionDefinition_Name := ToolDefinition_Name t;
                        FunctionDefinition_Description := ToolDefinition_Description t;
                        FunctionDefinition_Parameters := parameters |} |}) \/
  (json_Marshal (ToolDefinition_InputSchema t) = None /\
   convertTool t = Err ErrMarshalRaw).
Proof.
  unfold convertTool, mapToJSONRawMessage.
  destruct (json_Marshal (ToolDefinition_InputSchema t)) as [parameters|]; simpl; eauto.
Qed.

(** X7. When every input schema encodes, [convertTools] returns one
    vendor tool per tool definition, in order, of type function, with the
    name and the description of the definition and its encoded input
    schema as parameters. When some input schema does not encode it
    returns the marshalling error; it does not panic. *)
Theorem convertTools_outcome (inTools : list ToolDefinition) :
  (Forall (fun t => is_Some (json_Marshal (ToolDefinition_InputSchema t))) inTools ->
   exists outTools,
     convertTools inTools = Ok outTools /\
     Forall2 (fun t o =>
                exists parameters,
                  json_Marshal (ToolDefinition_InputSchema t) = Some parameters /\
                  o = {| Tool_Type := goopenai.ToolTypeFunction;
                         Tool_Function :=
                           Some {| FunctionDefinition_Name := ToolDefinition_Name t;
                                   FunctionDefinition_Description :=
                                     ToolDefinition_Description t;
                                   FunctionDefinition_Parameters := parameters |} |})
             inTools outTools) /\
  (Exists (fun t => json_Marshal (ToolDefinition_InputSchema t) = None) inTools ->
   convertTools inTools = Err ErrMarshalRaw).
Proof.
  unfold convertTools. split.
  - intros Hall.
    destruct (eachM_returns convertTool inTools) as [outTools Hout].
    { intros t Hin. rewrite Forall_forall in Hall.
      destruct (Hall t (proj2 (list_elem_of_In _ _) Hin)) as [parameters Hp].
      destruct (convertTool_cases t) as [(q & _ & ->)|[Hnone _]]; [eauto | congruence]. }
    exists outTools. split; [exact Hout|].
    apply eachM_Ok_iff in Hout. eapply Forall2_impl; [exact Hout|].
    intros t o Ho. cbn beta in Ho.
    destruct (convertTool_cases t) as [(q & Hq & Ht)|[_ Ht]]; rewrite Ht in Ho;
      [|discriminate].
    injection Ho as <-. eauto.
  - intros Hbad. apply eachM_single_error.
    + intros t _. destruct (convertTool_cases t) as [(q & _ & ->)|[_ ->]]; auto.
    + eapply Exists_impl; [exact Hbad|]. intros t Hnone.
      destruct (convertTool_cases t) as [(q & Hq & _)|[_ Ht]]; [congruence | exact Ht].
Qed.

Lemma applyOutput_keeps_rest (model : string) (output : option GenerateRequestOutput)
    (r r' : ChatCompletionRequest) :
  applyOutput model output r = Ok r' ->
  ChatCompletionRequest_Model r' = ChatCompletionRequest_Model r /\
  ChatCompletionRequest_Messages r' = ChatCompletionRequest_Messages r /\
  ChatCompletionRequest_N r' = ChatCompletionRequest_N r /\
  ChatCompletionRequest_Tools r' = ChatCompletionRequest_Tools r.
Proof.
  unfold applyOutput.
  destruct output as [out|]; [|intros [= <-]; auto].
  destruct (negb _ && _); [|intros [= <-]; auto].
  destruct (String.eqb _ ai.OutputFormatJSON); [intros [= <-]; auto|].
  destruct (String.eqb _ ai.OutputFormatText); [intros [= <-]; auto|].
  discriminate.
Qed.

Lemma applyConfig_keeps_rest (config : ai.Config) (r : ChatCompletionRequest) :
  ChatCompletionRequest_Model (applyConfig config r) = ChatCompletionRequest_Model r /\
  ChatCompletionRequest_Messages (applyConfig config r) = ChatCompletionRequest_Messages r /\
  ChatCompletionRequest_N (applyConfig config r) = ChatCompletionRequest_N r /\
  ChatCompletionRequest_Tools (applyConfig config r) = ChatCompletionRequest_Tools r.
Proof.
  destruct config as [|[c|]|]; simpl; auto.
  destruct (negb _), (0 <? _)%nat, (Float.nonzero (ai.Temperature c)),
    (Float.nonzero (ai.TopP c)); auto.
Qed.

(** X8. The request that [convertRequest] returns names the model it was
    given, asks for as many completions as the request has candidates, and
    carries the messages and the tools that [convertMessages] and
    [convertTools] return for the request: neither the config nor the
    output format changes these four fields. *)
Theorem convertRequest_carries (model : string) (input : GenerateRequest)
    (req : ChatCompletionRequest) :
  convertRequest model input = Ok req ->
  ChatCompletionRequest_Model req = model /\
  ChatCompletionRequest_N req = Request_Candidates input /\
  convertMessages (Request_Messages input) = Ok (ChatCompletionRequest_Messages req) /\
  convertTools (Request_Tools input) = Ok (ChatCompletionRequest_Tools req).
Proof.
  intros Hreq. apply convertRequest_Ok_steps in Hreq.
  destruct Hreq as (messages & tools & Hm & Ht & Hout).
  apply applyOutput_keeps_rest in Hout. destruct Hout as (-> & -> & -> & ->).
  destruct (applyConfig_keeps_rest (Request_Config input)
              (baseRequest model input messages tools)) as (-> & -> & -> & ->).
  simpl. auto.
Qed.

(** X9. Without a usable config, that is when the config of the request
    is nil, is a nil pointer to a [GenerationCommonConfig], or is a value
    of another type, the returned request has the four config fields at
    their zero values. *)
Theorem convertRequest_without_config (model : string) (input : GenerateRequest)
    (req : ChatCompletionRequest) :
  Request_Config input = ai.ConfigNil \/
  Request_Config input = ai.ConfigCommon None \/
  Request_Config input = ai.ConfigOther ->
  convertRequest model input = Ok req ->
  ChatCompletionRequest_MaxTokens req = 0 /\
  ChatCompletionRequest_Stop req = [] /\
  ChatCompletionRequest_Temperature req = Float.zero /\
  ChatCompletionRequest_TopP req = Float.zero.
Proof.
  intros Hconfig Hreq. apply convertRequest_Ok_steps in Hreq.
  destruct Hreq as (messages & tools & _ & _ & Hout).
  apply applyOutput_keeps in Hout. destruct Hout as (-> & -> & -> & ->).
  destruct Hconfig as [->|[->| ->]]; simpl; auto.
Qed.

(** X10. A request without an output specification, or with one whose
    format is the empty string, is converted for every model whenever its
    messages and tools convert, and the returned request has no response
    format. *)
Theorem convertRequest_no_format (model : string) (input : GenerateRequest)
    (messages : list ChatCompletionMessage) (tools : list Tool) :
  Request_Output input = None \/
  (exists out, Request_Output input = Some out /\ Output_Format out = EmptyString) ->
  convertMessages (Request_Messages input) = Ok messages ->
  convertTools (Request_Tools input) = Ok tools ->
  exists req,
    convertRequest model input = Ok req /\
    ChatCompletionRequest_ResponseFormat req = None.
Proof.
  intros Houtput Hm Ht.
  rewrite (convertRequest_steps model input messages tools Hm Ht).
  destruct Houtput as [->|(out & -> & Hformat)]; unfold applyOutput.
  - eexists. split; [reflexivity|]. apply applyConfig_keeps_format.
  - rewrite Hformat. simpl. eexists. split; [reflexivity|].
    apply applyConfig_keeps_format.
Qed.

Lemma applyOutput_isOk (model : string) (output : option GenerateRequestOutput)
    (r : ChatCompletionRequest) :
  isOk (applyOutput model output r) = negb (formatRefused model output) /\
  isPanic (applyOutput model output r) = false.
Proof.
  unfold applyOutput, formatRefused.
  destruct output as [out|]; [|auto].
  destruct (String.eqb (Output_Format out) EmptyString),
    (slices_Contains modelsSupportingResponseFormats model),
    (String.eqb (Output_Format out) ai.OutputFormatJSON),
    (String.eqb (Output_Format out) ai.OutputFormatText); simpl; auto.
Qed.

(** X11. [convertRequest] panics exactly when [convertMessages] does,
    and it returns a request exactly when the messages convert, the tools
    convert, and the output format is not refused, that is unless the
    model is listed in [modelsSupportingResponseFormats] and the format is
    none of the empty string, JSON and text. *)
Theorem convertRequest_outcome (model : string) (input : GenerateRequest) :
  isPanic (convertRequest model input)
    = isPanic (convertMessages (Request_Messages input)) /\
  isOk (convertRequest model input)
    = isOk (convertMessages (Request_Messages input))
      && isOk (convertTools (Request_Tools input))
      && negb (formatRefused model (Request_Output input)).
Proof.
  unfold convertRequest.
  destruct (convertMessages (Request_Messages input)) as [messages| |]; simpl; auto.
  pose proof (convertTools_no_panic (Request_Tools input)) as Htools.
  destruct (convertTools (Request_Tools input)) as [tools| |]; simpl in *;
    try discriminate; auto.
  destruct (applyOutput_isOk model (Request_Output input)
              (applyConfig (Request_Config input)
                 (baseRequest model input messages tools))) as [-> ->].
  auto.
Qed.

(** X12. The revision of [convertRequest] that sets the type of the
    response format only fails on the same inputs with the same error or
    panic, and otherwise returns the request of the other revision with
    the schema taken out of its response format. *)
Theorem convertRequest_typeOnly_agrees (model : string) (input : GenerateRequest) :
  convertRequest_typeOnly model input =
    (req ← convertRequest model input; Ok (withoutSchema req)).
Proof.
  unfold convertRequest_typeOnly, convertRequest.
  destruct (convertMessages (Request_Messages input)) as [messages| |]; simpl;
    try reflexivity.
  destruct (convertTools (Request_Tools input)) as [tools| |]; simpl; try reflexivity.
  set (r := applyConfig (Request_Config input) (baseRequest model input messages tools)).
  assert (ChatCompletionRequest_ResponseFormat r = None) as Hformat
    by (subst r; rewrite applyConfig_keeps_format; reflexivity).
  unfold applyOutput_typeOnly, applyOutput, withoutSchema.
  destruct (Request_Output input) as [out|]; simpl.
  - destruct (negb _ && _); simpl.
    + destruct (String.eqb (Output_Format out) ai.OutputFormatJSON); simpl;
        [reflexivity|].
      destruct (String.eqb (Output_Format out) ai.OutputFormatText); simpl;
        reflexivity.
    + rewrite Hformat. destruct r; simpl in *. subst. reflexivity.
  - rewrite Hformat. destruct r; simpl in *. subst. reflexivity.
Qed.

(** X13. The test for a set [Temperature] or [TopP] is a comparison with
    zero: a NaN and an infinity compare unequal to zero and are forwarded
    as they are, and a negative zero compares equal to zero and is not
    forwarded, so that the vendor field holds the positive zero. *)
Theorem convertRequest_special_temperatures (model : string) (input : GenerateRequest)
    (c : ai.GenerationCommonConfig) (req : ChatCompletionRequest) :
  Request_Config input = ai.ConfigCommon (Some c) ->
  convertRequest model input = Ok req ->
  (ai.Temperature c = S754_nan ->
     ChatCompletionRequest_Temperature req = S754_nan) /\
  (forall s, ai.Temperature c = S754_infinity s ->
     ChatCompletionRequest_Temperature req = S754_infinity s) /\
  (ai.Temperature c = S754_zero true ->
     ChatCompletionRequest_Temperature req = S754_zero false) /\
  (ai.TopP c = S754_nan -> ChatCompletionRequest_TopP req = S754_nan) /\
  (forall s, ai.TopP c = S754_infinity s ->
     ChatCompletionRequest_TopP req = S754_infinity s) /\
  (ai.TopP c = S754_zero true -> ChatCompletionRequest_TopP req = S754_zero false).
Proof.
  intros Hconfig Hreq.
  apply convertRequest_Ok_steps in Hreq.
  destruct Hreq as (messages & tools & _ & _ & Hout).
  apply applyOutput_keeps in Hout. destruct Hout as (_ & _ & -> & ->).
  rewrite Hconfig.
  destruct (applyConfig_fields c (baseRequest model input messages tools))
    as (_ & _ & -> & ->).
  repeat apply conj.
  - intros ->. reflexivity.
  - intros [|] ->; reflexivity.
  - intros ->. reflexivity.
  - intros ->. reflexivity.
  - intros [|] ->; reflexivity.
  - intros ->. reflexivity.
Qed.

End RequestMore.

(** ** The response translator, as a whole *)
Section ResponseMore.

Context {codec : JSONCodec}.

(** X14. Read in the other direction, the role tables agree on the four
    vendor roles user, assistant, system and tool: [toOpenAIRole] maps
    each to a role that [fromAIRoleToOpenAIRole] maps back to it. The
    vendor role function is mapped to the tool role as well, so that it
    comes back as tool; every other vendor role is a panic of
    [toOpenAIRole]. *)
Theorem vendor_role_round_trip :
  (forall v : string,
      In v [goopenai.ChatMessageRoleUser; goopenai.ChatMessageRoleAssistant;
            goopenai.ChatMessageRoleSystem; goopenai.ChatMessageRoleTool] ->
      exists r, toOpenAIRole v = Ok r /\ fromAIRoleToOpenAIRole r = Ok v) /\
  (exists r, toOpenAIRole goopenai.ChatMessageRoleFunction = Ok r /\
             fromAIRoleToOpenAIRole r = Ok goopenai.ChatMessageRoleTool) /\
  (forall v : string,
      ~ In v [goopenai.ChatMessageRoleUser; goopenai.ChatMessageRoleAssistant;
              goopenai.ChatMessageRoleSystem; goopenai.ChatMessageRoleTool;
              goopenai.ChatMessageRoleFunction] ->
      toOpenAIRole v = Panic (PanicUnknownRole v)).
Proof.
  split; [|split].
  - intros v Hv. simpl in Hv.
    destruct Hv as [<-|[<-|[<-|[<-|[]]]]]; eexists; split; reflexivity.
  - eexists; split; reflexivity.
  - intros v Hv. unfold toOpenAIRole.
    destruct (String.eqb_spec v goopenai.ChatMessageRoleUser) as [->|_]; [listed Hv|].
    destruct (String.eqb_spec v goopenai.ChatMessageRoleAssistant) as [->|_]; [listed Hv|].
    destruct (String.eqb_spec v goopenai.ChatMessageRoleSystem) as [->|_]; [listed Hv|].
    destruct (String.eqb_spec v goopenai.ChatMessageRoleTool) as [->|_]; [listed Hv|].
    destruct (String.eqb_spec v goopenai.ChatMessageRoleFunction) as [->|_]; [listed Hv|].
    reflexivity.
Qed.

Lemma translateCandidate_plain (choice : ChatCompletionChoice) (jsonMode : bool) :
  ChatCompletionMessage_ToolCalls (Choice_Message choice) = [] ->
  translateCandidate choice jsonMode =
    Ok {| Candidate_Index := Choice_Index choice;
          Candidate_FinishReason := translateFinishReason (Choice_FinishReason choice);
          Candidate_Message :=
            {| Message_Role := ai.RoleModel;
               Message_Content :=
                 if jsonMode
                 then [DataPart (ChatCompletionMessage_Content (Choice_Message choice))]
                 else [TextPart (ChatCompletionMessage_Content (Choice_Message choice))]
            |} |}.
Proof.
  intros Hnone. unfold translateCandidate. rewrite Hnone. reflexivity.
Qed.

Lemma translateCandidate_index (choice : ChatCompletionChoice) (jsonMode : bool)
    (c : Candidate) :
  translateCandidate choice jsonMode = Ok c ->
  Candidate_Index c = Choice_Index choice.
Proof.
  unfold translateCandidate.
  destruct (eachM toolRequestPartOfCall _) as [parts| |]; simpl; try discriminate.
  destruct (0 <? length parts)%nat; intros [= <-]; reflexivity.
Qed.

(** X15. A candidate that [translateCandidate] returns has the index of
    the choice and a message of role model with at least one part: either
    nothing but tool requests, as many as the choice has tool calls, or
    the single text or data part. *)
Theorem translateCandidate_shape (choice : ChatCompletionChoice) (jsonMode : bool)
    (c : Candidate) :
  translateCandidate choice jsonMode = Ok c ->
  Candidate_Index c = Choice_Index choice /\
  Message_Role (Candidate_Message c) = ai.RoleModel /\
  Message_Content (Candidate_Message c) <> [] /\
  ((ChatCompletionMessage_ToolCalls (Choice_Message choice) <> [] /\
    length (Message_Content (Candidate_Message c)) =
      length (ChatCompletionMessage_ToolCalls (Choice_Message choice)) /\
    Forall (fun p => IsToolRequest p = true) (Message_Content (Candidate_Message c))) \/
   (ChatCompletionMessage_ToolCalls (Choice_Message choice) = [] /\
    Message_Content (Candidate_Message c) =
      [ if jsonMode
        then DataPart (ChatCompletionMessage_Content (Choice_Message choice))
        else TextPart (ChatCompletionMessage_Content (Choice_Message choice)) ])).
Proof.
  unfold translateCandidate.
  destruct (eachM toolRequestPartOfCall _) as [parts| |] eqn:Hparts; simpl;
    try discriminate.
  pose proof (eachM_Ok_length _ _ _ Hparts) as Hlen.
  apply eachM_Ok_iff in Hparts.
  destruct parts as [|part parts]; simpl.
  - intros [= <-]. simpl.
    destruct (ChatCompletionMessage_ToolCalls (Choice_Message choice)); [|discriminate].
    repeat split; [destruct jsonMode; discriminate|].
    right. split; [reflexivity|]. destruct jsonMode; reflexivity.
  - intros [= <-]. simpl. repeat split; [discriminate|].
    left. split; [|split].
    + destruct (ChatCompletionMessage_ToolCalls (Choice_Message choice)); discriminate.
    + exact Hlen.
    + clear Hlen. induction Hparts as [|call p calls ps Hp _ IH]; constructor.
      * apply toolRequestPartOfCall_Ok in Hp. destruct Hp as (input & _ & ->).
        reflexivity.
      * exact IH.
Qed.

(** What decides the outcome of [translateCandidate]: whether the
    arguments of the tool calls decode. *)
Lemma translateCandidate_outcome (choice : ChatCompletionChoice) (jsonMode : bool) :
  match translateCandidate choice jsonMode with
  | Ok _ =>
      Forall (fun call =>
                is_Some (json_Unmarshal (FunctionCall_Arguments (ToolCall_Function call))))
             (ChatCompletionMessage_ToolCalls (Choice_Message choice))
  | Err _ => False
  | Panic _ =>
      exists call,
        In call (ChatCompletionMessage_ToolCalls (Choice_Message choice)) /\
        json_Unmarshal (FunctionCall_Arguments (ToolCall_Function call)) = None
  end.
Proof.
  unfold translateCandidate.
  destruct (eachM toolRequestPartOfCall _) as [parts|e|p] eqn:Hparts; simpl.
  - assert (Forall (fun call =>
                      is_Some (json_Unmarshal
                                 (FunctionCall_Arguments (ToolCall_Function call))))
                   (ChatCompletionMessage_ToolCalls (Choice_Message choice))) as Hdec.
    { apply Forall_forall. intros call Hin. apply list_elem_of_In in Hin.
      destruct (eachM_Ok_In _ _ _ Hparts call Hin) as [part Hpart].
      apply toolRequestPartOfCall_Ok in Hpart. destruct Hpart as (input & -> & _).
      eauto. }
    destruct (0 <? length parts)%nat; exact Hdec.
  - apply eachM_Err in Hparts. destruct Hparts as (call & _ & Hcall).
    pose proof (toolRequestPartOfCall_cases call) as Hc.
    rewrite Hcall in Hc. exact Hc.
  - apply eachM_Panic in Hparts. destruct Hparts as (call & Hin & Hcall).
    pose proof (toolRequestPartOfCall_cases call) as Hc.
    rewrite Hcall in Hc. destruct Hc as [Hnone _]. eauto.
Qed.

Lemma translateCandidate_returns (choice : ChatCompletionChoice) (jsonMode : bool) :
  Forall (fun call =>
            is_Some (json_Unmarshal (FunctionCall_Arguments (ToolCall_Function call))))
         (ChatCompletionMessage_ToolCalls (Choice_Message choice)) ->
  exists c, translateCandidate choice jsonMode = Ok c.
Proof.
  intros Hdec. pose proof (translateCandidate_outcome choice jsonMode) as Hcase.
  destruct (translateCandidate choice jsonMode) as [c|e|p]; [eauto | destruct Hcase |].
  destruct Hcase as (call & Hin & Hnone). rewrite Forall_forall in Hdec.
  destruct (Hdec call (proj2 (list_elem_of_In _ _) Hin)). congruence.
Qed.

Lemma translateResponse_Ok (resp : ChatCompletionResponse) (jsonMode : bool)
    (r : GenerateResponse) :
  translateResponse resp jsonMode = Ok r ->
  Forall2 (fun choice c => translateCandidate choice jsonMode = Ok c)
          (ChatCompletionResponse_Choices resp) (Response_Candidates r) /\
  Response_Usage r =
    {| ai.InputTokens := Usage_PromptTokens (ChatCompletionResponse_Usage resp);
       ai.OutputTokens := Usage_CompletionTokens (ChatCompletionResponse_Usage resp);
       ai.TotalTokens := Usage_TotalTokens (ChatCompletionResponse_Usage resp) |} /\
  Response_Custom r = resp /\
  Response_Request r = None.
Proof.
  unfold translateResponse.
  destruct (eachM (fun c => translateCandidate c jsonMode) _) as [cs| |] eqn:Hcs;
    simpl; try discriminate.
  intros [= <-]. simpl. apply eachM_Ok_iff in Hcs. auto.
Qed.

Lemma translateResponse_total (resp : ChatCompletionResponse) (jsonMode : bool) :
  Forall (fun choice =>
            Forall (fun call =>
                      is_Some (json_Unmarshal
                                 (FunctionCall_Arguments (ToolCall_Function call))))
                   (ChatCompletionMessage_ToolCalls (Choice_Message choice)))
         (ChatCompletionResponse_Choices resp) ->
  exists r, translateResponse resp jsonMode = Ok r.
Proof.
  intros Hdec. unfold translateResponse.
  destruct (eachM_returns (fun c => translateCandidate c jsonMode)
              (ChatCompletionResponse_Choices resp)) as [candidates Hcs].
  { intros choice Hin. rewrite Forall_forall in Hdec.
    apply translateCandidate_returns.
    apply Hdec. apply list_elem_of_In. exact Hin. }
  rewrite Hcs. simpl. eauto.
Qed.

(** X16. When the arguments of every tool call of every choice decode,
    [translateResponse] returns a response with one candidate per choice,
    in order and with the index of the choice, each the translation of its
    choice; the usage is the prompt, completion and total token count of
    the vendor, the vendor response is kept as the custom value, and the
    request is not yet set. *)
Theorem translateResponse_returns (resp : ChatCompletionResponse) (jsonMode : bool) :
  Forall (fun choice =>
            Forall (fun call =>
                      is_Some (json_Unmarshal
                                 (FunctionCall_Arguments (ToolCall_Function call))))
                   (ChatCompletionMessage_ToolCalls (Choice_Message choice)))
         (ChatCompletionResponse_Choices resp) ->
  exists r,
    translateResponse resp jsonMode = Ok r /\
    Forall2 (fun choice c => translateCandidate choice jsonMode = Ok c)
            (ChatCompletionResponse_Choices resp) (Response_Candidates r) /\
    map Candidate_Index (Response_Candidates r)
      = map Choice_Index (ChatCompletionResponse_Choices resp) /\
    Response_Usage r =
      {| ai.InputTokens := Usage_PromptTokens (ChatCompletionResponse_Usage resp);
         ai.OutputTokens := Usage_CompletionTokens (ChatCompletionResponse_Usage resp);
         ai.TotalTokens := Usage_TotalTokens (ChatCompletionResponse_Usage resp) |} /\
    Response_Custom r = resp /\
    Response_Request r = None.
Proof.
  intros Hdec. unfold translateResponse.
  destruct (eachM_returns (fun c => translateCandidate c jsonMode)
              (ChatCompletionResponse_Choices resp)) as [candidates Hcs].
  { intros choice Hin. rewrite Forall_forall in Hdec.
    apply translateCandidate_returns.
    apply Hdec. apply list_elem_of_In. exact Hin. }
  rewrite Hcs. simpl. eexists. split; [reflexivity|]. simpl.
  apply eachM_Ok_iff in Hcs.
  split; [exact Hcs|]. split; [|auto].
  clear Hdec.
  induction Hcs as [|choice c choices cs Hc _ IH]; simpl; [reflexivity|].
  f_equal; [|exact IH].
  exact (translateCandidate_index _ _ _ Hc).
Qed.

(** X17. [translateResponse] never returns an error, and it panics
    exactly when some tool call of some choice has arguments that do not
    decode. *)
Theorem translateResponse_failure (resp : ChatCompletionResponse) (jsonMode : bool) :
  (forall e, translateResponse resp jsonMode <> Err e) /\
  (isPanic (translateResponse resp jsonMode) = true <->
   exists choice call,
     In choice (ChatCompletionResponse_Choices resp) /\
     In call (ChatCompletionMessage_ToolCalls (Choice_Message choice)) /\
     json_Unmarshal (FunctionCall_Arguments (ToolCall_Function call)) = None).
Proof.
  unfold translateResponse.
  destruct (eachM (fun c => translateCandidate c jsonMode) _)
    as [candidates|e|p] eqn:Hcs; simpl.
  - split; [discriminate|]. split; [discriminate|].
    intros (choice & call & Hchoice & Hcall & Hnone). exfalso.
    destruct (eachM_Ok_In _ _ _ Hcs choice Hchoice) as [c Hc]. cbn beta in Hc.
    pose proof (translateCandidate_outcome choice jsonMode) as Hcase.
    rewrite Hc in Hcase. rewrite Forall_forall in Hcase.
    destruct (Hcase call (proj2 (list_elem_of_In _ _) Hcall)). congruence.
  - exfalso. apply eachM_Err in Hcs. destruct Hcs as (choice & _ & Hc).
    pose proof (translateCandidate_outcome choice jsonMode) as Hcase.
    cbn beta in Hc. rewrite Hc in Hcase. exact Hcase.
  - split; [discriminate|]. split; [|reflexivity].
    intros _. apply eachM_Panic in Hcs. destruct Hcs as (choice & Hin & Hc).
    pose proof (translateCandidate_outcome choice jsonMode) as Hcase.
    cbn beta in Hc. rewrite Hc in Hcase. destruct Hcase as (call & Hcall & Hnone).
    exists choice, call. auto.
Qed.

End ResponseMore.

(** ** The generation entry point, as a whole *)
Section GenerationMore.

Context {codec : JSONCodec} {rt : Runtime}.

Variable W : Type.
Variable vendor :
  option Client -> context_Context -> ChatCompletionRequest -> W ->
  outcome ChatCompletionResponse * W.
Variable call :
  Callback -> context_Context -> GenerateResponseChunk -> W -> option error * W.

(** X18. When the request does not translate, [generate] returns the
    error of the translation, or panics with its panic, without calling
    the vendor: the world is left as it was. *)
Theorem generate_translation_failure (ctx : context_Context) (client : option Client)
    (model : string) (input : GenerateRequest) (cb : Callback)
    (w : W) (delivered : list (Callback * GenerateResponseChunk)) :
  (forall e, convertRequest model input = Err e ->
     run W vendor call (generate ctx client model input cb) w delivered
     = (Err e, w, delivered)) /\
  (forall p, convertRequest model input = Panic p ->
     run W vendor call (generate ctx client model input cb) w delivered
     = (Panic p, w, delivered)).
Proof.
  unfold generate. split; intros x ->; reflexivity.
Qed.

(** X19. When the request translates, [generate] calls the vendor once,
    with the client and the context it was given and with the translated
    request, and the world after [generate] is the world after that call.
    An error or a panic of the call is the result of [generate],
    unchanged; no second call is made. *)
Theorem generate_vendor_failure (ctx : context_Context) (client : option Client)
    (model : string) (input : GenerateRequest) (cb : Callback)
    (req : ChatCompletionRequest)
    (w : W) (delivered : list (Callback * GenerateResponseChunk)) :
  convertRequest model input = Ok req ->
  snd (fst (run W vendor call (generate ctx client model input cb) w delivered))
    = snd (vendor client ctx req w) /\
  (forall e, fst (vendor client ctx req w) = Err e ->
     fst (fst (run W vendor call (generate ctx client model input cb) w delivered))
     = Err e) /\
  (forall p, fst (vendor client ctx req w) = Panic p ->
     fst (fst (run W vendor call (generate ctx client model input cb) w delivered))
     = Panic p).
Proof.
  intros Hreq. unfold generate. rewrite Hreq. simpl.
  destruct (vendor client ctx req w) as [[resp|e|p] w']; simpl;
    repeat split; intros x [=]; subst; reflexivity.
Qed.

(** X20. When the request translates, the vendor answers with a
    response, and the arguments of all tool calls in it decode, [generate]
    returns a response whose request is the request it was given, whose
    custom value is the vendor response, whose usage is the token counts
    of the vendor, and whose candidates are the translations of the
    choices, in JSON mode exactly when the output format of the request is
    JSON. *)
Theorem generate_returns (ctx : context_Context) (client : option Client)
    (model : string) (input : GenerateRequest) (cb : Callback)
    (req : ChatCompletionRequest) (resp : ChatCompletionResponse)
    (w : W) (delivered : list (Callback * GenerateResponseChunk)) :
  convertRequest model input = Ok req ->
  fst (vendor client ctx req w) = Ok resp ->
  Forall (fun choice =>
            Forall (fun call =>
                      is_Some (json_Unmarshal
                                 (FunctionCall_Arguments (ToolCall_Function call))))
                   (ChatCompletionMessage_ToolCalls (Choice_Message choice)))
         (ChatCompletionResponse_Choices resp) ->
  exists r,
    fst (fst (run W vendor call (generate ctx client model input cb) w delivered))
      = Ok r /\
    Response_Request r = Some input /\
    Response_Custom r = resp /\
    Response_Usage r =
      {| ai.InputTokens := Usage_PromptTokens (ChatCompletionResponse_Usage resp);
         ai.OutputTokens := Usage_CompletionTokens (ChatCompletionResponse_Usage resp);
         ai.TotalTokens := Usage_TotalTokens (ChatCompletionResponse_Usage resp) |} /\
    Forall2 (fun choice c => translateCandidate choice (jsonModeOf input) = Ok c)
            (ChatCompletionResponse_Choices resp) (Response_Candidates r).
Proof.
  intros Hreq Hanswer Hdec. unfold generate. rewrite Hreq. simpl.
  destruct (vendor client ctx req w) as [answer w']. simpl in Hanswer. subst answer.
  simpl.
  destruct (translateResponse_total resp (jsonModeOf input) Hdec) as [r Hr].
  rewrite Hr. simpl. eexists. split; [reflexivity|].
  destruct (translateResponse_Ok _ _ _ Hr) as (Hcs & Husage & Hcustom & _).
  simpl. auto.
Qed.

(** X21. JSON mode of the response does not depend on the model: for a
    model outside [modelsSupportingResponseFormats] and a request for JSON
    output, the request that goes to the vendor has no response format,
    and still every choice without tool calls comes back as one data part
    with the content of the choice. *)
Theorem generate_json_mode_unlisted_model (ctx : context_Context)
    (client : option Client) (model : string) (input : GenerateRequest)
    (cb : Callback) (out : GenerateRequestOutput)
    (req : ChatCompletionRequest) (resp : ChatCompletionResponse)
    (w : W) (delivered : list (Callback * GenerateResponseChunk)) :
  slices_Contains modelsSupportingResponseFormats model = false ->
  Request_Output input = Some out ->
  Output_Format out = ai.OutputFormatJSON ->
  convertRequest model input = Ok req ->
  fst (vendor client ctx req w) = Ok resp ->
  Forall (fun choice => ChatCompletionMessage_ToolCalls (Choice_Message choice) = [])
         (ChatCompletionResponse_Choices resp) ->
  ChatCompletionRequest_ResponseFormat req = None /\
  exists r,
    fst (fst (run W vendor call (generate ctx client model input cb) w delivered))
      = Ok r /\
    map (fun c => Message_Content (Candidate_Message c)) (Response_Candidates r)
      = map (fun choice =>
               [DataPart (ChatCompletionMessage_Content (Choice_Message choice))])
            (ChatCompletionResponse_Choices resp).
Proof.
  intros Hunlisted Hout Hformat Hreq Hanswer Hplain. split.
  - apply convertRequest_Ok_steps in Hreq.
    destruct Hreq as (messages & tools & _ & _ & Happly).
    rewrite Hout in Happly. unfold applyOutput in Happly.
    rewrite Hunlisted, andb_false_r in Happly. injection Happly as <-.
    apply applyConfig_keeps_format.
  - unfold generate. rewrite Hreq. simpl.
    destruct (vendor client ctx req w) as [answer w']. simpl in Hanswer. subst answer.
    simpl.
    assert (jsonModeOf input = true) as ->
      by (unfold jsonModeOf; rewrite Hout, Hformat; reflexivity).
    unfold translateResponse.
    assert (exists cs,
               eachM (fun c => translateCandidate c true)
                     (ChatCompletionResponse_Choices resp) = Ok cs /\
               map (fun c => Message_Content (Candidate_Message c)) cs
               = map (fun choice =>
                        [DataPart (ChatCompletionMessage_Content (Choice_Message choice))])
                     (ChatCompletionResponse_Choices resp)) as (cs & Hcs & Hparts).
    { induction Hplain as [|choice choices Hchoice _ (cs & Hcs & Hparts)].
      - exists []. split; reflexivity.
      - cbn [eachM]. rewrite (translateCandidate_plain choice true Hchoice).
        simpl. rewrite Hcs. simpl. eexists. split; [reflexivity|].
        simpl. rewrite Hparts. reflexivity. }
    rewrite Hcs. simpl. eexists. split; [reflexivity|]. exact Hparts.
Qed.

End GenerationMore.

(** ** The registry, over sequences of calls *)
Section RegistryMore.

Context {codec : JSONCodec} {rt : Runtime} {host : HostFramework}
        {presets : CapabilityPresets}.

(** X22. Where [Init] takes the key from. Before the plugin is
    initialised, a key in the config is the key of the client, whatever
    the environment holds; without a config, or with an empty key in it,
    the value of the environment variable is the key; and when that is
    empty too, [Init] returns the wrapped missing-key error and leaves the
    world as it was, so that it can be called again. Once a key is found
    the plugin is initialised with the client for that key, also when a
    registration with the host panics afterwards. *)
Theorem Init_key (getenv : string -> string) (ctx : context_Context)
    (cfg : option Config) (w : World) :
  state_initted (world_state w) = false ->
  (forall c, cfg = Some c -> Config_APIKey c <> EmptyString ->
     world_state (snd (Init getenv ctx cfg w))
     = {| state_initted := true;
          state_client := Some (NewClient (Config_APIKey c)) |}) /\
  (cfg = None \/ cfg = Some {| Config_APIKey := EmptyString |} ->
   getenv apiKeyEnv <> EmptyString ->
     world_state (snd (Init getenv ctx cfg w))
     = {| state_initted := true;
          state_client := Some (NewClient (getenv apiKeyEnv)) |}) /\
  (cfg = None \/ cfg = Some {| Config_APIKey := EmptyString |} ->
   getenv apiKeyEnv = EmptyString ->
     Init getenv ctx cfg w = (Err (ErrInit provider (ErrNoAPIKey apiKeyEnv)), w)).
Proof.
  intros Hfresh. unfold Init. rewrite Hfresh. split; [|split].
  - intros c -> Hkey. apply String.eqb_neq in Hkey. rewrite Hkey, Hkey.
    destruct (defineKnownModels (world_host w)). reflexivity.
  - intros [->| ->] Henv; apply String.eqb_neq in Henv; simpl; rewrite Henv;
      destruct (defineKnownModels (world_host w)); reflexivity.
  - intros [->| ->] Henv; simpl; rewrite Henv; reflexivity.
Qed.

(** The two guards. On an initialised plugin every call of [Init]
    panics, with a message that says Init was not called, and on a plugin
    that is not initialised every call of [DefineModel] panics with the
    same message; both leave the world as it was. *)
Lemma registry_guards (w : World) :
  (state_initted (world_state w) = true ->
   forall getenv ctx cfg,
     Init getenv ctx cfg w = (Panic (PanicInitTwice "openai.Init not called"), w)) /\
  (state_initted (world_state w) = false ->
   forall name caps,
     DefineModel name caps w = (Panic (PanicInitNotCalled "openai.Init not called"), w)).
Proof.
  split; intros Hstate; intros.
  - unfold Init. rewrite Hstate. reflexivity.
  - unfold DefineModel. rewrite Hstate. reflexivity.
Qed.

Lemma afterCall_state (w : World) (c : call) :
  state_initted (world_state w) = true ->
  world_state (afterCall w c) = world_state w.
Proof.
  intros Hstate. destruct c as [getenv ctx cfg|name caps]; simpl.
  - unfold Init. rewrite Hstate. reflexivity.
  - unfold DefineModel. rewrite Hstate. simpl.
    destruct caps as [mc|].
    + destruct (defineModel name mc (world_host w)). reflexivity.
    + destruct (knownCaps !! name) as [mc|]; [|reflexivity].
      destruct (defineModel name mc (world_host w)). reflexivity.
Qed.

(** X23. Once the plugin is initialised its state does not change any
    more: after any sequence of calls of [Init] and [DefineModel],
    returning or panicking, the plugin is still initialised and the client
    is the one that the successful [Init] has created. *)
Theorem state_stable (w : World) (calls : list call) :
  state_initted (world_state w) = true ->
  world_state (afterCalls w calls) = world_state w.
Proof.
  unfold afterCalls. revert w. induction calls as [|c calls IH]; intros w Hstate.
  - reflexivity.
  - simpl. rewrite IH.
    + apply afterCall_state. exact Hstate.
    + rewrite afterCall_state; assumption.
Qed.

Lemma knownCaps_entries :
  map_to_list knownCaps ≡ₚ
    [ (goopenai.GPT4o, Multimodal); (goopenai.GPT4oMini, Multimodal);
      (goopenai.GPT4Turbo, Multimodal); (goopenai.GPT4, BasicText) ].
Proof.
  unfold knownCaps.
  rewrite map_to_list_insert by (rewrite !lookup_insert_ne by discriminate; apply lookup_empty).
  rewrite map_to_list_insert by (rewrite !lookup_insert_ne by discriminate; apply lookup_empty).
  rewrite map_to_list_insert by (rewrite !lookup_insert_ne by discriminate; apply lookup_empty).
  rewrite map_to_list_insert by apply lookup_empty.
  rewrite map_to_list_empty. reflexivity.
Qed.

(** X24. A successful [Init] has registered the four models of
    [knownCaps] with the host, each once and each with the capabilities of
    the table, in some order, and nothing else: the registry of the host
    is what these four registrations, all returning, make of the registry
    before. *)
Theorem Init_registers_known_models (getenv : string -> string)
    (ctx : context_Context) (cfg : option Config) (w0 w : World) :
  Init getenv ctx cfg w0 = (Ok tt, w) ->
  exists entries,
    entries ≡ₚ
      [ (goopenai.GPT4o, Multimodal); (goopenai.GPT4oMini, Multimodal);
        (goopenai.GPT4Turbo, Multimodal); (goopenai.GPT4, BasicText) ] /\
    defineEach entries (world_host w0) = (Returned tt, world_host w).
Proof.
  unfold Init.
  destruct (state_initted (world_state w0)); [discriminate|].
  destruct (String.eqb _ EmptyString); [discriminate|].
  unfold defineKnownModels.
  destruct (defineEach (map_to_list knownCaps) (world_host w0)) as [r h] eqn:Heach.
  intros [= Hr <-]. simpl.
  exists (map_to_list knownCaps). split; [apply knownCaps_entries|].
  rewrite Heach. destruct r as [[]|p]; [reflexivity | discriminate].
Qed.

End RegistryMore.

(** ** The first revision *)
Section LegacySide.

Context {codec : JSONCodec}.

Lemma legacy_each_Value_iff {A B : Type} (f : A -> Legacy.result B)
    (l : list A) (ys : list B) :
  Legacy.each f l = Legacy.Value ys <-> Forall2 (fun x y => f x = Legacy.Value y) l ys.
Proof.
  revert ys; induction l as [|x l IH]; intros ys; simpl.
  - split.
    + intros [= <-]. constructor.
    + intros Hf. inversion Hf. reflexivity.
  - split.
    + destruct (f x) as [y| |] eqn:Hx; simpl; try discriminate.
      destruct (Legacy.each f l) as [ys'| |] eqn:Hl; simpl; try discriminate.
      intros [= <-]. constructor; [exact Hx | apply IH; reflexivity].
    + intros Hf. inversion Hf as [|x' y l' ys' Hx Hl]; subst.
      rewrite Hx. simpl. apply IH in Hl. rewrite Hl. reflexivity.
Qed.

Lemma legacy_each_no_failure {A B : Type} (f : A -> Legacy.result B) (l : list A) :
  (forall x e, f x <> Legacy.Failure e) ->
  forall e, Legacy.each f l <> Legacy.Failure e.
Proof.
  intros Hf. induction l as [|x l IH]; intros e; simpl; [discriminate|].
  destruct (f x) as [y|e'|] eqn:Hx; simpl; try discriminate.
  - destruct (Legacy.each f l) as [ys|e'|] eqn:Hl; simpl; try discriminate.
    exfalso. exact (IH e' eq_refl).
  - exfalso. exact (Hf x e' Hx).
Qed.

Lemma legacy_each_returns {A B : Type} (f : A -> Legacy.result B) (l : list A) :
  (forall x, In x l -> exists y, f x = Legacy.Value y) ->
  exists ys, Legacy.each f l = Legacy.Value ys.
Proof.
  induction l as [|x l IH]; simpl; intros Hall.
  - eauto.
  - destruct (Hall x) as [y Hy]; [auto|].
    destruct IH as [ys Hys]; [auto|].
    exists (y :: ys). rewrite Hy. simpl. rewrite Hys. reflexivity.
Qed.

Lemma legacy_convertPart_cases (p : Part) :
  match p with
  | TextPart t =>
      Legacy.convertPart p =
        Legacy.Value (Legacy.namedMessage goopenai.ChatMessageRoleUser t EmptyString)
  | MediaPart _ _ => Legacy.convertPart p = Legacy.Panics Legacy.NotYetImplemented
  | DataPart _ =>
      Legacy.convertPart p = Legacy.Panics (Legacy.DataPartsUnsupported provider)
  | ToolResponsePart r =>
      Legacy.convertPart p =
        match json_Marshal (ToolResponse_Output r) with
        | Some content =>
            Legacy.Value (Legacy.namedMessage goopenai.ChatMessageRoleAssistant
                            content (ToolResponse_Name r))
        | None => Legacy.Panics (Legacy.Runtime PanicMarshal)
        end
  | ToolRequestPart r =>
      Legacy.convertPart p =
        match json_Marshal (ToolRequest_Input r) with
        | Some content =>
            Legacy.Value (Legacy.namedMessage goopenai.ChatMessageRoleAssistant
                            content (ToolRequest_Name r))
        | None => Legacy.Panics (Legacy.Runtime PanicMarshal)
        end
  end.
Proof.
  destruct p as [t|ct u|d|r|r]; try reflexivity;
    unfold Legacy.convertPart, mapToJSONString; simpl;
    destruct (json_Marshal _); reflexivity.
Qed.

(** X25. The first revision translates a message part by part, whatever
    the role of the message: a text becomes a vendor message of role user,
    a tool request and a tool response become a vendor message of role
    assistant with the encoded map as content and the tool name as name.
    Its error result is never set: a media part or a data part anywhere in
    the list is a panic, and so is a tool request or a tool response
    whose map does not encode. *)
Theorem legacy_convertParts_outcome (parts : list Part) :
  (forall e, Legacy.convertParts parts <> Legacy.Failure e) /\
  (Exists (fun p => IsMedia p = true \/ IsData p = true \/ ~ Legacy.toolMapEncodes p)
          parts ->
   exists p, Legacy.convertParts parts = Legacy.Panics p) /\
  (Forall (fun p => IsMedia p = false /\ IsData p = false) parts ->
   Forall Legacy.toolMapEncodes parts ->
   exists msgs,
     Legacy.convertParts parts = Legacy.Value msgs /\
     Forall2 (fun p msg =>
                match p with
                | TextPart t =>
                    msg = Legacy.namedMessage goopenai.ChatMessageRoleUser t EmptyString
                | ToolResponsePart r =>
                    exists content,
                      json_Marshal (ToolResponse_Output r) = Some content /\
                      msg = Legacy.namedMessage goopenai.ChatMessageRoleAssistant
                              content (ToolResponse_Name r)
                | ToolRequestPart r =>
                    exists content,
                      json_Marshal (ToolRequest_Input r) = Some content /\
                      msg = Legacy.namedMessage goopenai.ChatMessageRoleAssistant
                              content (ToolRequest_Name r)
                | _ => False
                end)
             parts msgs).
Proof.
  assert (forall p e, Legacy.convertPart p <> Legacy.Failure e) as Hno.
  { intros p e. pose proof (legacy_convertPart_cases p) as Hp.
    destruct p; rewrite Hp; try discriminate; destruct (json_Marshal _); discriminate. }
  unfold Legacy.convertParts. split; [|split].
  - apply legacy_each_no_failure. exact Hno.
  - intros Hbad.
    destruct (Legacy.each Legacy.convertPart parts) as [msgs|e|p] eqn:Heach.
    + exfalso. apply legacy_each_Value_iff in Heach.
      apply Exists_exists in Hbad. destruct Hbad as (p & Hin & Hp).
      apply list_elem_of_lookup in Hin. destruct Hin as [i Hi].
      destruct (Forall2_lookup_l _ _ _ _ _ Heach Hi) as (msg & _ & Hmsg).
      pose proof (legacy_convertPart_cases p) as Hcase.
      destruct p; simpl in Hp; destruct Hp as [Hp|[Hp|Hp]]; try discriminate;
        try (exfalso; exact (Hp I));
        rewrite Hcase in Hmsg; try discriminate;
        destruct (json_Marshal _) as [content|]; try discriminate;
        exfalso; apply Hp; eexists; reflexivity.
    + exfalso. exact (legacy_each_no_failure _ _ Hno e Heach).
    + eauto.
  - intros Hkinds Hencodes.
    destruct (legacy_each_returns Legacy.convertPart parts) as [msgs Hmsgs].
    { intros p Hin. apply list_elem_of_In in Hin.
      rewrite Forall_forall in Hkinds, Hencodes.
      specialize (Hkinds p Hin). specialize (Hencodes p Hin).
      pose proof (legacy_convertPart_cases p) as Hcase.
      destruct p; simpl in *; rewrite Hcase; try (destruct Hkinds; discriminate);
        eauto; destruct Hencodes as [content ->]; eauto. }
    exists msgs. split; [exact Hmsgs|].
    apply legacy_each_Value_iff in Hmsgs. eapply Forall2_impl; [exact Hmsgs|].
    intros p msg Hp. cbn beta in Hp.
    pose proof (legacy_convertPart_cases p) as Hcase. rewrite Hp in Hcase.
    destruct p; try discriminate Hcase.
    + injection Hcase as ->. reflexivity.
    + destruct (json_Marshal _) as [content|]; [|discriminate].
      injection Hcase as ->. eauto.
    + destruct (json_Marshal _) as [content|]; [|discriminate].
      injection Hcase as ->. eauto.
Qed.




End LegacySide.

(** * The properties on concrete inputs *)

Import Sample.

(** A request with [Temperature: 1], [TopP: 0.5], 256 output tokens and the
    stop sequence END is converted, and the four values arrive. *)
Lemma convertRequest_config_forwarding_witness :
  exists req,
    convertRequest "gpt-4o" (requestWith (ai.ConfigCommon (Some fullConfig)) None) = Ok req /\
    ChatCompletionRequest_MaxTokens req = 256 /\
    ChatCompletionRequest_Stop req = ["END"] /\
    ChatCompletionRequest_Temperature req = Float.to_float32 (Float.lit 1 0) /\
    ChatCompletionRequest_TopP req = Float.to_float32 (Float.lit 1 (-1)) /\
    Float.same_value (ChatCompletionRequest_Temperature req) (ai.Temperature fullConfig)
      = true.
Proof.
  assert (exists req,
             convertRequest "gpt-4o" (requestWith (ai.ConfigCommon (Some fullConfig)) None)
             = Ok req) as [req Hreq]
    by (eexists; vm_compute; reflexivity).
  exists req. split; [exact Hreq|].
  destruct (convertRequest_config_forwarding
              "gpt-4o" (requestWith (ai.ConfigCommon (Some fullConfig)) None)
              fullConfig req eq_refl Hreq)
    as (_ & Hmax & _ & Hstop & _ & Htemp & _ & Htop & Hexact & _).
  split; [apply Hmax; discriminate|].
  split; [apply Hstop; discriminate|].
  split; [apply Htemp; reflexivity|].
  split; [apply Htop; reflexivity|].
  apply (Hexact (S754_finite false 8388608 (-23))); reflexivity.
Defined.

(** [Temperature: 0x1p-200] is a [float64] that is not zero, and the
    request that [convertRequest] returns for it has the temperature at
    its zero value: the value is not copied. *)
Lemma tiny_temperature_not_forwarded :
  Float.valid64 (ai.Temperature tinyConfig) = true /\
  Float.nonzero (ai.Temperature tinyConfig) = true /\
  exists req,
    convertRequest "gpt-4o" (requestWith (ai.ConfigCommon (Some tinyConfig)) None) = Ok req /\
    ChatCompletionRequest_Temperature req = Float.zero /\
    Float.same_value (ChatCompletionRequest_Temperature req) (ai.Temperature tinyConfig)
      = false.
Proof.
  split; [reflexivity|]. split; [reflexivity|].
  eexists. split; [vm_compute; reflexivity|].
  split; reflexivity.
Qed.

(** [Temperature: 0.1] arrives as the [float32] next to 0.1, which is
    another number than the [float64] 0.1 of the config; [Temperature: 1]
    arrives as the same number. *)
Example tenth_temperature_rounded :
  Float.to_float32 (ai.Temperature tenthConfig) = S754_finite false 13421773 (-27) /\
  Float.same_value (Float.to_float32 (ai.Temperature tenthConfig))
                   (ai.Temperature tenthConfig) = false /\
  Float.same_value (Float.to_float32 (ai.Temperature fullConfig))
                   (ai.Temperature fullConfig) = true.
Proof. repeat split; reflexivity. Qed.

Lemma translateCandidate_finish_reason_total_witness :
  translateFinishReason "length" = ai.FinishReasonLength /\
  translateFinishReason "eos" = ai.FinishReasonUnknown /\
  exists c, translateCandidate (choiceWith "hi" [] "eos") false = Ok c /\
            Candidate_FinishReason c = ai.FinishReasonUnknown.
Proof.
  destruct (translateCandidate_finish_reason_total (choiceWith "hi" [] "length") false)
    as [(_ & Hlength & _) _].
  destruct (translateCandidate_finish_reason_total (choiceWith "hi" [] "eos") false)
    as [(_ & _ & _ & _ & _ & Hunknown) Hcandidate].
  split; [apply Hlength; reflexivity|].
  assert (translateFinishReason "eos" = ai.FinishReasonUnknown) as Heos.
  { apply Hunknown. simpl. intuition discriminate. }
  split; [exact Heos|].
  eexists. split; [reflexivity|]. simpl in *. exact Heos.
Defined.

Lemma convertRequest_response_format_witness :
  exists req,
    convertRequest "gpt-4o" (requestWith ai.ConfigNil (outputOf ai.OutputFormatJSON)) = Ok req /\
    exists schema,
      ChatCompletionRequest_ResponseFormat req =
        Some {| ResponseFormat_Type := "json_object";
                ResponseFormat_JSONSchema :=
                  Some {| JSONSchema_Name := EmptyString;
                          JSONSchema_Description := EmptyString;
                          JSONSchema_Schema := Some schema;
                          JSONSchema_Strict := true |} |} /\
      MarshalJSON schema = Some emptyObject.
Proof.
  assert (exists messages, convertMessages [helpful; hello] = Ok messages)
    as [messages Hmessages] by (eexists; vm_compute; reflexivity).
  destruct (convertRequest_response_format
              "gpt-4o" (requestWith ai.ConfigNil (outputOf ai.OutputFormatJSON))
              (outputValue ai.OutputFormatJSON)
              messages [] eq_refl (or_introl eq_refl) Hmessages eq_refl)
    as (req & Hreq & Hjson & _ & _).
  exists req. split; [exact Hreq|].
  exact (Hjson eq_refl eq_refl).
Defined.

Lemma convertRequest_unknown_format_witness :
  convertRequest "gpt-4o" (requestWith ai.ConfigNil (outputOf "xml"))
    = Err ErrUnknownPartType /\
  exists req,
    convertRequest goopenai.GPT4 (requestWith ai.ConfigNil (outputOf "xml")) = Ok req /\
    ChatCompletionRequest_ResponseFormat req = None.
Proof.
  split.
  - destruct (convertRequest_unknown_format
                "gpt-4o" (requestWith ai.ConfigNil (outputOf "xml"))
                (outputValue "xml") eq_refl)
      as [Hlisted _]; [discriminate | discriminate | discriminate |].
    destruct (Hlisted eq_refl eq_refl) as (e & He & Hwhich).
    rewrite He. f_equal. apply Hwhich; reflexivity.
  - assert (exists messages, convertMessages [helpful; hello] = Ok messages)
      as [messages Hmessages] by (eexists; vm_compute; reflexivity).
    destruct (convertRequest_unknown_format
                goopenai.GPT4 (requestWith ai.ConfigNil (outputOf "xml"))
                (outputValue "xml") eq_refl)
      as [_ Hunlisted]; [discriminate | discriminate | discriminate |].
    exact (Hunlisted eq_refl messages [] Hmessages eq_refl).
Defined.

(** The format xml is none of JSON, text and the empty string, and
    [convertRequest] returns a request for it, without a response format,
    when the model is gpt-4, which [modelsSupportingResponseFormats] does
    not list. *)
Lemma unknown_format_passes_outside_allow_list :
  (exists out,
      Request_Output (requestWith ai.ConfigNil (outputOf "xml")) = Some out /\
      Output_Format out <> ai.OutputFormatJSON /\
      Output_Format out <> ai.OutputFormatText /\
      Output_Format out <> EmptyString) /\
  slices_Contains modelsSupportingResponseFormats goopenai.GPT4 = false /\
  (exists req,
      convertRequest goopenai.GPT4 (requestWith ai.ConfigNil (outputOf "xml")) = Ok req /\
      ChatCompletionRequest_ResponseFormat req = None) /\
  ~ (exists e,
        convertRequest goopenai.GPT4 (requestWith ai.ConfigNil (outputOf "xml")) = Err e).
Proof.
  split.
  { eexists. split; [reflexivity|]. repeat split; discriminate. }
  split; [reflexivity|].
  split.
  { eexists. split; [vm_compute; reflexivity | reflexivity]. }
  intros [e He]. vm_compute in He. discriminate He.
Qed.

Lemma translateCandidate_message_witness :
  (exists c,
      translateCandidate (choiceWith "ignored" [lookupCall emptyObject] "tool_calls") false
      = Ok c /\
      Message_Content (Candidate_Message c) =
        [ToolRequestPart {| ToolRequest_Name := "lookup";
                            ToolRequest_Input := emptyObject |}]) /\
  (exists c,
      translateCandidate (choiceWith "France" [] "stop") true = Ok c /\
      Message_Content (Candidate_Message c) = [DataPart "France"]).
Proof.
  split.
  - destruct (translateCandidate_message
                (choiceWith "ignored" [lookupCall emptyObject] "tool_calls") false)
      as (Hcalls & _ & _).
    destruct Hcalls as (c & Hc & _ & _ & Hparts).
    + discriminate.
    + repeat constructor. exists emptyObject. reflexivity.
    + exists c. split; [exact Hc|].
      inversion Hparts as [|call part calls parts (input & Hinput & Hpart) Hrest Hl Hr].
      inversion Hrest. subst. simpl in Hinput.
      injection Hinput as <-. reflexivity.
  - destruct (translateCandidate_message (choiceWith "France" [] "stop") true)
      as (_ & Hnone & _).
    destruct (Hnone eq_refl) as (c & Hc & _ & Hcontent).
    exists c. split; [exact Hc | exact Hcontent].
Defined.

Lemma role_mapping_round_trip_witness :
  (exists v, fromAIRoleToOpenAIRole ai.RoleModel = Ok v /\ toOpenAIRole v = Ok ai.RoleModel) /\
  fromAIRoleToOpenAIRole "admin" = Panic (PanicUnknownAIRole "admin").
Proof.
  destruct role_mapping_round_trip as [Hknown Hother].
  split.
  - apply Hknown. simpl. auto.
  - apply Hother. simpl. intuition discriminate.
Defined.


(** On a host that refuses a name it has registered before, [Init]
    succeeds on a fresh world, and after it [DefineModel] without
    capabilities returns the error for an unknown name and hands a known
    name, which [Init] has registered, to the host a second time. *)
Example DefineModel_on_strict_host :
  let w := snd (Init (host := strictHost) noEnvironment background keyConfig
                     freshStrictWorld) in
  fst (Init (host := strictHost) noEnvironment background keyConfig freshStrictWorld)
    = Ok tt /\
  fst (DefineModel (host := strictHost) "gpt-5" None w)
    = Err (ErrUnknownModelNoCaps provider "gpt-5") /\
  fst (DefineModel (host := strictHost) goopenai.GPT4 None w)
    = Panic (PanicHost "already registered") /\
  isOk (fst (DefineModel (host := strictHost) "gpt-5" (Some BasicText) w)) = true.
Proof. vm_compute. repeat split; reflexivity. Qed.

(** C8, as the claim states it, fails on that host: [Init] has succeeded
    and gpt-4 is a key of [knownCaps], and [DefineModel] without
    capabilities does not succeed for it, because [Init] has registered
    the name already. *)
Lemma DefineModel_known_name_refused :
  let r := Init (host := strictHost) noEnvironment background keyConfig
                freshStrictWorld in
  fst r = Ok tt /\
  In goopenai.GPT4
     [goopenai.GPT4o; goopenai.GPT4oMini; goopenai.GPT4Turbo; goopenai.GPT4] /\
  is_Some (knownCaps !! goopenai.GPT4) /\
  isOk (fst (DefineModel (host := strictHost) goopenai.GPT4 None (snd r))) = false /\
  fst (DefineModel (host := strictHost) goopenai.GPT4 None (snd r))
    = Panic (PanicHost "already registered").
Proof.
  vm_compute. split; [reflexivity|]. split; [auto 10|].
  split; [eexists; reflexivity|]. split; reflexivity.
Qed.

Lemma convertMessages_first_part_required_witness :
  let silent := {| Message_Role := ai.RoleSystem; Message_Content := [] |} in
  convertMessages [hello; silent; hello] = Panic (PanicIndexOutOfRange 0 0) /\
  convertMessage helpful = Ok [textMessage "system" "You are helpful."].
Proof.
  intros silent.
  split.
  - assert (exists converted, convertMessages [hello] = Ok converted)
      as [converted Hconverted] by (eexists; vm_compute; reflexivity).
    destruct (convertMessages_first_part_required
                "gpt-4o"
                {| Request_Candidates := 1; Request_Config := ai.ConfigNil;
                   Request_Messages := [hello] ++ silent :: [hello];
                   Request_Output := None; Request_Tools := [] |}
                [hello] [hello] silent converted eq_refl Hconverted
                (or_introl eq_refl))
      as [Hempty _].
    destruct (Hempty eq_refl) as [Hpanic _]. exact Hpanic.
  - destruct (convertMessages_first_part_required
                "gpt-4o"
                {| Request_Candidates := 1; Request_Config := ai.ConfigNil;
                   Request_Messages := [] ++ helpful :: [];
                   Request_Output := None; Request_Tools := [] |}
                [] [] helpful [] eq_refl eq_refl (or_introl eq_refl))
      as [_ Hfirst].
    destruct (Hfirst _ _ eq_refl) as (role & Hrole & Hm).
    injection Hrole as <-. exact Hm.
Defined.

(** ** The further properties on concrete inputs *)

Ltac each_by tac :=
  repeat first [ apply List.Forall_nil | apply List.Forall_cons; [ tac | ] ].

Ltac either := first [ left; reflexivity | right; reflexivity ].

Lemma convertMessage_user_witness :
  (exists multiContent,
      convertMessage photo =
        Ok [ {| ChatCompletionMessage_Role := "user";
                ChatCompletionMessage_Content := EmptyString;
                ChatCompletionMessage_MultiContent := multiContent;
                ChatCompletionMessage_Name := EmptyString;
                ChatCompletionMessage_ToolCalls := [];
                ChatCompletionMessage_ToolCallID := EmptyString |} ] /\
      length multiContent = 2%nat) /\
  convertMessage dataFromUser = Err ErrUnknownPartType.
Proof.
  split.
  - destruct (convertMessage_user photo eq_refl) as [Hgood _].
    destruct Hgood as (multiContent & Hm & Hparts).
    + each_by either.
    + exists multiContent. split; [exact Hm|].
      symmetry. exact (Forall2_length _ _ _ Hparts).
  - destruct (convertMessage_user dataFromUser eq_refl) as [_ Hbad].
    apply Hbad. right. left. split; reflexivity.
Defined.

Lemma convertMessage_tool_witness :
  (exists msgs, convertMessage answerLookup = Ok msgs /\ length msgs = 2%nat) /\
  convertMessage {| Message_Role := ai.RoleTool; Message_Content := [] |} = Ok [] /\
  convertMessage {| Message_Role := ai.RoleTool; Message_Content := [TextPart "done"] |}
    = Panic PanicNilDereference.
Proof.
  split; [|split].
  - destruct (convertMessage_tool answerLookup eq_refl) as (_ & Hall & _).
    destruct (Hall [lookupResponse; lookupResponse] eq_refl) as (msgs & Hm & Hrel).
    + repeat constructor; exists emptyObject; reflexivity.
    + exists msgs. split; [exact Hm|].
      symmetry. exact (Forall2_length _ _ _ Hrel).
  - destruct (convertMessage_tool
                {| Message_Role := ai.RoleTool; Message_Content := [] |} eq_refl)
      as (Hempty & _ & _).
    exact (Hempty eq_refl).
  - destruct (convertMessage_tool
                {| Message_Role := ai.RoleTool; Message_Content := [TextPart "done"] |}
                eq_refl)
      as (_ & _ & Hother).
    exact (Hother _ _ eq_refl eq_refl).
Defined.

Lemma convertMessage_model_tool_requests_witness :
  exists toolCalls,
    convertMessage askLookup =
      Ok [ {| ChatCompletionMessage_Role := "assistant";
              ChatCompletionMessage_Content := EmptyString;
              ChatCompletionMessage_MultiContent := [];
              ChatCompletionMessage_Name := EmptyString;
              ChatCompletionMessage_ToolCalls := toolCalls;
              ChatCompletionMessage_ToolCallID := EmptyString |} ] /\
    length toolCalls = 1%nat.
Proof.
  destruct (convertMessage_model_tool_requests askLookup eq_refl)
    as (toolCalls & Hm & Hrel).
  - discriminate.
  - repeat constructor. exists emptyObject. reflexivity.
  - exists toolCalls. split; [exact Hm|].
    symmetry. exact (Forall2_length _ _ _ Hrel).
Defined.

Lemma convertMessages_roles_in_order_witness :
  exists msgs,
    convertMessages [helpful; photo; askLookup; answerLookup] = Ok msgs /\
    map ChatCompletionMessage_Role msgs = ["system"; "user"; "assistant"; "tool"; "tool"].
Proof.
  assert (exists msgs,
             convertMessages [helpful; photo; askLookup; answerLookup] = Ok msgs)
    as [msgs Hmsgs] by (eexists; vm_compute; reflexivity).
  exists msgs. split; [exact Hmsgs|].
  rewrite (convertMessages_roles_in_order _ msgs Hmsgs). reflexivity.
Defined.

Lemma convertMessages_only_error_witness :
  exists e, convertMessages [hello; dataFromUser; photo] = Err e /\ e = ErrUnknownPartType.
Proof.
  assert (exists e, convertMessages [hello; dataFromUser; photo] = Err e)
    as [e He] by (eexists; vm_compute; reflexivity).
  exists e. split; [exact He|].
  exact (proj1 (convertMessages_only_error _ e He)).
Defined.

Lemma convertTools_outcome_witness :
  (exists outTools, convertTools [lookupTool] = Ok outTools /\ length outTools = 1%nat) /\
  convertTools (codec := pickyCodec) [unencodableTool] = Err ErrMarshalRaw.
Proof.
  split.
  - destruct (convertTools_outcome [lookupTool]) as [Hgood _].
    destruct Hgood as (outTools & Hout & Hrel).
    + repeat constructor. exists emptyObject. reflexivity.
    + exists outTools. split; [exact Hout|].
      symmetry. exact (Forall2_length _ _ _ Hrel).
  - destruct (convertTools_outcome (codec := pickyCodec) [unencodableTool]) as [_ Hbad].
    apply Hbad. left. reflexivity.
Defined.

Lemma convertRequest_carries_witness :
  exists req,
    convertRequest "gpt-4o" (requestOf [helpful; hello] None) = Ok req /\
    ChatCompletionRequest_Model req = "gpt-4o" /\
    ChatCompletionRequest_N req = 2 /\
    convertMessages [helpful; hello] = Ok (ChatCompletionRequest_Messages req) /\
    convertTools [lookupTool] = Ok (ChatCompletionRequest_Tools req).
Proof.
  assert (exists req, convertRequest "gpt-4o" (requestOf [helpful; hello] None) = Ok req)
    as [req Hreq] by (eexists; vm_compute; reflexivity).
  exists req. split; [exact Hreq|].
  exact (convertRequest_carries "gpt-4o" (requestOf [helpful; hello] None) req Hreq).
Defined.

Lemma convertRequest_without_config_witness :
  exists req,
    convertRequest "gpt-4o" (requestOf [hello] None) = Ok req /\
    ChatCompletionRequest_MaxTokens req = 0 /\
    ChatCompletionRequest_Temperature req = Float.zero.
Proof.
  assert (exists req, convertRequest "gpt-4o" (requestOf [hello] None) = Ok req)
    as [req Hreq] by (eexists; vm_compute; reflexivity).
  exists req. split; [exact Hreq|].
  destruct (convertRequest_without_config "gpt-4o" (requestOf [hello] None) req
              (or_introl eq_refl) Hreq)
    as (Hmax & _ & Htemp & _).
  split; assumption.
Defined.

Lemma convertRequest_no_format_witness :
  (exists req,
      convertRequest "gpt-4o" (requestOf [hello] None) = Ok req /\
      ChatCompletionRequest_ResponseFormat req = None) /\
  (exists req,
      convertRequest "gpt-4o" (requestOf [hello] (outputOf EmptyString)) = Ok req /\
      ChatCompletionRequest_ResponseFormat req = None).
Proof.
  assert (exists messages, convertMessages [hello] = Ok messages)
    as [messages Hm] by (eexists; vm_compute; reflexivity).
  assert (exists tools, convertTools [lookupTool] = Ok tools)
    as [tools Ht] by (eexists; vm_compute; reflexivity).
  split.
  - exact (convertRequest_no_format "gpt-4o" (requestOf [hello] None) messages tools
             (or_introl eq_refl) Hm Ht).
  - exact (convertRequest_no_format "gpt-4o" (requestOf [hello] (outputOf EmptyString))
             messages tools
             (or_intror (ex_intro _ (outputValue EmptyString) (conj eq_refl eq_refl)))
             Hm Ht).
Defined.

Lemma convertRequest_special_temperatures_witness :
  exists req,
    convertRequest "gpt-4o" (requestWith (ai.ConfigCommon (Some oddConfig)) None) = Ok req /\
    ChatCompletionRequest_Temperature req = S754_nan /\
    ChatCompletionRequest_TopP req = S754_zero false.
Proof.
  assert (exists req,
             convertRequest "gpt-4o" (requestWith (ai.ConfigCommon (Some oddConfig)) None)
             = Ok req) as [req Hreq]
    by (eexists; vm_compute; reflexivity).
  exists req. split; [exact Hreq|].
  destruct (convertRequest_special_temperatures "gpt-4o"
              (requestWith (ai.ConfigCommon (Some oddConfig)) None) oddConfig req
              eq_refl Hreq)
    as (Hnan & _ & _ & _ & _ & Hzero).
  split; [exact (Hnan eq_refl) | exact (Hzero eq_refl)].
Defined.

Lemma vendor_role_round_trip_witness :
  (exists r, toOpenAIRole "assistant" = Ok r /\ fromAIRoleToOpenAIRole r = Ok "assistant") /\
  toOpenAIRole "developer" = Panic (PanicUnknownRole "developer").
Proof.
  destruct vendor_role_round_trip as (Hfour & _ & Hother).
  split.
  - apply Hfour. simpl. auto.
  - apply Hother. simpl. intuition discriminate.
Defined.

Lemma translateCandidate_shape_witness :
  exists c,
    translateCandidate (choiceWith "ignored" [lookupCall emptyObject] "tool_calls") true
      = Ok c /\
    Candidate_Index c = 0 /\
    Message_Content (Candidate_Message c) <> [].
Proof.
  assert (exists c,
             translateCandidate
               (choiceWith "ignored" [lookupCall emptyObject] "tool_calls") true = Ok c)
    as [c Hc] by (eexists; vm_compute; reflexivity).
  exists c. split; [exact Hc|].
  destruct (translateCandidate_shape _ _ c Hc) as (Hindex & _ & Hparts & _).
  split; assumption.
Defined.

Lemma translateResponse_returns_witness :
  exists r,
    translateResponse franceResponse false = Ok r /\
    map Candidate_Index (Response_Candidates r) = [0; 0] /\
    ai.TotalTokens (Response_Usage r) = 12 /\
    Response_Request r = None.
Proof.
  destruct (translateResponse_returns franceResponse false)
    as (r & Hr & _ & Hindex & Husage & _ & Hrequest).
  - repeat constructor.
  - exists r. split; [exact Hr|]. split; [exact Hindex|].
    split; [rewrite Husage; reflexivity | exact Hrequest].
Defined.

Lemma translateResponse_failure_witness :
  isPanic (translateResponse brokenResponse false) = true.
Proof.
  destruct (translateResponse_failure brokenResponse false) as [_ Hiff].
  apply Hiff.
  exists (choiceWith "ignored" [lookupCall "oops"] goopenai.FinishReasonToolCalls),
         (lookupCall "oops").
  split; [right; left; reflexivity|]. split; [left; reflexivity | reflexivity].
Defined.

Lemma generate_translation_failure_witness :
  run nat franceVendor refusingCallback
      (generate background someClient "gpt-4o" (requestOf [dataFromUser] None) someCallback)
      0%nat []
  = (Err ErrUnknownPartType, 0%nat, []).
Proof.
  destruct (generate_translation_failure nat franceVendor refusingCallback
              background someClient "gpt-4o" (requestOf [dataFromUser] None)
              someCallback 0%nat []) as [Herr _].
  apply Herr. reflexivity.
Defined.

Lemma generate_vendor_failure_witness :
  fst (run nat failingVendor refusingCallback
           (generate background someClient "gpt-4o" (requestOf [hello] None) someCallback)
           0%nat [])
  = (Err (ErrVendor "status code: 429"), 1%nat).
Proof.
  assert (exists req, convertRequest "gpt-4o" (requestOf [hello] None) = Ok req)
    as [req Hreq] by (eexists; vm_compute; reflexivity).
  destruct (generate_vendor_failure nat failingVendor refusingCallback
              background someClient "gpt-4o" (requestOf [hello] None)
              someCallback req 0%nat [] Hreq) as (Hworld & Herr & _).
  specialize (Herr _ eq_refl).
  match goal with |- ?x = _ => rewrite (surjective_pairing x) end.
  rewrite Herr, Hworld. reflexivity.
Defined.

Lemma generate_returns_witness :
  exists r,
    fst (fst (run nat franceVendor refusingCallback
                  (generate background someClient "gpt-4o" (requestOf [hello] None)
                            someCallback)
                  0%nat []))
      = Ok r /\
    Response_Request r = Some (requestOf [hello] None) /\
    length (Response_Candidates r) = 2%nat.
Proof.
  assert (exists req, convertRequest "gpt-4o" (requestOf [hello] None) = Ok req)
    as [req Hreq] by (eexists; vm_compute; reflexivity).
  destruct (generate_returns nat franceVendor refusingCallback
              background someClient "gpt-4o" (requestOf [hello] None)
              someCallback req franceResponse 0%nat [] Hreq eq_refl)
    as (r & Hr & Hrequest & _ & _ & Hcs).
  - repeat constructor.
  - exists r. split; [exact Hr|]. split; [exact Hrequest|].
    symmetry. exact (Forall2_length _ _ _ Hcs).
Defined.

Lemma generate_json_mode_unlisted_model_witness :
  exists r,
    fst (fst (run nat franceVendor refusingCallback
                  (generate background someClient goopenai.GPT4
                            (requestOf [hello] (outputOf ai.OutputFormatJSON))
                            someCallback)
                  0%nat []))
      = Ok r /\
    map (fun c => Message_Content (Candidate_Message c)) (Response_Candidates r)
      = [[DataPart "France"]; [DataPart "Gaul"]].
Proof.
  assert (exists req,
             convertRequest goopenai.GPT4
               (requestOf [hello] (outputOf ai.OutputFormatJSON)) = Ok req)
    as [req Hreq] by (eexists; vm_compute; reflexivity).
  destruct (generate_json_mode_unlisted_model nat franceVendor refusingCallback
              background someClient goopenai.GPT4
              (requestOf [hello] (outputOf ai.OutputFormatJSON))
              someCallback (outputValue ai.OutputFormatJSON) req franceResponse
              0%nat [] eq_refl eq_refl eq_refl Hreq eq_refl)
    as (_ & r & Hr & Hparts).
  - repeat constructor.
  - exists r. split; [exact Hr | exact Hparts].
Defined.

Lemma Init_key_witness :
  world_state (snd (Init (fun _ => "sk-env") background keyConfig freshWorld))
    = {| state_initted := true; state_client := Some (NewClient "sk-test") |} /\
  world_state (snd (Init (fun _ => "sk-env") background None freshWorld))
    = {| state_initted := true; state_client := Some (NewClient "sk-env") |} /\
  Init noEnvironment background None freshWorld
    = (Err (ErrInit provider (ErrNoAPIKey apiKeyEnv)), freshWorld).
Proof.
  split; [|split].
  - destruct (Init_key (fun _ => "sk-env") background keyConfig freshWorld eq_refl)
      as (Hconfig & _ & _).
    apply (Hconfig {| Config_APIKey := "sk-test" |} eq_refl). discriminate.
  - destruct (Init_key (fun _ => "sk-env") background None freshWorld eq_refl)
      as (_ & Henv & _).
    apply Henv; [left; reflexivity | discriminate].
  - destruct (Init_key noEnvironment background None freshWorld eq_refl)
      as (_ & _ & Hnone).
    apply Hnone; [left; reflexivity | reflexivity].
Defined.

Lemma state_stable_witness :
  world_state (afterCalls (snd (Init noEnvironment background keyConfig freshWorld))
                          someCalls)
  = {| state_initted := true; state_client := Some (NewClient "sk-test") |}.
Proof.
  assert (state_initted
            (world_state (snd (Init noEnvironment background keyConfig freshWorld)))
          = true) as Hinitted by (vm_compute; reflexivity).
  etransitivity;
    [ exact (state_stable (snd (Init noEnvironment background keyConfig freshWorld))
                          someCalls Hinitted)
    | vm_compute; reflexivity ].
Defined.

Lemma Init_registers_known_models_witness :
  exists entries,
    length entries = 4%nat /\
    defineEach entries (world_host freshWorld)
    = (Returned tt,
       world_host (snd (Init noEnvironment background keyConfig freshWorld))).
Proof.
  destruct (Init_registers_known_models noEnvironment background keyConfig freshWorld
              (snd (Init noEnvironment background keyConfig freshWorld)) eq_refl)
    as (entries & Hperm & Heach).
  exists entries. split; [|exact Heach].
  rewrite (Permutation_length Hperm). reflexivity.
Defined.

Lemma legacy_convertParts_outcome_witness :
  (exists msgs,
      Legacy.convertParts [TextPart "Hello"; ToolRequestPart lookupRequest]
        = Legacy.Value msgs /\
      map ChatCompletionMessage_Role msgs = ["user"; "assistant"]) /\
  (exists p,
      Legacy.convertParts [TextPart "Hello"; MediaPart "image/png" "cat.png"]
        = Legacy.Panics p) /\
  (exists p,
      Legacy.convertParts (codec := pickyCodec)
        [TextPart "Hello"; ToolRequestPart unencodableRequest] = Legacy.Panics p).
Proof.
  split; [|split].
  - destruct (legacy_convertParts_outcome
                [TextPart "Hello"; ToolRequestPart lookupRequest]) as (_ & _ & Hgood).
    destruct Hgood as (msgs & Hmsgs & Hrel).
    + repeat constructor.
    + repeat constructor. exists emptyObject. reflexivity.
    + exists msgs. split; [exact Hmsgs|].
      inversion Hrel as [|p1 m1 ps1 ms1 H1 Hrest]; subst.
      inversion Hrest as [|p2 m2 ps2 ms2 H2 Hnil]; subst.
      inversion Hnil; subst.
      destruct H2 as (content & _ & ->). reflexivity.
  - destruct (legacy_convertParts_outcome
                [TextPart "Hello"; MediaPart "image/png" "cat.png"]) as (_ & Hbad & _).
    apply Hbad. right. left. left. reflexivity.
  - destruct (legacy_convertParts_outcome (codec := pickyCodec)
                [TextPart "Hello"; ToolRequestPart unencodableRequest]) as (_ & Hbad & _).
    apply Hbad. right. left. right. right. intros [content Hcontent]. discriminate.
Defined.

